(** * bo2box: the hotel-booking ETL jobs (etl_fact.py, etl_dims.py,
    etl_data_mart.py) as a shallow embedding, and the properties of their
    transform, merge and reconcile rules.

    Layout: [Py] holds the Python values that sit in table cells and the
    string operations the jobs call on them; [Pandas] holds the tabular batch
    (DataFrame) and the library operations the jobs use; [Job] is the small
    monad in which the three [main] functions run (console output, warehouse
    writes, uncaught exceptions); [EtlFact], [EtlDims] and [EtlDataMart]
    follow the three source files function by function.  The lemmas come
    after all the definitions. *)

From Stdlib Require Import ZArith String Ascii Bool Lia DecimalString.
From Stdlib Require Import List Permutation.
From Stdlib Require Import Floats.SpecFloat.
Import ListNotations.

Open Scope string_scope.
Open Scope list_scope.
Open Scope Z_scope.

(* ===================================================================== *)
(** * Python values and exceptions *)
(* ===================================================================== *)

Module Py.

(** What a cell of a batch can hold.  [VFloat S754_nan] is NaN, the missing
    value pandas writes into numeric and object columns and, with its string
    column type, reads a SQL NULL of a text column as; [VNone] is Python's
    [None], which an object column holds for such a NULL.  A timestamp is
    counted in seconds. *)
Inductive value : Type :=
| VNone
| VBool (b : bool)
| VInt (z : Z)
| VFloat (f : spec_float)
| VStr (s : string)
| VTimestamp (t : Z).

Definition NaN : value := VFloat S754_nan.

(** The exceptions that the modelled calls can raise. *)
Inductive exn : Type :=
| KeyError (label : string)
| AttributeError (attr : string)
| ValueError (what : string)
| TypeError (what : string)
| MergeError (what : string).

Inductive res (A : Type) : Type :=
| Ok (a : A)
| Raise (e : exn).
Arguments Ok {A} a.
Arguments Raise {A} e.

Definition bind {A B : Type} (m : res A) (k : A -> res B) : res B :=
  match m with
  | Ok a => k a
  | Raise e => Raise e
  end.

Fixpoint mapM {A B : Type} (f : A -> res B) (l : list A) : res (list B) :=
  match l with
  | [] => Ok []
  | a :: l' =>
      bind (f a) (fun b => bind (mapM f l') (fun bs => Ok (b :: bs)))
  end.

(** ** Equality of cells *)

Definition spec_float_eqb (f g : spec_float) : bool :=
  match f, g with
  | S754_zero s, S754_zero s' => Bool.eqb s s'
  | S754_infinity s, S754_infinity s' => Bool.eqb s s'
  | S754_nan, S754_nan => true
  | S754_finite s m e, S754_finite s' m' e' =>
      Bool.eqb s s' && Pos.eqb m m' && Z.eqb e e'
  | _, _ => false
  end.

(** Two cells of columns of one type are the same key (for [merge] and
    [drop_duplicates]) when they are the same value; NaN is the same key as
    NaN, as in pandas' hash tables. *)
Definition value_eqb (a b : value) : bool :=
  match a, b with
  | VNone, VNone => true
  | VBool x, VBool y => Bool.eqb x y
  | VInt x, VInt y => Z.eqb x y
  | VFloat x, VFloat y => spec_float_eqb x y
  | VStr x, VStr y => String.eqb x y
  | VTimestamp x, VTimestamp y => Z.eqb x y
  | _, _ => false
  end.

(** ** Keys as [isin] compares them *)

(** [isin] brings the two columns to a common type before it looks a cell
    up: two integers are compared as integers (a boolean counts as 0 or 1),
    an integer and a float as floats, so that 1.0 is found among the integers
    that hold 1; NaN is found among values that hold NaN, and 0.0 is -0.0; a
    number is never a string, None or a timestamp.  A column of integers that
    holds a NULL is read as floats, which is where the two kinds meet. *)
Definition float_of_int (z : Z) : spec_float := binary_normalize 53 1024 z 0 false.

Definition float_key_eqb (f g : spec_float) : bool :=
  match f, g with
  | S754_nan, S754_nan => true
  | _, _ => SFeqb f g
  end.

Inductive number : Type :=
| Whole (z : Z)
| Floating (f : spec_float).

Definition number_of (v : value) : option number :=
  match v with
  | VBool b => Some (Whole (if b then 1 else 0))
  | VInt z => Some (Whole z)
  | VFloat f => Some (Floating f)
  | _ => None
  end.

Definition as_float (n : number) : spec_float :=
  match n with
  | Whole z => float_of_int z
  | Floating f => f
  end.

Definition same_key (a b : value) : bool :=
  match number_of a, number_of b with
  | Some (Whole x), Some (Whole y) => Z.eqb x y
  | Some m, Some n => float_key_eqb (as_float m) (as_float n)
  | None, None => value_eqb a b
  | _, _ => false
  end.

(** [pd.isna]: None and NaN. *)
Definition is_null (v : value) : bool :=
  match v with
  | VNone => true
  | VFloat S754_nan => true
  | _ => false
  end.

(** Python truthiness, [bool(x)]. *)
Definition truthy (v : value) : bool :=
  match v with
  | VNone => false
  | VBool b => b
  | VInt z => negb (z =? 0)
  | VFloat (S754_zero _) => false
  | VFloat _ => true
  | VStr s => negb (String.eqb s "")
  | VTimestamp _ => true
  end.

(** ** Strings *)

Fixpoint string_map (f : ascii -> ascii) (s : string) : string :=
  match s with
  | EmptyString => EmptyString
  | String c s' => String (f c) (string_map f s')
  end.

Fixpoint string_filter (p : ascii -> bool) (s : string) : string :=
  match s with
  | EmptyString => EmptyString
  | String c s' => if p c then String c (string_filter p s') else string_filter p s'
  end.

Fixpoint string_forallb (p : ascii -> bool) (s : string) : bool :=
  match s with
  | EmptyString => true
  | String c s' => p c && string_forallb p s'
  end.

Definition is_upper_AZ (c : ascii) : bool :=
  let n := N_of_ascii c in (65 <=? n)%N && (n <=? 90)%N.

(** A character of the class [a-z]. *)
Definition is_lower_az (c : ascii) : bool :=
  let n := N_of_ascii c in (97 <=? n)%N && (n <=? 122)%N.

Definition lower_char (c : ascii) : ascii :=
  if is_upper_AZ c then ascii_of_N (N_of_ascii c + 32) else c.

(** [s.lower()]; characters are 8-bit and the letters that have a lower
    case are A to Z. *)
Definition lower (s : string) : string := string_map lower_char s.

(** [re.sub('[^a-z]', '', s)]: every character outside the class is
    removed. *)
Definition remove_non_az (s : string) : string := string_filter is_lower_az s.

(** [x.startswith(p)]: a method of [str] only. *)
Definition startswith (x : value) (p : string) : res bool :=
  match x with
  | VStr s => Ok (String.prefix p s)
  | _ => Raise (AttributeError "startswith")
  end.

(** [str(z)] for an integer. *)
Definition str_of_int (z : Z) : string := NilZero.string_of_int (Z.to_int z).

(** What the interpreter computes on floats and timestamps and is not
    spelled out here: parsing a float literal, and printing a float or a
    timestamp. *)
Record Runtime : Type := {
  parse_float : string -> option spec_float;
  repr_float : spec_float -> string;
  repr_timestamp : Z -> string
}.

(** [str(x)], as [f"{x}"] and [astype(str)] apply it to a cell. *)
Definition to_str (rt : Runtime) (x : value) : string :=
  match x with
  | VNone => "None"
  | VBool true => "True"
  | VBool false => "False"
  | VInt z => str_of_int z
  | VFloat f => repr_float rt f
  | VStr s => s
  | VTimestamp t => repr_timestamp rt t
  end.

(** [float(x)], as [astype(float)] applies it to a cell: an integer is
    rounded to the nearest binary64, a string is parsed, a missing value
    becomes NaN, a timestamp is refused. *)
Definition to_float (rt : Runtime) (x : value) : res value :=
  match x with
  | VNone => Ok NaN
  | VBool b => Ok (VFloat (binary_normalize 53 1024 (if b then 1 else 0) 0 false))
  | VInt z => Ok (VFloat (binary_normalize 53 1024 z 0 false))
  | VFloat f => Ok (VFloat f)
  | VStr s =>
      match parse_float rt s with
      | Some f => Ok (VFloat f)
      | None => Raise (ValueError "could not convert string to float")
      end
  | VTimestamp _ => Raise (TypeError "float() argument must be a string or a number")
  end.

End Py.

(* ===================================================================== *)
(** * The tabular batch and the pandas operations the jobs call *)
(* ===================================================================== *)

Module Pandas.
Import Py.

(** A batch: the column labels in order, and the rows in order, each row
    holding one cell per label.  The row index is left out: every write
    passes [index=False]. *)
Record DataFrame : Type := mkDF {
  columns : list string;
  rows : list (list value)
}.

Definition Series : Type := list value.

(** A batch as [pd.read_sql] returns it from [SELECT * FROM table]: the
    labels are pairwise distinct and every row has a cell for each. *)
Definition well_formed (df : DataFrame) : Prop :=
  NoDup (columns df) /\
  Forall (fun row => length row = length (columns df)) (rows df).

Definition has_column (c : string) (df : DataFrame) : bool :=
  existsb (String.eqb c) (columns df).

(** The cells of a row that stand under label [c]. *)
Fixpoint cells (c : string) (cols : list string) (row : list value) : list value :=
  match cols, row with
  | l :: cols', v :: row' =>
      if String.eqb c l then v :: cells c cols' row' else cells c cols' row'
  | _, _ => []
  end.

(** The cell of a row under a label that occurs once. *)
Definition cell (c : string) (cols : list string) (row : list value) : value :=
  hd NaN (cells c cols row).

(** [df[c]].  With a label that occurs more than once pandas returns a frame
    instead of a series; no call of the jobs is written for that, and the
    model stops there with an error. *)
Definition getitem (df : DataFrame) (c : string) : res Series :=
  match filter (String.eqb c) (columns df) with
  | [] => Raise (KeyError c)
  | [_] => Ok (map (cell c (columns df)) (rows df))
  | _ => Raise (ValueError "label is not unique")
  end.

(** [df[[c1, ..., cn]]]: every column carrying one of the labels, in the
    order asked; [KeyError] when a label is missing. *)
Definition select (df : DataFrame) (names : list string) : res DataFrame :=
  match find (fun c => negb (has_column c df)) names with
  | Some c => Raise (KeyError c)
  | None =>
      Ok (mkDF (flat_map (fun c => filter (String.eqb c) (columns df)) names)
               (map (fun row => flat_map (fun c => cells c (columns df) row) names)
                    (rows df)))
  end.

Fixpoint set_cell (c : string) (cols : list string) (row : list value) (v : value)
  : list value :=
  match cols, row with
  | l :: cols', x :: row' =>
      (if String.eqb c l then v else x) :: set_cell c cols' row' v
  | _, _ => row
  end.

(** [df[c] = s]: overwrite the column when the label exists, append it
    otherwise. *)
Definition setitem (df : DataFrame) (c : string) (s : Series) : DataFrame :=
  if has_column c df then
    mkDF (columns df)
         (map (fun rv => set_cell c (columns df) (fst rv) (snd rv))
              (combine (rows df) s))
  else
    mkDF (columns df ++ [c])
         (map (fun rv => fst rv ++ [snd rv]) (combine (rows df) s)).

(** [df[c] = v] for a scalar [v]: the scalar is broadcast to every row. *)
Definition setitem_scalar (df : DataFrame) (c : string) (v : value) : DataFrame :=
  setitem df c (map (fun _ => v) (rows df)).

Fixpoint assoc (l : string) (m : list (string * string)) : option string :=
  match m with
  | [] => None
  | (k, v) :: m' => if String.eqb l k then Some v else assoc l m'
  end.

Definition rename_label (m : list (string * string)) (l : string) : string :=
  match assoc l m with
  | Some l' => l'
  | None => l
  end.

(** [df.rename(columns=m)]: labels that are keys of [m] are replaced, keys
    that are not labels are ignored. *)
Definition rename (df : DataFrame) (m : list (string * string)) : DataFrame :=
  mkDF (map (rename_label m) (columns df)) (rows df).

(** [df.columns = labels]. *)
Definition set_columns (df : DataFrame) (labels : list string) : res DataFrame :=
  if Nat.eqb (length labels) (length (columns df)) then Ok (mkDF labels (rows df))
  else Raise (ValueError "Length mismatch").

Definition key_eqb (k k' : list value) : bool :=
  Nat.eqb (length k) (length k') &&
  forallb (fun ab => value_eqb (fst ab) (snd ab)) (combine k k').

(** Keep a row unless a row with the same key came before it. *)
Fixpoint keep_first (key : list value -> list value) (seen : list (list value))
  (l : list (list value)) : list (list value) :=
  match l with
  | [] => []
  | row :: l' =>
      if existsb (key_eqb (key row)) seen then keep_first key seen l'
      else row :: keep_first key (key row :: seen) l'
  end.

(** [df.drop_duplicates(subset=c)], with the default [keep='first']. *)
Definition drop_duplicates (df : DataFrame) (c : string) : res DataFrame :=
  if has_column c df then
    Ok (mkDF (columns df) (keep_first (cells c (columns df)) [] (rows df)))
  else Raise (KeyError c).

(** [s.isin(values)]. *)
Definition isin (s values : Series) : list bool :=
  map (fun v => existsb (same_key v) values) s.

(** [~mask]. *)
Definition invert (mask : list bool) : list bool := map negb mask.

(** [df[mask]] for a boolean series over the rows of [df]. *)
Definition getitem_mask (df : DataFrame) (mask : list bool) : DataFrame :=
  mkDF (columns df) (map fst (filter snd (combine (rows df) mask))).

(** [df.empty]. *)
Definition empty (df : DataFrame) : bool :=
  Nat.eqb (length (columns df)) 0 || Nat.eqb (length (rows df)) 0.

(** [s.apply(f)]: [f] on every cell in order; the first exception escapes. *)
Definition apply (f : value -> res value) (s : Series) : res Series := mapM f s.

(** [s.astype(float)] and [s.astype(str)]. *)
Definition astype_float (rt : Runtime) (s : Series) : res Series := mapM (to_float rt) s.
Definition astype_str (rt : Runtime) (s : Series) : Series :=
  map (fun v => VStr (to_str rt v)) s.

(** The [.str] methods work cell by cell: a string is transformed, a missing
    cell stays as it is, any other cell becomes NaN.  (The accessor's refusal
    of a column whose dtype is numeric is a matter of dtypes, which the batch
    does not record.) *)
Definition str_method (f : string -> string) (s : Series) : Series :=
  map (fun v => match v with
                | VStr x => VStr (f x)
                | _ => if is_null v then v else NaN
                end) s.

(** [s.str.lower()]. *)
Definition str_lower (s : Series) : Series := str_method lower s.

(** [s.str.replace('[^a-z]', '', regex=True)]. *)
Definition str_replace_non_az (s : Series) : Series := str_method remove_non_az s.

(** [l] is [l'] with some elements left out, the others in their order. *)
Inductive subsequence {A : Type} : list A -> list A -> Prop :=
| subsequence_nil : subsequence [] []
| subsequence_keep (x : A) (l l' : list A) :
    subsequence l l' -> subsequence (x :: l) (x :: l')
| subsequence_drop (x : A) (l l' : list A) :
    subsequence l l' -> subsequence l (x :: l').

(** ** [pd.merge(left, right, left_on=, right_on=, how='left', suffixes=)] *)

Definition overlapping (lcols rcols : list string) (c : string) : bool :=
  existsb (String.eqb c) lcols && existsb (String.eqb c) rcols.

(** A label present on both sides takes its side's suffix. *)
Definition with_suffix (lcols rcols : list string) (suffix c : string) : string :=
  if overlapping lcols rcols c then (c ++ suffix)%string else c.

(** Whether the renaming made two labels of one side collide that did not
    collide before. *)
Fixpoint introduces_duplicate (seen_old seen_new old new : list string) : bool :=
  match old, new with
  | o :: old', n :: new' =>
      (existsb (String.eqb n) seen_new && negb (existsb (String.eqb o) seen_old))
      || introduces_duplicate (o :: seen_old) (n :: seen_new) old' new'
  | _, _ => false
  end.

(** The key column of one side of the merge. *)
Definition merge_key (df : DataFrame) (c : string) : res unit :=
  match filter (String.eqb c) (columns df) with
  | [] => Raise (KeyError c)
  | [_] => Ok tt
  | _ => Raise (ValueError "The column label is not unique")
  end.

(** The right-hand halves a left row with key [k] is joined to: every right
    row with that key, in the order of the right side, or one row of missing
    values when no right row has it. *)
Definition matching_rows (right : DataFrame) (right_on : string) (k : value)
  : list (list value) :=
  match filter (fun rrow => value_eqb k (cell right_on (columns right) rrow))
               (rows right) with
  | [] => [map (fun _ => NaN) (columns right)]
  | matches => matches
  end.

(** The rows a left row gives. *)
Definition join_row (right : DataFrame) (right_on : string) (k : value)
  (lrow : list value) : list (list value) :=
  map (fun rrow => lrow ++ rrow) (matching_rows right right_on k).

Definition merge_left (left right : DataFrame) (left_on right_on : string)
  (lsuffix rsuffix : string) : res DataFrame :=
  bind (merge_key right right_on) (fun _ =>
  bind (merge_key left left_on) (fun _ =>
  let lcols := columns left in
  let rcols := columns right in
  let llabels := map (with_suffix lcols rcols lsuffix) lcols in
  let rlabels := map (with_suffix lcols rcols rsuffix) rcols in
  if existsb (overlapping lcols rcols) lcols
     && String.eqb lsuffix "" && String.eqb rsuffix ""
  then Raise (ValueError "columns overlap but no suffix specified")
  else if introduces_duplicate [] [] lcols llabels
          || introduces_duplicate [] [] rcols rlabels
  then Raise (MergeError "Passing 'suffixes' which cause duplicate columns")
  else
    Ok (mkDF (llabels ++ rlabels)
             (flat_map (fun lrow => join_row right right_on (cell left_on lcols lrow) lrow)
                       (rows left))))).

(** ** [left.merge(right, on=key, how='left')] *)

(** The cells of a row that do not stand under label [c]. *)
Fixpoint cells_without (c : string) (cols : list string) (row : list value)
  : list value :=
  match cols, row with
  | l :: cols', v :: row' =>
      if String.eqb c l then cells_without c cols' row'
      else v :: cells_without c cols' row'
  | _, _ => []
  end.

(** With one key label for both sides the result has the key column once,
    from the left side: the key column of the right side is dropped before
    the labels are compared for overlaps. *)
Definition merge_left_on (left right : DataFrame) (on lsuffix rsuffix : string)
  : res DataFrame :=
  bind (merge_key right on) (fun _ =>
  bind (merge_key left on) (fun _ =>
  let lcols := columns left in
  let rcols := filter (fun l => negb (String.eqb on l)) (columns right) in
  let llabels := map (with_suffix lcols rcols lsuffix) lcols in
  let rlabels := map (with_suffix lcols rcols rsuffix) rcols in
  if existsb (overlapping lcols rcols) lcols
     && String.eqb lsuffix "" && String.eqb rsuffix ""
  then Raise (ValueError "columns overlap but no suffix specified")
  else if introduces_duplicate [] [] lcols llabels
          || introduces_duplicate [] [] rcols rlabels
  then Raise (MergeError "Passing 'suffixes' which cause duplicate columns")
  else
    Ok (mkDF (llabels ++ rlabels)
             (flat_map
                (fun lrow =>
                   map (fun rrow => lrow ++ cells_without on (columns right) rrow)
                       (matching_rows right on (cell on lcols lrow)))
                (rows left))))).

(** ** Kinds of columns *)

(** The batch does not record the type of a column; where a call of pandas
    depends on it (a merge refuses an integer key against a text key, and a
    column of integers that receives a missing cell is widened to floats) a
    statement says of which kind the cells of the column are. *)
Definition is_int (v : value) : bool :=
  match v with
  | VInt _ => true
  | _ => false
  end.


(** Every cell under label [c] is of kind [p]. *)
Definition column_of (p : value -> bool) (c : string) (df : DataFrame) : bool :=
  forallb (fun row => p (cell c (columns df) row)) (rows df).

End Pandas.

(* ===================================================================== *)
(** * Running a job: console, warehouse, uncaught exceptions *)
(* ===================================================================== *)

Module Job.
Import Py Pandas.

Inductive message : Type :=
| ExtractError (table : string)      (* "An error occurred while extracting data from ..." *)
| ExtractionFailed                   (* "Extraction failed, aborting ETL process." *)
| InvalidStaysFound                  (* "Invalid stays found (no matching reservation):" *)
| Frame (df : DataFrame)             (* a printed batch *)
| Loaded (table : string)            (* "Data successfully loaded into ..." *)
| LoadError (table : string).        (* "An error occurred while loading data into ..." *)

Inductive if_exists : Type := Append | Replace.

(** What a run does to the outside, in order. *)
Inductive event : Type :=
| Printed (m : message)
| ToSql (table : string) (mode : if_exists) (df : DataFrame).

(** What a run reads from the outside: the source tables ([None] when the
    read raises), whether a write to a warehouse table succeeds, the clock
    (in seconds), and the interpreter's float and timestamp routines. *)
Record World : Type := {
  source : string -> option DataFrame;
  warehouse_accepts : string -> bool;
  now : Z;
  runtime : Runtime
}.

(** A job step: it extends the trace of events and returns, or raises. *)
Definition M (A : Type) : Type := list event -> res A * list event.

Definition ret {A : Type} (a : A) : M A := fun tr => (Ok a, tr).

Definition mbind {A B : Type} (m : M A) (k : A -> M B) : M B :=
  fun tr =>
    match m tr with
    | (Ok a, tr') => k a tr'
    | (Raise e, tr') => (Raise e, tr')
    end.

Definition emit (e : event) : M unit := fun tr => (Ok tt, tr ++ [e]).

Definition lift {A : Type} (r : res A) : M A := fun tr => (r, tr).

Definition run {A : Type} (m : M A) : res A * list event := m [].

(** The writes to the warehouse that a trace holds, in order. *)
Fixpoint writes (tr : list event) : list (string * if_exists * DataFrame) :=
  match tr with
  | [] => []
  | ToSql table mode df :: tr' => (table, mode, df) :: writes tr'
  | Printed _ :: tr' => writes tr'
  end.

End Job.

Declare Scope job_scope.
Delimit Scope job_scope with job.
Notation "x <- m ;; k" := (Job.mbind m (fun x => k))
  (at level 61, m at next level, right associativity) : job_scope.
Notation "m ;;; k" := (Job.mbind m (fun _ => k))
  (at level 61, right associativity) : job_scope.

Declare Scope res_scope.
Delimit Scope res_scope with res.
Notation "x <-- m ;; k" := (Py.bind m (fun x => k))
  (at level 61, m at next level, right associativity) : res_scope.
Notation "' p <-- m ;; k" := (Py.bind m (fun p => k))
  (at level 61, p pattern, m at next level, right associativity) : res_scope.

(* ===================================================================== *)
(** * etl_fact.py *)
(* ===================================================================== *)

Module EtlFact.
Import Py Pandas Job.

(** [extract_data(source_system)]: the table, or [None] after reporting the
    read error. *)
Definition extract_data (w : World) (source_system : string) : M (option DataFrame) :=
  match source w source_system with
  | Some df => ret (Some df)
  | None => (emit (Printed (ExtractError source_system)) ;;; ret None)%job
  end.

(** [transform_room_type(df)]. *)
Definition transform_room_type (df : DataFrame) : res DataFrame :=
  if has_column "room_type" df then
    (s <-- getitem df "room_type" ;;
     Ok (setitem df "room_type" (str_replace_non_az (str_lower s))))%res
  else Ok df.

(** The lambda of [transform_phone_number]:
    [f"+62{x}" if x and not x.startswith('+') else x]. *)
Definition phone_lambda (rt : Runtime) (x : value) : res value :=
  (cond <-- (if truthy x then (b <-- startswith x "+" ;; Ok (negb b)) else Ok false) ;;
   Ok (if cond : bool then VStr ("+62" ++ to_str rt x) else x))%res.

(** [transform_phone_number(df)]. *)
Definition transform_phone_number (rt : Runtime) (df : DataFrame) : res DataFrame :=
  if has_column "phone_number" df then
    (s <-- getitem df "phone_number" ;;
     s' <-- apply (phone_lambda rt) s ;;
     Ok (setitem df "phone_number" s'))%res
  else Ok df.

(** [transform_reservation_data(df)]. *)
Definition transform_reservation_data (rt : Runtime) (df : DataFrame) : res DataFrame :=
  (df <-- (if has_column "total_room_price" df then
             s <-- getitem df "total_room_price" ;;
             s' <-- astype_float rt s ;;
             Ok (setitem df "total_room_price" s')
           else Ok df) ;;
   df <-- (if has_column "total_discount" df then
             s <-- getitem df "total_discount" ;;
             s' <-- astype_float rt s ;;
             Ok (setitem df "total_discount" s')
           else Ok df) ;;
   Ok df)%res.

(** [prepare_fact_data(df, columns, id_col, new_id_col)]. *)
Definition prepare_fact_data (df : DataFrame) (columns : list string)
  (id_col new_id_col : string) : res DataFrame :=
  (df <-- select df columns ;;
   df <-- drop_duplicates df id_col ;;
   Ok (rename df [(id_col, new_id_col)]))%res.

(** [load_data(df, target_table)]: the write is attempted, and its outcome
    is reported either way. *)
Definition load_data (w : World) (df : DataFrame) (target_table : string) : M unit :=
  (emit (ToSql target_table Append df) ;;;
   if warehouse_accepts w target_table
   then emit (Printed (Loaded target_table))
   else emit (Printed (LoadError target_table)))%job.

(** [main], lines 118-121: "Transform data".  Returns
    [(rooms_df, users_df, reservations_df)]. *)
Definition main_transform (rt : Runtime) (reservations_df rooms_df users_df : DataFrame)
  : res (DataFrame * DataFrame * DataFrame) :=
  (rooms_df <-- transform_room_type rooms_df ;;
   users_df <-- transform_phone_number rt users_df ;;
   reservations_df <-- transform_reservation_data rt reservations_df ;;
   Ok (rooms_df, users_df, reservations_df))%res.

(** [main], lines 123-128: "Merge dataframes".  Returns
    [(stays_df, reservations_df)]. *)
Definition main_merge (reservations_df stays_df rooms_df users_df : DataFrame)
  : res (DataFrame * DataFrame) :=
  (rooms_cols <-- select rooms_df ["id"; "room_type"] ;;
   stays_df <-- merge_left stays_df rooms_cols "room_id" "id" "" "_room" ;;
   users_cols <-- select users_df ["id"; "phone_number"] ;;
   stays_df <-- merge_left stays_df users_cols "guest_id" "id" "" "_guest" ;;
   let stays_df := rename stays_df [("reference_reservation_id", "reservation_id")] in
   stays_key <-- select stays_df ["reservation_id"] ;;
   reservations_df <-- merge_left reservations_df stays_key "id" "reservation_id" "" "_stays" ;;
   Ok (stays_df, reservations_df))%res.

(** [main], lines 130-132: "Handle missing reservations for stays".  Returns
    [(valid_stays, invalid_stays)]. *)
Definition main_reconcile (stays_df reservations_df : DataFrame)
  : res (DataFrame * DataFrame) :=
  (s <-- getitem stays_df "reservation_id" ;;
   ids <-- getitem reservations_df "id" ;;
   let valid_stays := getitem_mask stays_df (isin s ids) in
   s <-- getitem stays_df "reservation_id" ;;
   ids <-- getitem reservations_df "id" ;;
   let invalid_stays := getitem_mask stays_df (invert (isin s ids)) in
   Ok (valid_stays, invalid_stays))%res.

(** [main], lines 134-137: "Log invalid stays for further investigation". *)
Definition main_log_invalid (invalid_stays : DataFrame) : M unit :=
  if negb (empty invalid_stays) then
    (emit (Printed InvalidStaysFound) ;;; emit (Printed (Frame invalid_stays)))%job
  else ret tt.

(** [main], lines 139-146: "Prepare fact tables".  Returns
    [(fact_reservations, fact_stays)]. *)
Definition main_prepare (reservations_df valid_stays : DataFrame)
  : res (DataFrame * DataFrame) :=
  (fact_reservations <--
     prepare_fact_data reservations_df
       ["id"; "reservation_datetime"; "check_in_date"; "check_out_date"; "status";
        "hotel_id"; "booker_id"; "total_room_price"; "voucher_code"; "total_discount"]
       "id" "reservation_id" ;;
   fact_stays <--
     prepare_fact_data valid_stays
       ["id"; "date"; "reservation_id"; "room_id"; "guest_id"]
       "id" "stay_id" ;;
   Ok (fact_reservations, fact_stays))%res.

(** [main]: extract, check, then the blocks above in their order, then the
    two loads. *)
Definition main (w : World) : M unit :=
  (reservations_df <- extract_data w "Reservations" ;;
   stays_df <- extract_data w "Stays" ;;
   rooms_df <- extract_data w "Rooms" ;;
   users_df <- extract_data w "Users" ;;
   match reservations_df, stays_df, rooms_df, users_df with
   | Some reservations_df, Some stays_df, Some rooms_df, Some users_df =>
       t <- lift (main_transform (runtime w) reservations_df rooms_df users_df) ;;
       let '(rooms_df, users_df, reservations_df) := t in
       m <- lift (main_merge reservations_df stays_df rooms_df users_df) ;;
       let '(stays_df, reservations_df) := m in
       r <- lift (main_reconcile stays_df reservations_df) ;;
       let '(valid_stays, invalid_stays) := r in
       main_log_invalid invalid_stays ;;;
       f <- lift (main_prepare reservations_df valid_stays) ;;
       let '(fact_reservations, fact_stays) := f in
       load_data w fact_reservations "fact_reservations" ;;;
       load_data w fact_stays "fact_stays"
   | _, _, _, _ => emit (Printed ExtractionFailed)
   end)%job.

End EtlFact.

(* ===================================================================== *)
(** * etl_dims.py *)
(* ===================================================================== *)

Module EtlDims.
Import Py Pandas Job.

Definition extract_data (w : World) (source_system : string) : M (option DataFrame) :=
  match source w source_system with
  | Some df => ret (Some df)
  | None => (emit (Printed (ExtractError source_system)) ;;; ret None)%job
  end.

(** The lambda of the [dim_guests] branch, the same text as in etl_fact.py. *)
Definition phone_lambda (rt : Runtime) (x : value) : res value :=
  (cond <-- (if truthy x then (b <-- startswith x "+" ;; Ok (negb b)) else Ok false) ;;
   Ok (if cond : bool then VStr ("+62" ++ to_str rt x) else x))%res.

(** [transform_dimension_data(df, dimension_type)]: the column is read
    without a test for its presence. *)
Definition transform_dimension_data (rt : Runtime) (df : DataFrame)
  (dimension_type : string) : res DataFrame :=
  if String.eqb dimension_type "dim_rooms" then
    (s <-- getitem df "room_type" ;;
     Ok (setitem df "room_type" (str_replace_non_az (str_lower s))))%res
  else if String.eqb dimension_type "dim_guests" then
    (s <-- getitem df "phone_number" ;;
     s' <-- apply (phone_lambda rt) s ;;
     Ok (setitem df "phone_number" s'))%res
  else Ok df.

Definition columns_map : list (string * list (string * string)) :=
  [ ("dim_reservations", [("id", "reservation_id")]);
    ("dim_stays", [("id", "stay_id"); ("reference_reservation_id", "reservation_id")]);
    ("dim_rooms", [("id", "room_id")]);
    ("dim_guests", [("id", "guest_id")]) ].

(** [columns_map.get(dimension_type, {})]. *)
Fixpoint get_or_empty (k : string) (m : list (string * list (string * string)))
  : list (string * string) :=
  match m with
  | [] => []
  | (k', v) :: m' => if String.eqb k k' then v else get_or_empty k m'
  end.

(** [t.normalize()]: midnight of the day of [t]. *)
Definition normalize (t : Z) : Z := t - t mod 86400.

(** [prepare_data(df, dimension_type)]; [clock] is what
    [pd.Timestamp.now()] reads during the call. *)
Definition prepare_data (clock : Z) (df : DataFrame) (dimension_type : string)
  : DataFrame :=
  let df := rename df (get_or_empty dimension_type columns_map) in
  let df := if negb (has_column "effective_date" df)
            then setitem_scalar df "effective_date" (VTimestamp (normalize clock))
            else df in
  let df := if negb (has_column "end_date" df)
            then setitem_scalar df "end_date" VNone
            else df in
  let df := if negb (has_column "current_flag" df)
            then setitem_scalar df "current_flag" (VBool true)
            else df in
  df.

Definition load_dimension_data (w : World) (df : DataFrame) (target_table : string)
  : M unit :=
  (emit (ToSql target_table Replace df) ;;;
   if warehouse_accepts w target_table
   then emit (Printed (Loaded target_table))
   else emit (Printed (LoadError target_table)))%job.

Definition main (w : World) : M unit :=
  (reservations_df <- extract_data w "Reservations" ;;
   stays_df <- extract_data w "Stays" ;;
   rooms_df <- extract_data w "Rooms" ;;
   guests_df <- extract_data w "Users" ;;
   match reservations_df, stays_df, rooms_df, guests_df with
   | Some reservations_df, Some stays_df, Some rooms_df, Some guests_df =>
       rooms_df <- lift (transform_dimension_data (runtime w) rooms_df "dim_rooms") ;;
       guests_df <- lift (transform_dimension_data (runtime w) guests_df "dim_guests") ;;
       let reservations_df := prepare_data (now w) reservations_df "dim_reservations" in
       let stays_df := prepare_data (now w) stays_df "dim_stays" in
       let rooms_df := prepare_data (now w) rooms_df "dim_rooms" in
       let guests_df := prepare_data (now w) guests_df "dim_guests" in
       load_dimension_data w reservations_df "dim_reservations" ;;;
       load_dimension_data w stays_df "dim_stays" ;;;
       load_dimension_data w rooms_df "dim_rooms" ;;;
       load_dimension_data w guests_df "dim_guests"
   | _, _, _, _ => emit (Printed ExtractionFailed)
   end)%job.

End EtlDims.

(* ===================================================================== *)
(** * etl_data_mart.py: the marketing mart *)
(* ===================================================================== *)

Module EtlDataMart.
Import Py Pandas Job.

Definition extract_data (w : World) (table : string) : M (option DataFrame) :=
  match source w table with
  | Some df => ret (Some df)
  | None => (emit (Printed (ExtractError table)) ;;; ret None)%job
  end.

Definition load_data (w : World) (df : DataFrame) (target_table : string) : M unit :=
  (emit (ToSql target_table Replace df) ;;;
   if warehouse_accepts w target_table
   then emit (Printed (Loaded target_table))
   else emit (Printed (LoadError target_table)))%job.

(** [create_marketing_mart], lines 51-62: from the two extracted batches to
    the batch that is loaded. *)
Definition marketing_mart_of (rt : Runtime) (reservations campaigns : DataFrame)
  : res DataFrame :=
  (v <-- getitem reservations "voucher_code" ;;
   let reservations := setitem reservations "voucher_code" (astype_str rt v) in
   i <-- getitem campaigns "id" ;;
   let campaigns := setitem campaigns "id" (astype_str rt i) in
   marketing_mart <-- merge_left reservations campaigns "voucher_code" "id" "_x" "_y" ;;
   marketing_mart <--
     select marketing_mart
       ["id_x"; "reservation_datetime"; "check_in_date"; "check_out_date";
        "total_room_price"; "total_discount"; "name"; "description"] ;;
   set_columns marketing_mart
     ["reservation_id"; "reservation_datetime"; "check_in_date"; "check_out_date";
      "total_room_price"; "total_discount"; "campaign_name"; "campaign_description"])%res.

(** [create_marketing_mart()]. *)
Definition create_marketing_mart (w : World) : M unit :=
  (reservations <- extract_data w "Reservations" ;;
   campaigns <- extract_data w "Campaign" ;;
   match reservations, campaigns with
   | Some reservations, Some campaigns =>
       marketing_mart <- lift (marketing_mart_of (runtime w) reservations campaigns) ;;
       load_data w marketing_mart "marketing_mart"
   | _, _ => ret tt
   end)%job.

(** [create_finance_mart], lines 76-81: from the two extracted batches to
    the batch that is loaded. *)
Definition finance_mart_of (reservations payments : DataFrame) : res DataFrame :=
  (finance_mart <-- merge_left_on reservations payments "id" "_x" "_y" ;;
   finance_mart <--
     select finance_mart
       ["id"; "reservation_datetime"; "total_room_price"; "amount"; "payment_datetime"] ;;
   set_columns finance_mart
     ["reservation_id"; "reservation_datetime"; "total_room_price"; "payment_amount";
      "payment_datetime"])%res.

(** [create_finance_mart()]. *)
Definition create_finance_mart (w : World) : M unit :=
  (reservations <- extract_data w "Reservations" ;;
   payments <- extract_data w "Payments" ;;
   match reservations, payments with
   | Some reservations, Some payments =>
       finance_mart <- lift (finance_mart_of reservations payments) ;;
       load_data w finance_mart "finance_mart"
   | _, _ => ret tt
   end)%job.

(** [create_hotel_branch_mart], lines 95-100. *)
Definition hotel_branch_mart_of (stays rooms : DataFrame) : res DataFrame :=
  (hotel_branch_mart <-- merge_left stays rooms "room_id" "id" "_x" "_y" ;;
   hotel_branch_mart <--
     select hotel_branch_mart
       ["id_x"; "date"; "reference_reservation_id"; "room_id"; "name"; "room_type";
        "floor"; "hotel_id"] ;;
   set_columns hotel_branch_mart
     ["stay_id"; "stay_date"; "reservation_id"; "room_id"; "room_name"; "room_type";
      "floor"; "hotel_id"])%res.

(** [create_hotel_branch_mart()]. *)
Definition create_hotel_branch_mart (w : World) : M unit :=
  (stays <- extract_data w "Stays" ;;
   rooms <- extract_data w "Rooms" ;;
   match stays, rooms with
   | Some stays, Some rooms =>
       hotel_branch_mart <- lift (hotel_branch_mart_of stays rooms) ;;
       load_data w hotel_branch_mart "hotel_branch_mart"
   | _, _ => ret tt
   end)%job.

(** [main()]: the three marts, one after the other. *)
Definition main (w : World) : M unit :=
  (create_marketing_mart w ;;;
   create_finance_mart w ;;;
   create_hotel_branch_mart w)%job.

End EtlDataMart.

(* ===================================================================== *)
(** * The fact_reservations table as the design notes describe it *)
(* ===================================================================== *)

Module Spec.
Import Py Pandas.

(** Follows the words of the notes, not the code: the numeric transform,
    first-seen deduplication by id, projection on the fact-table columns and
    the renaming of id, applied to the Reservation batch as extracted, with
    no merge in between. *)
Definition fact_reservations_direct (rt : Runtime) (reservations : DataFrame)
  : res DataFrame :=
  (df <-- EtlFact.transform_reservation_data rt reservations ;;
   df <-- drop_duplicates df "id" ;;
   df <-- select df
     ["id"; "reservation_datetime"; "check_in_date"; "check_out_date"; "status";
      "hotel_id"; "booker_id"; "total_room_price"; "voucher_code"; "total_discount"] ;;
   Ok (rename df [("id", "reservation_id")]))%res.

(** The columns of the Reservation and the Campaign entity, as section 3 of
    the notes lists them. *)
Definition reservation_columns : list string :=
  ["id"; "reservation_datetime"; "check_in_date"; "check_out_date"; "status";
   "hotel_id"; "booker_id"; "total_room_price"; "voucher_code"; "total_discount"].

Definition campaign_columns : list string := ["id"; "name"; "description"].

(** The columns of the Stay, Room and Payment entities, as section 3 lists
    them. *)
Definition stay_columns : list string :=
  ["id"; "date"; "reference_reservation_id"; "room_id"; "guest_id"].

Definition room_columns : list string :=
  ["id"; "name"; "room_type"; "floor"; "hotel_id"].


End Spec.

(* ===================================================================== *)
(** * Sample batches *)
(* ===================================================================== *)

(** A small source database in the shape of section 3 of the design notes:
    three reservations (one of them extracted twice), four stays of which one
    points at reservation 99, two rooms, four guests, two campaigns. *)
Module Sample.
Import Py Pandas Job.

Definition rt : Runtime :=
  {| parse_float := fun _ => None;
     repr_float := fun _ => "nan";
     repr_timestamp := fun _ => "1970-01-01 00:00:00" |}.

Definition reservation (id : Z) (voucher : value) : list value :=
  [VInt id; VStr "2024-05-01 10:00"; VStr "2024-06-01"; VStr "2024-06-03";
   VStr "confirmed"; VInt 1; VInt 7; VInt 250; voucher; VInt 20].

Definition reservations : DataFrame :=
  mkDF ["id"; "reservation_datetime"; "check_in_date"; "check_out_date"; "status";
        "hotel_id"; "booker_id"; "total_room_price"; "voucher_code"; "total_discount"]
       [reservation 1 (VStr "5"); reservation 2 VNone; reservation 3 (VStr "9");
        reservation 1 (VStr "5")].

Definition stays : DataFrame :=
  mkDF ["id"; "date"; "reference_reservation_id"; "room_id"; "guest_id"]
       [[VInt 10; VStr "2024-06-01"; VInt 1; VInt 100; VInt 1000];
        [VInt 11; VStr "2024-06-01"; VInt 2; VInt 101; VInt 1001];
        [VInt 12; VStr "2024-06-02"; VInt 99; VInt 100; VInt 1000];
        [VInt 10; VStr "2024-06-02"; VInt 1; VInt 100; VInt 1000]].

Definition rooms : DataFrame :=
  mkDF ["id"; "name"; "room_type"; "floor"; "hotel_id"]
       [[VInt 100; VStr "A1"; VStr "De-Luxe 2"; VInt 1; VInt 1];
        [VInt 101; VStr "B2"; VStr "SUITE"; VInt 2; VInt 1]].

Definition users : DataFrame :=
  mkDF ["id"; "phone_number"]
       [[VInt 1000; VStr "0812345"]; [VInt 1001; VStr "+6281234"];
        [VInt 1002; VNone]; [VInt 1003; VStr ""]].

Definition campaigns : DataFrame :=
  mkDF ["id"; "name"; "description"]
       [[VInt 5; VStr "Lebaran"; VStr "Holiday promo"];
        [VInt 6; VStr "Weekend"; VStr "Two nights"]].

(** A Rooms table that has no [room_type] column. *)
Definition rooms_without_type : DataFrame :=
  mkDF ["id"; "name"; "floor"; "hotel_id"]
       [[VInt 100; VStr "A1"; VInt 1; VInt 1]].

Definition tables (rooms_table : DataFrame) (t : string) : option DataFrame :=
  if String.eqb t "Reservations" then Some reservations
  else if String.eqb t "Stays" then Some stays
  else if String.eqb t "Rooms" then Some rooms_table
  else if String.eqb t "Users" then Some users
  else if String.eqb t "Campaign" then Some campaigns
  else None.

Definition world : World :=
  {| source := tables rooms;
     warehouse_accepts := fun _ => true;
     now := 1717243200 + 3600;
     runtime := rt |}.

(** A Users table that has no [phone_number] column. *)
Definition users_without_phone : DataFrame :=
  mkDF ["id"; "name"] [[VInt 1000; VStr "Sari"]].

(** The same database with the Rooms table that lacks [room_type]. *)
Definition world_rooms_without_type : World :=
  {| source := tables rooms_without_type;
     warehouse_accepts := fun _ => true;
     now := 1717243200 + 3600;
     runtime := rt |}.

(** The same database when the read of the Stays table fails. *)
Definition world_stays_unreadable : World :=
  {| source := fun t => if String.eqb t "Stays" then None else tables rooms t;
     warehouse_accepts := fun _ => true;
     now := 1717243200 + 3600;
     runtime := rt |}.

(** An amount of money, read as a float. *)
Definition amount (z : Z) : value := VFloat (binary_normalize 53 1024 z 0 false).

Definition payments : DataFrame :=
  mkDF ["id"; "amount"; "payment_datetime"]
       [[VInt 1; amount 230; VStr "2024-05-01 10:05"];
        [VInt 3; amount 100; VStr "2024-05-02 09:00"];
        [VInt 3; amount 130; VStr "2024-05-03 09:00"]].

(** A Rooms table in which room 100 is missing. *)
Definition rooms_without_100 : DataFrame :=
  mkDF ["id"; "name"; "room_type"; "floor"; "hotel_id"]
       [[VInt 101; VStr "B2"; VStr "SUITE"; VInt 2; VInt 1]].

(** The database with its Payments table. *)
Definition mart_world : World :=
  {| source := fun t => if String.eqb t "Payments" then Some payments else tables rooms t;
     warehouse_accepts := fun _ => true;
     now := 1717243200 + 3600;
     runtime := rt |}.

(** The same database when the read of the Campaign table fails and the
    warehouse refuses the finance mart. *)
Definition mart_world_without_campaign : World :=
  {| source := fun t => if String.eqb t "Campaign" then None
                        else if String.eqb t "Payments" then Some payments
                        else tables rooms t;
     warehouse_accepts := fun t => negb (String.eqb t "finance_mart");
     now := 1717243200 + 3600;
     runtime := rt |}.

(** A Users table in which one phone number is NULL and read as NaN. *)
Definition users_with_null_phone : DataFrame :=
  mkDF ["id"; "phone_number"] [[VInt 1000; VStr "0812345"]; [VInt 1001; NaN]].


(** A Users table whose phone numbers are stored as numbers. *)
Definition users_with_numeric_phone : DataFrame :=
  mkDF ["id"; "phone_number"] [[VInt 1000; VInt 812345]].

(** A Reservations table with a price that is not a number. *)
Definition reservations_with_bad_price : DataFrame :=
  mkDF ["id"; "total_room_price"; "total_discount"]
       [[VInt 1; VInt 250; VInt 20]; [VInt 2; VStr "n/a"; VInt 0]].

End Sample.

(* ===================================================================== *)
(** * Proof steps that recur *)
(* ===================================================================== *)

(** Decide the comparisons of two label literals that stand in the goal. *)
Ltac eval_label_tests :=
  repeat match goal with
         | |- context [String.eqb ?a ?b] =>
             let v := eval vm_compute in (String.eqb a b) in
             match v with
             | true => change (String.eqb a b) with true
             | false => change (String.eqb a b) with false
             end
         end.

Ltac solve_NoDup :=
  repeat (apply NoDup_cons; [simpl; intuition discriminate |]); apply NoDup_nil.

Ltac solve_well_formed :=
  split; [simpl; solve_NoDup | simpl; repeat (apply Forall_cons; [reflexivity |]); apply Forall_nil].

(** Name the cells of a row whose length is known. *)
Ltac explode_row r H :=
  repeat (destruct r as [| ? r]; simpl in H; try discriminate H).

(* ===================================================================== *)
(** * Facts about values and strings *)
(* ===================================================================== *)

Section ValueFacts.
Import Py.

Lemma spec_float_eqb_eq (f g : spec_float) : spec_float_eqb f g = true <-> f = g.
Proof.
  destruct f, g; simpl; split; intros H; try discriminate; try reflexivity;
    try (apply Bool.eqb_prop in H; now subst);
    try (injection H as ->; apply Bool.eqb_reflx).
  - apply andb_prop in H as [H He]. apply andb_prop in H as [Hs Hm].
    apply Bool.eqb_prop in Hs. apply Pos.eqb_eq in Hm. apply Z.eqb_eq in He.
    now subst.
  - injection H as -> -> ->.
    now rewrite Bool.eqb_reflx, Pos.eqb_refl, Z.eqb_refl.
Qed.

Lemma value_eqb_eq (a b : value) : value_eqb a b = true <-> a = b.
Proof.
  destruct a, b; simpl; split; intros H; try discriminate; try reflexivity.
  - apply Bool.eqb_prop in H. now subst.
  - injection H as ->. apply Bool.eqb_reflx.
  - apply Z.eqb_eq in H. now subst.
  - injection H as ->. apply Z.eqb_refl.
  - apply spec_float_eqb_eq in H. now subst.
  - injection H as ->. now apply spec_float_eqb_eq.
  - apply String.eqb_eq in H. now subst.
  - injection H as ->. apply String.eqb_refl.
  - apply Z.eqb_eq in H. now subst.
  - injection H as ->. apply Z.eqb_refl.
Qed.

Lemma value_eqb_refl (a : value) : value_eqb a a = true.
Proof. now apply value_eqb_eq. Qed.

Lemma existsb_value_eqb_In (v : value) (l : list value) :
  existsb (value_eqb v) l = true <-> In v l.
Proof.
  rewrite existsb_exists. split.
  - intros [x [Hx He]]. apply value_eqb_eq in He. now subst.
  - intros H. exists v. split; [assumption | apply value_eqb_refl].
Qed.

Lemma existsb_eqb_In (c : string) (l : list string) :
  existsb (String.eqb c) l = true <-> In c l.
Proof.
  rewrite existsb_exists. split.
  - intros [x [Hx He]]. apply String.eqb_eq in He. now subst.
  - intros H. exists c. split; [assumption | apply String.eqb_refl].
Qed.

Lemma existsb_eqb_not_In (c : string) (l : list string) :
  existsb (String.eqb c) l = false <-> ~ In c l.
Proof.
  rewrite <- existsb_eqb_In. destruct (existsb (String.eqb c) l); split; intros H;
    try reflexivity; try discriminate; try (intros H'; discriminate).
  now contradiction H.
Qed.

(** A character of [a-z] is not an upper-case letter, so [lower] keeps it. *)
Lemma lower_char_az (c : ascii) : is_lower_az c = true -> lower_char c = c.
Proof.
  unfold is_lower_az, lower_char, is_upper_AZ. intros H.
  apply andb_prop in H as [H1 H2]. apply N.leb_le in H1.
  destruct (65 <=? N_of_ascii c)%N eqn:E1; simpl; [| reflexivity].
  destruct (N_of_ascii c <=? 90)%N eqn:E2; [| reflexivity].
  apply N.leb_le in E2. lia.
Qed.

Lemma remove_non_az_only_az (s : string) :
  string_forallb is_lower_az (remove_non_az s) = true.
Proof.
  induction s as [| c s IH]; simpl; [reflexivity |].
  unfold remove_non_az in *. simpl.
  destruct (is_lower_az c) eqn:E; simpl; [rewrite E |]; assumption.
Qed.

Lemma lower_fixes_az (s : string) :
  string_forallb is_lower_az s = true -> lower s = s.
Proof.
  induction s as [| c s IH]; simpl; intros H; [reflexivity |].
  apply andb_prop in H as [Hc Hs]. unfold lower in *. simpl.
  now rewrite (lower_char_az c Hc), (IH Hs).
Qed.

Lemma remove_non_az_fixes_az (s : string) :
  string_forallb is_lower_az s = true -> remove_non_az s = s.
Proof.
  induction s as [| c s IH]; simpl; intros H; [reflexivity |].
  apply andb_prop in H as [Hc Hs]. unfold remove_non_az in *. simpl.
  now rewrite Hc, (IH Hs).
Qed.

(** The room-type rule on one string, and that a second pass changes
    nothing. *)
Lemma room_type_string_idempotent (s : string) :
  remove_non_az (lower (remove_non_az (lower s))) = remove_non_az (lower s).
Proof.
  pose proof (remove_non_az_only_az (lower s)) as H.
  now rewrite (lower_fixes_az _ H), (remove_non_az_fixes_az _ H).
Qed.

Lemma string_app_empty_r (s : string) : (s ++ "")%string = s.
Proof. induction s as [| c s IH]; simpl; [reflexivity | now rewrite IH]. Qed.

Lemma mapM_length {A B : Type} (f : A -> res B) (l : list A) (l' : list B) :
  mapM f l = Ok l' -> length l' = length l.
Proof.
  revert l'. induction l as [| a l IH]; simpl; intros l' H.
  - injection H as <-. reflexivity.
  - destruct (f a) as [b |]; simpl in H; [| discriminate].
    destruct (mapM f l) as [bs |]; simpl in H; [| discriminate].
    injection H as <-. simpl. now rewrite (IH bs).
Qed.

Lemma mapM_fixpoint {A : Type} (f : A -> res A) (l l' : list A) :
  (forall x y, f x = Ok y -> f y = Ok y) ->
  mapM f l = Ok l' -> mapM f l' = Ok l'.
Proof.
  intros Hf. revert l'. induction l as [| a l IH]; simpl; intros l' H.
  - injection H as <-. reflexivity.
  - destruct (f a) as [b |] eqn:Ea; simpl in H; [| discriminate].
    destruct (mapM f l) as [bs |]; simpl in H; [| discriminate].
    injection H as <-. simpl. rewrite (Hf _ _ Ea). simpl.
    now rewrite (IH bs).
Qed.

End ValueFacts.

(* ===================================================================== *)
(** * Facts about batches: reading and writing a column *)
(* ===================================================================== *)

Section ColumnFacts.
Import Py Pandas.

Lemma filter_eqb_all (c : string) (cols : list string) :
  Forall (eq c) (filter (String.eqb c) cols).
Proof.
  apply Forall_forall. intros x Hx. apply filter_In in Hx as [_ Hx].
  now apply String.eqb_eq in Hx.
Qed.

Lemma filter_eqb_nil (c : string) (cols : list string) :
  filter (String.eqb c) cols = [] <-> ~ In c cols.
Proof.
  split.
  - intros H Hin. assert (In c (filter (String.eqb c) cols)) as Hc.
    { apply filter_In. split; [assumption | apply String.eqb_refl]. }
    rewrite H in Hc. exact Hc.
  - intros H. induction cols as [| l cols IH]; simpl; [reflexivity |].
    destruct (String.eqb c l) eqn:E.
    + apply String.eqb_eq in E. subst. exfalso. apply H. now left.
    + apply IH. intros Hin. apply H. now right.
Qed.

(** A label of a batch with distinct labels occurs once. *)
Lemma filter_eqb_NoDup (c : string) (cols : list string) :
  NoDup cols -> In c cols -> filter (String.eqb c) cols = [c].
Proof.
  induction 1 as [| l cols Hl Hnd IH]; simpl; intros Hin; [contradiction |].
  destruct (String.eqb c l) eqn:E.
  - apply String.eqb_eq in E. subst l.
    apply filter_eqb_nil in Hl. now rewrite Hl.
  - destruct Hin as [-> | Hin]; [now rewrite String.eqb_refl in E | now apply IH].
Qed.

Lemma has_column_In (c : string) (df : DataFrame) :
  has_column c df = true <-> In c (columns df).
Proof. apply existsb_eqb_In. Qed.

Lemma has_column_not_In (c : string) (df : DataFrame) :
  has_column c df = false <-> ~ In c (columns df).
Proof. apply existsb_eqb_not_In. Qed.

Lemma cells_length (c : string) (cols : list string) (row : list value) :
  length row = length cols ->
  length (cells c cols row) = length (filter (String.eqb c) cols).
Proof.
  revert row. induction cols as [| l cols IH]; intros [| v row] H; simpl in *;
    try reflexivity; try discriminate.
  injection H as H. destruct (String.eqb c l); simpl; now rewrite IH.
Qed.

Lemma cells_absent (c : string) (cols : list string) (row : list value) :
  ~ In c cols -> cells c cols row = [].
Proof.
  revert row. induction cols as [| l cols IH]; intros [| v row] H; simpl in *;
    try reflexivity.
  destruct (String.eqb c l) eqn:E.
  - apply String.eqb_eq in E. subst. exfalso. apply H. now left.
  - apply IH. intros Hin. apply H. now right.
Qed.

(** Under a label that occurs once, a full row has exactly one cell. *)
Lemma cells_single (c : string) (cols : list string) (row : list value) :
  filter (String.eqb c) cols = [c] -> length row = length cols ->
  cells c cols row = [cell c cols row].
Proof.
  intros Hc Hlen. unfold cell.
  pose proof (cells_length c cols row Hlen) as H. rewrite Hc in H.
  destruct (cells c cols row) as [| v [| v' l]]; simpl in *; try discriminate.
  reflexivity.
Qed.

Lemma cells_app (c : string) (cols cols' : list string) (row row' : list value) :
  length row = length cols ->
  cells c (cols ++ cols') (row ++ row') = cells c cols row ++ cells c cols' row'.
Proof.
  revert row. induction cols as [| l cols IH]; intros [| v row] H; simpl in *;
    try reflexivity; try discriminate.
  injection H as H. destruct (String.eqb c l); simpl; now rewrite IH.
Qed.

Lemma set_cell_length (c : string) (cols : list string) (row : list value) (v : value) :
  length (set_cell c cols row v) = length row.
Proof.
  revert row. induction cols as [| l cols IH]; intros [| x row]; simpl;
    try reflexivity.
  now rewrite IH.
Qed.

Lemma cells_set_cell_same (c : string) (cols : list string) (row : list value)
  (v : value) :
  cells c cols (set_cell c cols row v) = map (fun _ => v) (cells c cols row).
Proof.
  revert row. induction cols as [| l cols IH]; intros [| x row]; simpl;
    try reflexivity.
  destruct (String.eqb c l); simpl; now rewrite IH.
Qed.

Lemma cells_set_cell_other (c d : string) (cols : list string) (row : list value)
  (v : value) :
  c <> d -> cells d cols (set_cell c cols row v) = cells d cols row.
Proof.
  intros Hne. revert row. induction cols as [| l cols IH]; intros [| x row]; simpl;
    try reflexivity.
  destruct (String.eqb d l) eqn:Ed, (String.eqb c l) eqn:Ec; simpl;
    try (now rewrite IH).
  apply String.eqb_eq in Ed, Ec. congruence.
Qed.

Lemma set_cell_twice (c : string) (cols : list string) (row : list value)
  (v v' : value) :
  set_cell c cols (set_cell c cols row v) v' = set_cell c cols row v'.
Proof.
  revert row. induction cols as [| l cols IH]; intros [| x row]; simpl;
    try reflexivity.
  rewrite IH. now destruct (String.eqb c l).
Qed.

Lemma map_combine_map {A B C : Type} (h : A * B -> C) (f : A -> B) (l : list A) :
  map h (combine l (map f l)) = map (fun x => h (x, f x)) l.
Proof. induction l as [| a l IH]; simpl; [reflexivity | now rewrite IH]. Qed.

Lemma map_fst_combine {A B : Type} (l : list A) (s : list B) :
  length s = length l -> map fst (combine l s) = l.
Proof.
  revert s. induction l as [| a l IH]; intros [| b s] H; simpl in *;
    try reflexivity; try discriminate.
  injection H as H. now rewrite IH.
Qed.

Lemma map_snd_combine {A B : Type} (l : list A) (s : list B) :
  length s = length l -> map snd (combine l s) = s.
Proof.
  revert s. induction l as [| a l IH]; intros [| b s] H; simpl in *;
    try reflexivity; try discriminate.
  injection H as H. now rewrite IH.
Qed.

End ColumnFacts.

Section GetSetFacts.
Import Py Pandas.

Lemma getitem_inv (df : DataFrame) (c : string) (s : Series) :
  getitem df c = Ok s ->
  filter (String.eqb c) (columns df) = [c] /\ s = map (cell c (columns df)) (rows df).
Proof.
  unfold getitem. pose proof (filter_eqb_all c (columns df)) as Hall.
  destruct (filter (String.eqb c) (columns df)) as [| l [| l' ls]]; intros H;
    try discriminate.
  injection H as <-. split; [| reflexivity].
  inversion Hall; subst. reflexivity.
Qed.

Lemma getitem_unique (df : DataFrame) (c : string) :
  filter (String.eqb c) (columns df) = [c] ->
  getitem df c = Ok (map (cell c (columns df)) (rows df)).
Proof. unfold getitem. now intros ->. Qed.

Lemma getitem_absent (df : DataFrame) (c : string) :
  has_column c df = false -> getitem df c = Raise (KeyError c).
Proof.
  intros H. apply has_column_not_In, filter_eqb_nil in H.
  unfold getitem. now rewrite H.
Qed.

Lemma unique_has_column (df : DataFrame) (c : string) :
  filter (String.eqb c) (columns df) = [c] -> has_column c df = true.
Proof.
  intros H. apply has_column_In.
  assert (In c (filter (String.eqb c) (columns df))) as Hin by (rewrite H; now left).
  now apply filter_In in Hin.
Qed.

Lemma setitem_present (df : DataFrame) (c : string) (s : Series) :
  has_column c df = true ->
  setitem df c s =
  mkDF (columns df)
       (map (fun rv => set_cell c (columns df) (fst rv) (snd rv)) (combine (rows df) s)).
Proof. unfold setitem. now intros ->. Qed.

Lemma setitem_columns (df : DataFrame) (c : string) (s : Series) :
  has_column c df = true -> columns (setitem df c s) = columns df.
Proof. intros H. now rewrite setitem_present. Qed.

Lemma setitem_rows_length (df : DataFrame) (c : string) (s : Series) :
  length s = length (rows df) -> length (rows (setitem df c s)) = length (rows df).
Proof.
  intros H. unfold setitem. destruct (has_column c df); simpl;
    rewrite length_map, length_combine, H; apply Nat.min_id.
Qed.

Lemma setitem_well_formed (df : DataFrame) (c : string) (s : Series) :
  has_column c df = true -> well_formed df -> well_formed (setitem df c s).
Proof.
  intros Hc [Hnd Hrows]. rewrite setitem_present by assumption.
  split; simpl; [assumption |].
  apply Forall_forall. intros row Hin. apply in_map_iff in Hin as [[r v] [<- Hrv]].
  simpl. rewrite set_cell_length. apply in_combine_l in Hrv.
  rewrite Forall_forall in Hrows. now apply Hrows.
Qed.

(** Reading back the column that was just written. *)
Lemma getitem_setitem (df : DataFrame) (c : string) (s : Series) :
  well_formed df -> filter (String.eqb c) (columns df) = [c] ->
  length s = length (rows df) ->
  getitem (setitem df c s) c = Ok s.
Proof.
  intros [_ Hrows] Hc Hlen.
  rewrite setitem_present by now apply unique_has_column.
  rewrite getitem_unique by exact Hc. simpl. apply f_equal.
  rewrite map_map. rewrite <- (map_snd_combine (rows df) s Hlen) at 2.
  apply map_ext_in. intros [r v] Hin. simpl. unfold cell.
  rewrite cells_set_cell_same. apply in_combine_l in Hin.
  rewrite Forall_forall in Hrows. rewrite (cells_single c _ r Hc (Hrows r Hin)).
  reflexivity.
Qed.

(** Writing a column twice is writing the second series. *)
Lemma setitem_setitem (df : DataFrame) (c : string) (s s' : Series) :
  has_column c df = true -> length s = length (rows df) ->
  setitem (setitem df c s) c s' = setitem df c s'.
Proof.
  intros Hc Hlen. rewrite (setitem_present df c s Hc).
  rewrite setitem_present by exact Hc. rewrite setitem_present by exact Hc.
  simpl. f_equal. revert s s' Hlen.
  induction (rows df) as [| r l IH]; intros [| v s] [| v' s'] Hlen; simpl in *;
    try reflexivity; try discriminate.
  injection Hlen as Hlen. rewrite set_cell_twice. f_equal. now apply IH.
Qed.

(** Another column is not touched by the write. *)
Lemma cell_setitem_other (df : DataFrame) (c d : string) (s : Series) :
  has_column c df = true -> c <> d -> length s = length (rows df) ->
  map (cell d (columns (setitem df c s))) (rows (setitem df c s)) =
  map (cell d (columns df)) (rows df).
Proof.
  intros Hc Hne Hlen. rewrite setitem_present by exact Hc. simpl.
  rewrite map_map. rewrite <- (map_fst_combine (rows df) s Hlen) at 2.
  rewrite map_map. apply map_ext. intros [r v]. simpl. unfold cell.
  now rewrite cells_set_cell_other.
Qed.

(** The cell-by-cell reading of the two [.str] calls of the room rule. *)
Lemma room_type_series (s : Series) :
  str_replace_non_az (str_lower s) =
  map (fun v => match v with
                | VStr x => VStr (remove_non_az (lower x))
                | _ => if is_null v then v else NaN
                end) s.
Proof.
  unfold str_replace_non_az, str_lower, str_method. rewrite map_map.
  apply map_ext. intros [| b | z | f | x | t]; simpl; try reflexivity.
  destruct f; reflexivity.
Qed.

Lemma room_type_series_idempotent (s : Series) :
  str_replace_non_az (str_lower (str_replace_non_az (str_lower s))) =
  str_replace_non_az (str_lower s).
Proof.
  rewrite !room_type_series, map_map. apply map_ext.
  intros [| b | z | f | x | t]; simpl; try reflexivity.
  - destruct f; reflexivity.
  - now rewrite room_type_string_idempotent.
Qed.

Lemma room_type_series_length (s : Series) :
  length (str_replace_non_az (str_lower s)) = length s.
Proof. unfold str_replace_non_az, str_lower, str_method. now rewrite !length_map. Qed.

End GetSetFacts.

(* ===================================================================== *)
(** * Field transforms: phone numbers and room types *)
(* ===================================================================== *)

Section FieldTransforms.
Import Py Pandas.

Lemma phone_lambda_str (rt : Runtime) (s : string) :
  EtlFact.phone_lambda rt (VStr s) =
  Ok (VStr (if negb (String.eqb s "") && negb (String.prefix "+" s)
            then "+62" ++ s else s)).
Proof.
  unfold EtlFact.phone_lambda. simpl.
  destruct (String.eqb s ""); simpl; [reflexivity |].
  destruct (String.prefix "+" s); reflexivity.
Qed.

Lemma phone_lambda_fixpoint (rt : Runtime) (x y : value) :
  EtlFact.phone_lambda rt x = Ok y -> EtlFact.phone_lambda rt y = Ok y.
Proof.
  destruct x as [| b | z | f | s | t].
  - intros H. injection H as <-. reflexivity.
  - destruct b; intros H; [discriminate |]. injection H as <-. reflexivity.
  - unfold EtlFact.phone_lambda. simpl. destruct (z =? 0) eqn:E; simpl; intros H;
      [| discriminate].
    injection H as <-. simpl. now rewrite E.
  - destruct f; intros H; try discriminate. injection H as <-. reflexivity.
  - rewrite phone_lambda_str. intros H. injection H as <-.
    rewrite phone_lambda_str. do 2 f_equal.
    destruct (String.eqb s "") eqn:Es; simpl.
    + apply String.eqb_eq in Es. subst. reflexivity.
    + destruct (String.prefix "+" s) eqn:Ep; simpl; [now rewrite Es, Ep |].
      reflexivity.
  - intros H. discriminate.
Qed.

Lemma has_column_setitem (df : DataFrame) (c d : string) (s : Series) :
  has_column c df = true -> has_column d (setitem df c s) = has_column d df.
Proof. intros H. unfold has_column. now rewrite setitem_columns. Qed.

(** A rule that rewrites one column, [df[c] = f(df[c])], changes nothing on
    its second run when [f] leaves its own results alone. *)
Lemma column_rule_twice (df df' : DataFrame) (c : string) (f : Series -> res Series) :
  well_formed df ->
  (forall s s', f s = Ok s' -> length s' = length s /\ f s' = Ok s') ->
  (s <-- getitem df c ;; s' <-- f s ;; Ok (setitem df c s'))%res = Ok df' ->
  has_column c df' = true /\
  (s <-- getitem df' c ;; s' <-- f s ;; Ok (setitem df' c s'))%res = Ok df'.
Proof.
  intros Hwf Hf.
  destruct (getitem df c) as [s |] eqn:Hget; simpl; [| discriminate].
  destruct (f s) as [s' |] eqn:Hfs; simpl; [| discriminate].
  intros H. injection H as <-.
  destruct (Hf _ _ Hfs) as [Hlen Hfix].
  apply getitem_inv in Hget as [Hc ->]. rewrite length_map in Hlen.
  pose proof (unique_has_column df c Hc) as Hhas.
  split; [now rewrite has_column_setitem |].
  rewrite getitem_setitem by assumption. simpl. rewrite Hfix. simpl.
  now rewrite setitem_setitem.
Qed.

Lemma phone_rule_fixpoint (rt : Runtime) (s s' : Series) :
  apply (EtlFact.phone_lambda rt) s = Ok s' ->
  length s' = length s /\ apply (EtlFact.phone_lambda rt) s' = Ok s'.
Proof.
  intros H. split; [exact (mapM_length _ _ _ H) |].
  exact (mapM_fixpoint _ _ _ (phone_lambda_fixpoint rt) H).
Qed.

Lemma room_rule_fixpoint (s s' : Series) :
  Ok (str_replace_non_az (str_lower s)) = Ok s' ->
  length s' = length s /\ Ok (str_replace_non_az (str_lower s')) = Ok s'.
Proof.
  intros H. injection H as <-. split; [apply room_type_series_length |].
  now rewrite room_type_series_idempotent.
Qed.

Lemma dims_phone_twice (rt : Runtime) (df df' : DataFrame) :
  well_formed df -> EtlDims.transform_dimension_data rt df "dim_guests" = Ok df' ->
  EtlDims.transform_dimension_data rt df' "dim_guests" = Ok df'.
Proof.
  intros Hwf H.
  exact (proj2 (column_rule_twice df df' _ _ Hwf (phone_rule_fixpoint rt) H)).
Qed.

Lemma dims_room_twice (rt : Runtime) (df df' : DataFrame) :
  well_formed df -> EtlDims.transform_dimension_data rt df "dim_rooms" = Ok df' ->
  EtlDims.transform_dimension_data rt df' "dim_rooms" = Ok df'.
Proof.
  intros Hwf H.
  exact (proj2 (column_rule_twice df df' "room_type"
                  (fun s => Ok (str_replace_non_az (str_lower s))) Hwf
                  room_rule_fixpoint H)).
Qed.

(** What the room rule writes: the column read, lowered and stripped. *)
Lemma room_rule_writes (df df' : DataFrame) (s : Series) :
  well_formed df -> getitem df "room_type" = Ok s ->
  (EtlFact.transform_room_type df = Ok df' \/
   exists rt, EtlDims.transform_dimension_data rt df "dim_rooms" = Ok df') ->
  getitem df' "room_type" = Ok (str_replace_non_az (str_lower s)).
Proof.
  intros Hwf Hget H.
  assert (df' = setitem df "room_type" (str_replace_non_az (str_lower s))) as ->.
  { destruct H as [H | [rt H]].
    - unfold EtlFact.transform_room_type in H.
      destruct (getitem_inv _ _ _ Hget) as [Hc _].
      rewrite (unique_has_column _ _ Hc), Hget in H. simpl in H. now injection H.
    - unfold EtlDims.transform_dimension_data in H. simpl in H.
      rewrite Hget in H. simpl in H. now injection H. }
  destruct (getitem_inv _ _ _ Hget) as [Hc ->].
  apply getitem_setitem; try assumption.
  now rewrite room_type_series_length, length_map.
Qed.

(** What the phone rule writes: the lambda applied down the column read. *)
Lemma phone_rule_writes (rt : Runtime) (df df' : DataFrame) (s : Series) :
  well_formed df -> getitem df "phone_number" = Ok s ->
  (EtlFact.transform_phone_number rt df = Ok df' \/
   EtlDims.transform_dimension_data rt df "dim_guests" = Ok df') ->
  exists s', mapM (EtlFact.phone_lambda rt) s = Ok s' /\
             getitem df' "phone_number" = Ok s'.
Proof.
  intros Hwf Hget H.
  destruct (getitem_inv _ _ _ Hget) as [Hc Hs].
  assert ((s <-- getitem df "phone_number" ;;
           s' <-- apply (EtlFact.phone_lambda rt) s ;;
           Ok (setitem df "phone_number" s'))%res = Ok df') as H'.
  { destruct H as [H | H].
    - unfold EtlFact.transform_phone_number in H.
      now rewrite (unique_has_column _ _ Hc) in H.
    - exact H. }
  rewrite Hget in H'. simpl in H'. unfold apply in H'.
  destruct (mapM (EtlFact.phone_lambda rt) s) as [s' |] eqn:Hm; simpl in H';
    [| discriminate].
  injection H' as <-. exists s'. split; [reflexivity |].
  apply getitem_setitem; try assumption.
  rewrite (mapM_length _ _ _ Hm), Hs. apply length_map.
Qed.

Lemma prepend_62_differs (s : string) : ("+62" ++ s)%string <> s.
Proof.
  intros H. apply (f_equal String.length) in H. simpl in H. lia.
Qed.

End FieldTransforms.

Section PhoneRuleOnNaN.
Import Py Pandas.

(** The only exception the phone rule raises is the missing [startswith]. *)
Lemma phone_lambda_raises_only (rt : Runtime) (x : value) (e : exn) :
  EtlFact.phone_lambda rt x = Raise e -> e = AttributeError "startswith".
Proof.
  destruct x as [| b | z | f | s | t]; try discriminate.
  - destruct b; [intros H; now injection H | discriminate].
  - unfold EtlFact.phone_lambda. simpl. destruct (z =? 0); [discriminate |].
    intros H. now injection H.
  - destruct f; try discriminate; intros H; now injection H.
  - rewrite phone_lambda_str. discriminate.
  - intros H. now injection H.
Qed.

(** A series that holds NaN makes the rule raise. *)
Lemma phone_rule_raises_on_nan (rt : Runtime) (s : Series) :
  In NaN s -> mapM (EtlFact.phone_lambda rt) s = Raise (AttributeError "startswith").
Proof.
  induction s as [| x s IH]; intros Hin; [destruct Hin |]. cbn [mapM].
  destruct (EtlFact.phone_lambda rt x) as [y | e] eqn:Ex.
  - destruct Hin as [-> | Hin]; [discriminate Ex |].
    cbn [bind]. now rewrite (IH Hin).
  - cbn [bind]. now rewrite (phone_lambda_raises_only rt x e Ex).
Qed.

End PhoneRuleOnNaN.

(** C4. Phone-number normalisation.  The fact job and the dimension job use
    the same rule.  On a string it returns "+62" followed by the string
    exactly when the string is non-empty and does not start with "+", and the
    string itself otherwise (so the empty string and a string starting with
    "+" pass through); the missing value [None] passes through; a value that
    the rule has produced is returned unchanged by the rule.  On a batch whose
    [phone_number] column holds the series [s], either job writes the rule
    applied down [s] into the column, and running either job's transform on
    the result changes nothing.  The missing value NaN does not pass
    through: it counts as true, the rule asks it for [startswith] and raises
    AttributeError, and a [phone_number] column that holds NaN makes the
    transform of either job raise, as it does on the Users batch
    [Sample.users_with_null_phone]. *)
Theorem phone_number_normalization (rt : Py.Runtime) :
  (forall x, EtlDims.phone_lambda rt x = EtlFact.phone_lambda rt x) /\
  (forall s : string,
     EtlFact.phone_lambda rt (Py.VStr s) = Py.Ok (Py.VStr ("+62" ++ s)) <->
     s <> "" /\ String.prefix "+" s = false) /\
  (forall s : string,
     s = "" \/ String.prefix "+" s = true ->
     EtlFact.phone_lambda rt (Py.VStr s) = Py.Ok (Py.VStr s)) /\
  EtlFact.phone_lambda rt Py.VNone = Py.Ok Py.VNone /\
  (forall x y, EtlFact.phone_lambda rt x = Py.Ok y -> EtlFact.phone_lambda rt y = Py.Ok y) /\
  (forall df df' s,
     Pandas.well_formed df -> Pandas.getitem df "phone_number" = Py.Ok s ->
     EtlFact.transform_phone_number rt df = Py.Ok df' \/
     EtlDims.transform_dimension_data rt df "dim_guests" = Py.Ok df' ->
     (exists s', Py.mapM (EtlFact.phone_lambda rt) s = Py.Ok s' /\
                 Pandas.getitem df' "phone_number" = Py.Ok s') /\
     EtlFact.transform_phone_number rt df' = Py.Ok df' /\
     EtlDims.transform_dimension_data rt df' "dim_guests" = Py.Ok df') /\
  (Py.is_null Py.NaN = true /\
   EtlFact.phone_lambda rt Py.NaN = Py.Raise (Py.AttributeError "startswith")) /\
  (forall df s,
     Pandas.getitem df "phone_number" = Py.Ok s -> In Py.NaN s ->
     EtlFact.transform_phone_number rt df = Py.Raise (Py.AttributeError "startswith") /\
     EtlDims.transform_dimension_data rt df "dim_guests" =
       Py.Raise (Py.AttributeError "startswith")) /\
  (EtlFact.transform_phone_number rt Sample.users_with_null_phone =
     Py.Raise (Py.AttributeError "startswith") /\
   EtlDims.transform_dimension_data rt Sample.users_with_null_phone "dim_guests" =
     Py.Raise (Py.AttributeError "startswith")).
Proof.
  split; [reflexivity |].
  split.
  { intros s. rewrite phone_lambda_str. split.
    - intros H. injection H as H.
      destruct (String.eqb s "") eqn:Es; simpl in H.
      + symmetry in H. now apply prepend_62_differs in H.
      + destruct (String.prefix "+" s) eqn:Ep; simpl in H.
        * symmetry in H. now apply prepend_62_differs in H.
        * split; [| reflexivity]. intros ->. discriminate.
    - intros [Hs Hp]. apply String.eqb_neq in Hs. now rewrite Hs, Hp. }
  split.
  { intros s H. rewrite phone_lambda_str. destruct H as [-> | Hp]; [reflexivity |].
    rewrite Hp. simpl. now rewrite andb_false_r. }
  split; [reflexivity |].
  split; [apply phone_lambda_fixpoint |].
  split.
  { intros df df' s Hwf Hget H. split; [now apply (phone_rule_writes rt df df' s) |].
    assert (EtlDims.transform_dimension_data rt df "dim_guests" = Py.Ok df') as Hd.
    { destruct H as [H | H]; [| exact H].
      unfold EtlFact.transform_phone_number in H.
      destruct (getitem_inv _ _ _ Hget) as [Hc _].
      now rewrite (unique_has_column _ _ Hc) in H. }
    pose proof (dims_phone_twice rt df df' Hwf Hd) as Hd'.
    split; [| exact Hd'].
    unfold EtlFact.transform_phone_number.
    destruct (column_rule_twice df df' _ _ Hwf (phone_rule_fixpoint rt) Hd) as [-> H'].
    exact H'. }
  split; [split; reflexivity |].
  assert (forall df s,
            Pandas.getitem df "phone_number" = Py.Ok s -> In Py.NaN s ->
            EtlFact.transform_phone_number rt df =
              Py.Raise (Py.AttributeError "startswith") /\
            EtlDims.transform_dimension_data rt df "dim_guests" =
              Py.Raise (Py.AttributeError "startswith")) as Hnan.
  { intros df s Hg Hin.
    destruct (getitem_inv _ _ _ Hg) as [Hu _].
    unfold EtlFact.transform_phone_number, EtlDims.transform_dimension_data.
    rewrite (unique_has_column _ _ Hu). simpl. rewrite Hg. simpl.
    unfold Pandas.apply. change (EtlDims.phone_lambda rt) with (EtlFact.phone_lambda rt).
    rewrite (phone_rule_raises_on_nan rt s Hin). split; reflexivity. }
  split; [exact Hnan |].
  apply (Hnan Sample.users_with_null_phone [Py.VStr "0812345"; Py.NaN] eq_refl).
  right. left. reflexivity.
Qed.

Lemma phone_number_normalization_witness :
  Pandas.well_formed Sample.users /\
  Pandas.getitem Sample.users "phone_number" =
    Py.Ok [Py.VStr "0812345"; Py.VStr "+6281234"; Py.VNone; Py.VStr ""] /\
  (let df' := Pandas.mkDF ["id"; "phone_number"]
                [[Py.VInt 1000; Py.VStr "+620812345"]; [Py.VInt 1001; Py.VStr "+6281234"];
                 [Py.VInt 1002; Py.VNone]; [Py.VInt 1003; Py.VStr ""]] in
   EtlFact.transform_phone_number Sample.rt Sample.users = Py.Ok df' /\
   EtlFact.transform_phone_number Sample.rt df' = Py.Ok df' /\
   EtlDims.transform_dimension_data Sample.rt df' "dim_guests" = Py.Ok df') /\
  Pandas.getitem Sample.users_with_null_phone "phone_number" =
    Py.Ok [Py.VStr "0812345"; Py.NaN] /\
  EtlFact.transform_phone_number Sample.rt Sample.users_with_null_phone =
    Py.Raise (Py.AttributeError "startswith") /\
  EtlDims.transform_dimension_data Sample.rt Sample.users_with_null_phone "dim_guests" =
    Py.Raise (Py.AttributeError "startswith").
Proof.
  assert (Pandas.well_formed Sample.users) as Hwf by solve_well_formed.
  split; [exact Hwf |]. split; [reflexivity |].
  destruct (phone_number_normalization Sample.rt) as (_ & _ & _ & _ & _ & H & _ & Hnan & _).
  split; [split; [reflexivity |];
          refine (proj2 (H Sample.users _ _ Hwf eq_refl (or_introl eq_refl))) |].
  split; [reflexivity |].
  apply (Hnan Sample.users_with_null_phone [Py.VStr "0812345"; Py.NaN] eq_refl).
  right. left. reflexivity.
Defined.

(** C6. Room-type normalisation.  A string cell [x] becomes the string
    [remove_non_az (lower x)], every character of which is in a-z; a second
    pass over a normalised series returns it unchanged.  On a batch whose
    [room_type] column holds the series [s], either job writes the normalised
    series into the column, every string in it has only characters of a-z,
    and running either job's transform on the result changes nothing. *)
Theorem room_type_normalization :
  (forall x : string,
     Pandas.str_replace_non_az (Pandas.str_lower [Py.VStr x]) =
       [Py.VStr (Py.remove_non_az (Py.lower x))] /\
     Py.string_forallb Py.is_lower_az (Py.remove_non_az (Py.lower x)) = true /\
     Py.remove_non_az (Py.lower (Py.remove_non_az (Py.lower x))) =
       Py.remove_non_az (Py.lower x)) /\
  (forall s : Pandas.Series,
     Pandas.str_replace_non_az (Pandas.str_lower
       (Pandas.str_replace_non_az (Pandas.str_lower s))) =
     Pandas.str_replace_non_az (Pandas.str_lower s)) /\
  (forall rt df df' s,
     Pandas.well_formed df -> Pandas.getitem df "room_type" = Py.Ok s ->
     EtlFact.transform_room_type df = Py.Ok df' \/
     EtlDims.transform_dimension_data rt df "dim_rooms" = Py.Ok df' ->
     Pandas.getitem df' "room_type" =
       Py.Ok (Pandas.str_replace_non_az (Pandas.str_lower s)) /\
     (forall y, In (Py.VStr y) (Pandas.str_replace_non_az (Pandas.str_lower s)) ->
                Py.string_forallb Py.is_lower_az y = true) /\
     EtlFact.transform_room_type df' = Py.Ok df' /\
     EtlDims.transform_dimension_data rt df' "dim_rooms" = Py.Ok df').
Proof.
  split.
  { intros x. split; [reflexivity |]. split;
      [apply remove_non_az_only_az | apply room_type_string_idempotent]. }
  split; [apply room_type_series_idempotent |].
  intros rt df df' s Hwf Hget H.
  split.
  { apply (room_rule_writes df df' s Hwf Hget).
    destruct H as [H | H]; [now left | right; now exists rt]. }
  split.
  { intros y Hy. rewrite room_type_series in Hy.
    apply in_map_iff in Hy as [v [Hv _]].
    destruct v as [| b | z | f | x | t]; simpl in Hv; try discriminate.
    - destruct f; discriminate.
    - injection Hv as <-. apply remove_non_az_only_az. }
  assert (EtlDims.transform_dimension_data rt df "dim_rooms" = Py.Ok df') as Hd.
  { destruct H as [H | H]; [| exact H].
    unfold EtlFact.transform_room_type in H.
    destruct (getitem_inv _ _ _ Hget) as [Hc _].
    now rewrite (unique_has_column _ _ Hc) in H. }
  split; [| exact (dims_room_twice rt df df' Hwf Hd)].
  unfold EtlFact.transform_room_type.
  destruct (column_rule_twice df df' "room_type"
              (fun s => Py.Ok (Pandas.str_replace_non_az (Pandas.str_lower s))) Hwf
              room_rule_fixpoint Hd) as [-> H'].
  exact H'.
Qed.

Lemma room_type_normalization_witness :
  Pandas.well_formed Sample.rooms /\
  Pandas.getitem Sample.rooms "room_type" = Py.Ok [Py.VStr "De-Luxe 2"; Py.VStr "SUITE"] /\
  (let df' := Pandas.mkDF ["id"; "name"; "room_type"; "floor"; "hotel_id"]
                [[Py.VInt 100; Py.VStr "A1"; Py.VStr "deluxe"; Py.VInt 1; Py.VInt 1];
                 [Py.VInt 101; Py.VStr "B2"; Py.VStr "suite"; Py.VInt 2; Py.VInt 1]] in
   EtlFact.transform_room_type Sample.rooms = Py.Ok df' /\
   Pandas.getitem df' "room_type" = Py.Ok [Py.VStr "deluxe"; Py.VStr "suite"] /\
   EtlFact.transform_room_type df' = Py.Ok df' /\
   EtlDims.transform_dimension_data Sample.rt df' "dim_rooms" = Py.Ok df').
Proof.
  assert (Pandas.well_formed Sample.rooms) as Hwf by solve_well_formed.
  split; [exact Hwf |]. split; [reflexivity |]. split; [reflexivity |].
  destruct room_type_normalization as (_ & _ & H).
  destruct (H Sample.rt Sample.rooms _ _ Hwf eq_refl (or_introl eq_refl))
    as (Hget & _ & Hf & Hd).
  split; [exact Hget |]. split; [exact Hf | exact Hd].
Defined.

(** A transform of the fact job skips a column that is not there. *)
Lemma fact_transforms_skip_missing_column (rt : Py.Runtime) (df : Pandas.DataFrame) :
  (Pandas.has_column "room_type" df = false -> EtlFact.transform_room_type df = Py.Ok df) /\
  (Pandas.has_column "phone_number" df = false ->
   EtlFact.transform_phone_number rt df = Py.Ok df).
Proof.
  unfold EtlFact.transform_room_type, EtlFact.transform_phone_number.
  split; intros ->; reflexivity.
Qed.

(** The transform of the dimension job does not: it reads the column first. *)
Lemma dims_transform_raises_on_missing_column (rt : Py.Runtime) (df : Pandas.DataFrame) :
  (Pandas.has_column "room_type" df = false ->
   EtlDims.transform_dimension_data rt df "dim_rooms" = Py.Raise (Py.KeyError "room_type")) /\
  (Pandas.has_column "phone_number" df = false ->
   EtlDims.transform_dimension_data rt df "dim_guests" =
     Py.Raise (Py.KeyError "phone_number")).
Proof.
  unfold EtlDims.transform_dimension_data. simpl.
  split; intros H; now rewrite (getitem_absent _ _ H).
Qed.

(** C5, at a Rooms table without [room_type] and a Users table without
    [phone_number].  The transforms of the fact job return the batch as it
    is.  The transform of the dimension job raises [KeyError], and the
    dimension job run on that Rooms table stops with the exception before any
    table is written. *)
Theorem missing_column_skipped_by_fact_not_by_dims :
  EtlFact.transform_room_type Sample.rooms_without_type = Py.Ok Sample.rooms_without_type /\
  EtlFact.transform_phone_number Sample.rt Sample.users_without_phone =
    Py.Ok Sample.users_without_phone /\
  EtlDims.transform_dimension_data Sample.rt Sample.rooms_without_type "dim_rooms" =
    Py.Raise (Py.KeyError "room_type") /\
  EtlDims.transform_dimension_data Sample.rt Sample.users_without_phone "dim_guests" =
    Py.Raise (Py.KeyError "phone_number") /\
  Job.run (EtlDims.main Sample.world_rooms_without_type) =
    (Py.Raise (Py.KeyError "room_type"), []).
Proof. repeat split; reflexivity. Qed.

(* ===================================================================== *)
(** * Extraction failures *)
(* ===================================================================== *)

(** C8. When the read of one of the four source tables fails, the fact job
    and the dimension job report each failed read, print the abort message
    and return: the trace holds no write to the warehouse, and no exception
    of a transform or merge can come up, whatever the tables that were read
    contain. *)
Theorem extraction_failure_aborts (w : Job.World) :
  Job.source w "Reservations" = None \/ Job.source w "Stays" = None \/
  Job.source w "Rooms" = None \/ Job.source w "Users" = None ->
  let failed :=
    filter (fun t => match Job.source w t with None => true | Some _ => false end)
           ["Reservations"; "Stays"; "Rooms"; "Users"] in
  let trace :=
    map (fun t => Job.Printed (Job.ExtractError t)) failed
    ++ [Job.Printed Job.ExtractionFailed] in
  Job.run (EtlFact.main w) = (Py.Ok tt, trace) /\
  Job.run (EtlDims.main w) = (Py.Ok tt, trace) /\
  (forall table mode df, ~ In (Job.ToSql table mode df) trace).
Proof.
  intros H failed trace. subst trace failed.
  unfold Job.run, EtlFact.main, EtlDims.main, EtlFact.extract_data,
    EtlDims.extract_data, Job.mbind, Job.emit, Job.ret.
  simpl filter.
  destruct (Job.source w "Reservations") as [r |] eqn:Er;
    destruct (Job.source w "Stays") as [s |] eqn:Es;
    destruct (Job.source w "Rooms") as [o |] eqn:Eo;
    destruct (Job.source w "Users") as [u |] eqn:Eu;
    try (exfalso; now destruct H as [H | [H | [H | H]]]);
    (split; [reflexivity | split; [reflexivity |]]);
    intros table mode df Hin; simpl in Hin;
    repeat (destruct Hin as [Hin | Hin]; [discriminate |]); exact Hin.
Qed.

Lemma extraction_failure_aborts_witness :
  Job.source Sample.world_stays_unreadable "Stays" = None /\
  Job.run (EtlFact.main Sample.world_stays_unreadable) =
    (Py.Ok tt, [Job.Printed (Job.ExtractError "Stays"); Job.Printed Job.ExtractionFailed]) /\
  Job.run (EtlDims.main Sample.world_stays_unreadable) =
    (Py.Ok tt, [Job.Printed (Job.ExtractError "Stays"); Job.Printed Job.ExtractionFailed]).
Proof.
  split; [reflexivity |].
  destruct (extraction_failure_aborts Sample.world_stays_unreadable
              (or_intror (or_introl eq_refl))) as (Hf & Hd & _).
  split; [exact Hf | exact Hd].
Defined.

(* ===================================================================== *)
(** * Dimension preparation *)
(* ===================================================================== *)

Section DimensionPreparation.
Import Py Pandas.

(** No renaming of [columns_map] produces or removes a bookkeeping label. *)
Lemma scd_label_not_renamed (dimension_type l c : string) :
  In c ["effective_date"; "end_date"; "current_flag"] ->
  rename_label (EtlDims.get_or_empty dimension_type EtlDims.columns_map) l = c <-> l = c.
Proof.
  intros Hc. unfold EtlDims.columns_map, EtlDims.get_or_empty, rename_label.
  destruct (String.eqb dimension_type "dim_reservations");
    [| destruct (String.eqb dimension_type "dim_stays");
       [| destruct (String.eqb dimension_type "dim_rooms");
          [| destruct (String.eqb dimension_type "dim_guests")]]];
    simpl;
    repeat match goal with
           | |- context [String.eqb l ?k] =>
               let E := fresh "E" in
               destruct (String.eqb l k) eqn:E;
               [apply String.eqb_eq in E; subst l |]
           end;
    try tauto;
    simpl in Hc; destruct Hc as [<- | [<- | [<- | []]]]; split; intros H;
    discriminate.
Qed.

Lemma has_scd_column_rename (df : DataFrame) (dimension_type c : string) :
  In c ["effective_date"; "end_date"; "current_flag"] ->
  has_column c (rename df (EtlDims.get_or_empty dimension_type EtlDims.columns_map)) =
  has_column c df.
Proof.
  intros Hc. unfold has_column, rename. simpl.
  induction (columns df) as [| l cols IH]; simpl; [reflexivity |].
  rewrite IH. f_equal.
  destruct (String.eqb c l) eqn:E.
  - apply String.eqb_eq in E. subst l. apply String.eqb_eq. symmetry.
    now apply scd_label_not_renamed.
  - apply String.eqb_neq. intros H. symmetry in H.
    apply scd_label_not_renamed in H; [| assumption].
    subst l. now rewrite String.eqb_refl in E.
Qed.

Lemma map_app_nil_id {A : Type} (l : list (list A)) :
  map (fun row => row ++ []) l = l.
Proof.
  induction l as [| a l IH]; simpl; [reflexivity |]. now rewrite app_nil_r, IH.
Qed.

(** The bookkeeping columns and their defaults, in the order in which
    [prepare_data] looks for them. *)
Lemma prepare_data_closed_form (clock : Z) (df : DataFrame) (dimension_type : string) :
  let missing :=
    filter (fun d : string * value => negb (has_column (fst d) df))
           [("effective_date", VTimestamp (EtlDims.normalize clock));
            ("end_date", VNone); ("current_flag", VBool true)] in
  EtlDims.prepare_data clock df dimension_type =
  mkDF (map (rename_label (EtlDims.get_or_empty dimension_type EtlDims.columns_map))
            (columns df) ++ map fst missing)
       (map (fun row => row ++ map snd missing) (rows df)).
Proof.
  unfold EtlDims.prepare_data. simpl filter.
  pose proof (has_scd_column_rename df dimension_type "effective_date") as H1.
  pose proof (has_scd_column_rename df dimension_type "end_date") as H2.
  pose proof (has_scd_column_rename df dimension_type "current_flag") as H3.
  simpl in H1, H2, H3.
  specialize (H1 (or_introl eq_refl)).
  specialize (H2 (or_intror (or_introl eq_refl))).
  specialize (H3 (or_intror (or_intror (or_introl eq_refl)))).
  set (df0 := rename df _) in *.
  assert (rows df0 = rows df) as Hrows by reflexivity.
  assert (columns df0 =
          map (rename_label (EtlDims.get_or_empty dimension_type EtlDims.columns_map))
              (columns df)) as Hcols by reflexivity.
  rewrite <- Hcols, <- Hrows, <- H1, <- H2, <- H3. clearbody df0. clear.
  destruct df0 as [cols rs].
  unfold setitem_scalar, setitem, has_column. cbn [columns rows].
  destruct (existsb (String.eqb "effective_date") cols) eqn:E1;
    destruct (existsb (String.eqb "end_date") cols) eqn:E2;
    destruct (existsb (String.eqb "current_flag") cols) eqn:E3;
    cbn [negb columns rows];
    repeat (rewrite ?existsb_app, ?E1, ?E2, ?E3; cbn [existsb orb negb columns rows];
            eval_label_tests);
    cbn [filter fst snd map negb];
    rewrite ?map_combine_map, ?app_nil_r, ?map_map, <- ?app_assoc; cbn [fst snd app];
    f_equal.
  all: try (symmetry; apply map_app_nil_id).
  all: try (apply map_ext; intros row; now rewrite <- ?app_assoc).
Qed.

End DimensionPreparation.

(** C7. Dimension preparation.  The batch returned by [prepare_data] has the
    labels of the input, renamed by the mapping of the dimension, followed by
    those of effective_date, end_date and current_flag that the input lacks,
    in this order; each row is the input row followed by the defaults of the
    appended columns: for effective_date the midnight that begins the day of
    the clock reading (with the clock in seconds, the multiple of 86400 that
    is at most the reading and less than a day before it), for end_date None,
    for current_flag True.  So the
    three columns are always present, an appended column holds its default
    in every row, and a bookkeeping column that the input already has is
    neither appended again nor overwritten.  The mappings rename id to
    reservation_id, stay_id, room_id and guest_id, and for stays also
    reference_reservation_id to reservation_id.  In the dimension job, what
    is written to each dimension table is [prepare_data] of the extracted
    (for rooms and guests, transformed) batch under that table's mapping. *)
Theorem dimension_preparation (clock : Z) (df : Pandas.DataFrame) (dimension_type : string) :
  let out := EtlDims.prepare_data clock df dimension_type in
  let midnight := 86400 * (clock / 86400) in
  let defaults :=
    [("effective_date", Py.VTimestamp midnight);
     ("end_date", Py.VNone); ("current_flag", Py.VBool true)] in
  let missing :=
    filter (fun d : string * Py.value => negb (Pandas.has_column (fst d) df)) defaults in
  (midnight <= clock < midnight + 86400) /\
  (Pandas.has_column "effective_date" df = false ->
   forall row, In row (Pandas.rows out) -> In (Py.VTimestamp midnight) row) /\
  (Pandas.columns out =
     map (Pandas.rename_label (EtlDims.get_or_empty dimension_type EtlDims.columns_map))
         (Pandas.columns df) ++ map fst missing /\
   Pandas.rows out = map (fun row => row ++ map snd missing) (Pandas.rows df)) /\
  (forall c, In c ["effective_date"; "end_date"; "current_flag"] ->
             Pandas.has_column c out = true) /\
  (Forall (fun row => length row = length (Pandas.columns df)) (Pandas.rows df) ->
   forall c v row, In (c, v) missing -> In row (Pandas.rows out) ->
                   Pandas.cells c (Pandas.columns out) row = [v]) /\
  (forall l,
     Pandas.rename_label (EtlDims.get_or_empty "dim_reservations" EtlDims.columns_map) l =
       (if String.eqb l "id" then "reservation_id" else l) /\
     Pandas.rename_label (EtlDims.get_or_empty "dim_stays" EtlDims.columns_map) l =
       (if String.eqb l "id" then "stay_id"
        else if String.eqb l "reference_reservation_id" then "reservation_id" else l) /\
     Pandas.rename_label (EtlDims.get_or_empty "dim_rooms" EtlDims.columns_map) l =
       (if String.eqb l "id" then "room_id" else l) /\
     Pandas.rename_label (EtlDims.get_or_empty "dim_guests" EtlDims.columns_map) l =
       (if String.eqb l "id" then "guest_id" else l)) /\
  (forall w r s o u o' u',
     Job.source w "Reservations" = Some r -> Job.source w "Stays" = Some s ->
     Job.source w "Rooms" = Some o -> Job.source w "Users" = Some u ->
     EtlDims.transform_dimension_data (Job.runtime w) o "dim_rooms" = Py.Ok o' ->
     EtlDims.transform_dimension_data (Job.runtime w) u "dim_guests" = Py.Ok u' ->
     Job.writes (snd (Job.run (EtlDims.main w))) =
       [("dim_reservations", Job.Replace,
           EtlDims.prepare_data (Job.now w) r "dim_reservations");
        ("dim_stays", Job.Replace, EtlDims.prepare_data (Job.now w) s "dim_stays");
        ("dim_rooms", Job.Replace, EtlDims.prepare_data (Job.now w) o' "dim_rooms");
        ("dim_guests", Job.Replace, EtlDims.prepare_data (Job.now w) u' "dim_guests")]).
Proof.
  intros out midnight defaults missing.
  assert (EtlDims.normalize clock = midnight) as Hmid.
  { unfold EtlDims.normalize, midnight. rewrite Z.mod_eq by lia. lia. }
  pose proof (prepare_data_closed_form clock df dimension_type) as Hcf.
  fold out in Hcf. cbv zeta in Hcf. rewrite Hmid in Hcf.
  fold defaults in Hcf. fold missing in Hcf.
  split.
  { unfold midnight. pose proof (Z.mul_div_le clock 86400 ltac:(lia)).
    pose proof (Z.mul_succ_div_gt clock 86400 ltac:(lia)). lia. }
  split.
  { intros Habs row Hrow. rewrite Hcf in Hrow. cbn [Pandas.rows] in Hrow.
    apply in_map_iff in Hrow as [row0 [<- _]]. apply in_or_app. right.
    subst missing defaults. cbn [filter fst]. rewrite Habs. now left. }
  assert (Pandas.columns out =
            map (Pandas.rename_label
                   (EtlDims.get_or_empty dimension_type EtlDims.columns_map))
                (Pandas.columns df) ++ map fst missing /\
          Pandas.rows out = map (fun row => row ++ map snd missing) (Pandas.rows df))
    as [Hcols Hrows] by (rewrite Hcf; split; reflexivity).
  split; [split; assumption |].
  assert (forall c, In c ["effective_date"; "end_date"; "current_flag"] ->
                    ~ In c (map fst missing) ->
                    Pandas.has_column c df = true) as Hpresent.
  { intros c Hc Hnot. destruct (Pandas.has_column c df) eqn:E; [reflexivity |].
    exfalso. apply Hnot. subst missing defaults.
    simpl in Hc. destruct Hc as [<- | [<- | [<- | []]]]; simpl; rewrite E; simpl;
      auto.
    - destruct (Pandas.has_column "effective_date" df); simpl; auto.
    - destruct (Pandas.has_column "effective_date" df),
               (Pandas.has_column "end_date" df); simpl; auto. }
  split.
  { intros c Hc. apply has_column_In. rewrite Hcols. apply in_or_app.
    destruct (in_dec string_dec c (map fst missing)) as [Hin | Hnot];
      [now right | left].
    specialize (Hpresent c Hc Hnot).
    rewrite <- (has_scd_column_rename df dimension_type c Hc) in Hpresent.
    now apply has_column_In in Hpresent. }
  split.
  { intros Hfull c v row Hcv Hrow. rewrite Hcols. rewrite Hrows in Hrow.
    apply in_map_iff in Hrow as [row0 [<- Hrow0]].
    rewrite Forall_forall in Hfull.
    rewrite cells_app by (rewrite length_map; now apply Hfull).
    assert (In c ["effective_date"; "end_date"; "current_flag"] /\
            Pandas.has_column c df = false) as [Hc Habs].
    { subst missing defaults. apply filter_In in Hcv as [Hcv Hb]. simpl in Hb.
      apply negb_true_iff in Hb. split; [| exact Hb].
      simpl in Hcv. destruct Hcv as [H | [H | [H | []]]]; injection H as <- _;
        simpl; auto. }
    rewrite cells_absent.
    2:{ rewrite <- (has_scd_column_rename df dimension_type c Hc) in Habs.
        now apply has_column_not_In in Habs. }
    subst missing defaults. simpl in Hcv |- *.
    destruct (Pandas.has_column "effective_date" df),
             (Pandas.has_column "end_date" df),
             (Pandas.has_column "current_flag" df); simpl in Hcv |- *;
      repeat (destruct Hcv as [Hcv | Hcv]; [injection Hcv as <- <-; reflexivity |]);
      now destruct Hcv. }
  split.
  { intros l. unfold Pandas.rename_label. simpl.
    repeat split; destruct (String.eqb l "id"); try reflexivity.
    destruct (String.eqb l "reference_reservation_id"); reflexivity. }
  intros w r s o u o' u' Er Es Eo Eu Ho Hu.
  unfold Job.run, EtlDims.main, EtlDims.extract_data, Job.mbind, Job.lift, Job.ret,
    EtlDims.load_dimension_data, Job.emit.
  rewrite Er, Es, Eo, Eu, Ho, Hu.
  destruct (Job.warehouse_accepts w "dim_reservations"),
           (Job.warehouse_accepts w "dim_stays"),
           (Job.warehouse_accepts w "dim_rooms"),
           (Job.warehouse_accepts w "dim_guests"); reflexivity.
Qed.

Lemma dimension_preparation_witness :
  let out := EtlDims.prepare_data (Job.now Sample.world) Sample.stays "dim_stays" in
  Forall (fun row => length row = length (Pandas.columns Sample.stays))
         (Pandas.rows Sample.stays) /\
  Pandas.columns out =
    ["stay_id"; "date"; "reservation_id"; "room_id"; "guest_id";
     "effective_date"; "end_date"; "current_flag"] /\
  Pandas.has_column "current_flag" out = true /\
  Pandas.cells "effective_date" (Pandas.columns out)
    [Py.VInt 10; Py.VStr "2024-06-01"; Py.VInt 1; Py.VInt 100; Py.VInt 1000;
     Py.VTimestamp 1717200000; Py.VNone; Py.VBool true] = [Py.VTimestamp 1717200000] /\
  Job.writes (snd (Job.run (EtlDims.main Sample.world))) =
    [("dim_reservations", Job.Replace,
        EtlDims.prepare_data (Job.now Sample.world) Sample.reservations "dim_reservations");
     ("dim_stays", Job.Replace, out);
     ("dim_rooms", Job.Replace,
        EtlDims.prepare_data (Job.now Sample.world)
          (Pandas.mkDF ["id"; "name"; "room_type"; "floor"; "hotel_id"]
             [[Py.VInt 100; Py.VStr "A1"; Py.VStr "deluxe"; Py.VInt 1; Py.VInt 1];
              [Py.VInt 101; Py.VStr "B2"; Py.VStr "suite"; Py.VInt 2; Py.VInt 1]])
          "dim_rooms");
     ("dim_guests", Job.Replace,
        EtlDims.prepare_data (Job.now Sample.world)
          (Pandas.mkDF ["id"; "phone_number"]
             [[Py.VInt 1000; Py.VStr "+620812345"]; [Py.VInt 1001; Py.VStr "+6281234"];
              [Py.VInt 1002; Py.VNone]; [Py.VInt 1003; Py.VStr ""]])
          "dim_guests")].
Proof.
  intros out.
  assert (Forall (fun row => length row = length (Pandas.columns Sample.stays))
                 (Pandas.rows Sample.stays)) as Hfull.
  { simpl. repeat (apply Forall_cons; [reflexivity |]). apply Forall_nil. }
  destruct (dimension_preparation (Job.now Sample.world) Sample.stays "dim_stays")
    as (_ & _ & (Hcols & _) & Hhas & Hcell & _ & Hmain).
  split; [exact Hfull |].
  split; [exact Hcols |].
  split; [apply Hhas; simpl; auto |].
  split.
  - apply (Hcell Hfull "effective_date" (Py.VTimestamp 1717200000)).
    + simpl. left. reflexivity.
    + simpl. left. reflexivity.
  - apply (Hmain Sample.world Sample.reservations Sample.stays Sample.rooms Sample.users);
      reflexivity.
Defined.

(* ===================================================================== *)
(** * Deduplication and projection *)
(* ===================================================================== *)

Section Deduplication.
Import Py Pandas.

Lemma key_eqb_eq (k k' : list value) : key_eqb k k' = true <-> k = k'.
Proof.
  unfold key_eqb. revert k'. induction k as [| a k IH]; intros [| b k']; simpl;
    split; intros H; try discriminate; try reflexivity.
  - apply andb_prop in H as [Hlen H]. apply andb_prop in H as [Hab H].
    apply value_eqb_eq in Hab. subst b. f_equal. apply IH.
    now rewrite Hlen, H.
  - injection H as <- <-. rewrite value_eqb_refl.
    destruct (IH k) as [_ Hk]. specialize (Hk eq_refl).
    apply andb_prop in Hk as [Hlen Hk]. now rewrite Hlen, Hk.
Qed.

Lemma seen_iff (k : list value) (seen : list (list value)) :
  existsb (key_eqb k) seen = true <-> In k seen.
Proof.
  rewrite existsb_exists. split.
  - intros [x [Hx He]]. apply key_eqb_eq in He. now subst.
  - intros H. exists k. split; [assumption | now apply key_eqb_eq].
Qed.

Lemma seen_false_iff (k : list value) (seen : list (list value)) :
  existsb (key_eqb k) seen = false <-> ~ In k seen.
Proof.
  rewrite <- seen_iff. destruct (existsb (key_eqb k) seen); split; intros H;
    try reflexivity; try discriminate; try (intros H'; discriminate).
  now contradiction H.
Qed.

Section KeepFirst.
Variable key : list value -> list value.

Lemma keep_first_In (seen : list (list value)) (l : list (list value)) (r : list value) :
  In r (keep_first key seen l) -> In r l /\ ~ In (key r) seen.
Proof.
  revert seen. induction l as [| x l IH]; simpl; intros seen H; [contradiction |].
  destruct (existsb (key_eqb (key x)) seen) eqn:E.
  - destruct (IH _ H) as [Hin Hs]. split; [now right | exact Hs].
  - destruct H as [<- | H].
    + split; [now left | now apply seen_false_iff].
    + destruct (IH _ H) as [Hin Hs]. split; [now right |].
      intros Hk. apply Hs. now right.
Qed.

Lemma keep_first_NoDup (seen : list (list value)) (l : list (list value)) :
  NoDup (map key (keep_first key seen l)).
Proof.
  revert seen. induction l as [| x l IH]; simpl; intros seen; [constructor |].
  destruct (existsb (key_eqb (key x)) seen); [apply IH |].
  simpl. constructor; [| apply IH].
  intros Hin. apply in_map_iff in Hin as [r [Hk Hr]].
  apply keep_first_In in Hr as [_ Hr]. apply Hr. rewrite Hk. now left.
Qed.

Lemma keep_first_covers (seen : list (list value)) (l : list (list value)) (r : list value) :
  In r l -> In (key r) seen \/ In (key r) (map key (keep_first key seen l)).
Proof.
  revert seen. induction l as [| x l IH]; simpl; intros seen H; [contradiction |].
  destruct (existsb (key_eqb (key x)) seen) eqn:E.
  - destruct H as [<- | H]; [left; now apply seen_iff | now apply IH].
  - destruct H as [<- | H]; [right; now left |].
    destruct (IH (key x :: seen) H) as [[Hk | Hs] | Hk].
    + right. left. exact Hk.
    + now left.
    + right. now right.
Qed.

Lemma keep_first_subsequence (seen : list (list value)) (l : list (list value)) :
  subsequence (keep_first key seen l) l.
Proof.
  revert seen. induction l as [| x l IH]; simpl; intros seen; [constructor |].
  destruct (existsb (key_eqb (key x)) seen); now constructor.
Qed.

(** A kept row is the first row of its key. *)
Lemma keep_first_is_first (seen : list (list value)) (l : list (list value))
  (r : list value) :
  In r (keep_first key seen l) ->
  exists before after,
    l = before ++ r :: after /\ ~ In (key r) (map key before).
Proof.
  revert seen. induction l as [| x l IH]; simpl; intros seen H; [contradiction |].
  destruct (existsb (key_eqb (key x)) seen) eqn:E.
  - destruct (IH _ H) as (before & after & -> & Hb).
    exists (x :: before), after. split; [reflexivity |].
    simpl. intros [Hk | Hk]; [| now apply Hb].
    apply keep_first_In in H as [_ Hs]. apply Hs. rewrite <- Hk.
    now apply seen_iff.
  - destruct H as [<- | H].
    + exists [], l. split; [reflexivity | simpl; tauto].
    + destruct (IH _ H) as (before & after & -> & Hb).
      exists (x :: before), after. split; [reflexivity |].
      simpl. intros [Hk | Hk]; [| now apply Hb].
      apply keep_first_In in H as [_ Hs]. apply Hs. now left.
Qed.

(** Copies of a row that stand next to each other count as one row. *)
Lemma keep_first_copies {X : Type} (p : X -> list value) (count : X -> nat)
  (seen : list (list value)) (l : list X) :
  (forall x, In x l -> count x <> 0%nat) ->
  keep_first key seen (flat_map (fun x => repeat (p x) (count x)) l) =
  keep_first key seen (map p l).
Proof.
  revert seen. induction l as [| x l IH]; simpl; intros seen Hc; [reflexivity |].
  assert (forall n seen' rest,
            existsb (key_eqb (key (p x))) seen' = true ->
            keep_first key seen' (repeat (p x) n ++ rest) = keep_first key seen' rest)
    as Hskip.
  { induction n as [| n IHn]; simpl; intros seen' rest Hs; [reflexivity |].
    rewrite Hs. now apply IHn. }
  destruct (count x) as [| n] eqn:En; [exfalso; now apply (Hc x (or_introl eq_refl)) |].
  simpl. destruct (existsb (key_eqb (key (p x))) seen) eqn:E.
  - rewrite Hskip by exact E. apply IH. intros r Hr. apply Hc. now right.
  - f_equal. rewrite Hskip.
    + apply IH. intros r Hr. apply Hc. now right.
    + simpl. destruct (key_eqb_eq (key (p x)) (key (p x))) as [_ ->]; reflexivity.
Qed.

End KeepFirst.

(** Deduplication commutes with a map that keeps the keys. *)
Lemma keep_first_map (key key' : list value -> list value)
  (p : list value -> list value) (seen : list (list value)) (l : list (list value)) :
  (forall r, In r l -> key' (p r) = key r) ->
  keep_first key' seen (map p l) = map p (keep_first key seen l).
Proof.
  revert seen. induction l as [| x l IH]; simpl; intros seen Hk; [reflexivity |].
  rewrite (Hk x (or_introl eq_refl)).
  destruct (existsb (key_eqb (key x)) seen).
  - apply IH. intros r Hr. apply Hk. now right.
  - simpl. f_equal. apply IH. intros r Hr. apply Hk. now right.
Qed.

End Deduplication.

Section Projection.
Import Py Pandas.

Lemma select_inv (df p : DataFrame) (names : list string) :
  select df names = Ok p ->
  (forall c, In c names -> In c (columns df)) /\
  p = mkDF (flat_map (fun c => filter (String.eqb c) (columns df)) names)
           (map (fun row => flat_map (fun c => cells c (columns df) row) names)
                (rows df)).
Proof.
  unfold select.
  destruct (find (fun c => negb (has_column c df)) names) eqn:E; [discriminate |].
  intros H. injection H as <-. split; [| reflexivity].
  intros c Hc. pose proof (find_none _ _ E c Hc) as Hn. simpl in Hn.
  apply negb_false_iff in Hn. now apply has_column_In.
Qed.

Lemma select_present (df : DataFrame) (names : list string) :
  (forall c, In c names -> In c (columns df)) ->
  select df names =
  Ok (mkDF (flat_map (fun c => filter (String.eqb c) (columns df)) names)
           (map (fun row => flat_map (fun c => cells c (columns df) row) names)
                (rows df))).
Proof.
  intros H. unfold select.
  destruct (find (fun c => negb (has_column c df)) names) eqn:E; [| reflexivity].
  apply find_some in E as [Hin Hn]. apply negb_true_iff in Hn.
  apply has_column_not_In in Hn. exfalso. now apply Hn, H.
Qed.

(** On a batch with distinct labels and full rows, a selection is the plain
    projection on the labels asked. *)
Lemma select_well_formed (df p : DataFrame) (names : list string) :
  well_formed df -> select df names = Ok p ->
  p = mkDF names (map (fun row => map (fun c => cell c (columns df) row) names) (rows df)).
Proof.
  intros [Hnd Hfull] H. apply select_inv in H as [Hin ->]. f_equal.
  - clear Hfull. induction names as [| c names IH]; simpl; [reflexivity |].
    rewrite (filter_eqb_NoDup c _ Hnd) by (apply Hin; now left).
    simpl. f_equal. apply IH. intros c' Hc'. apply Hin. now right.
  - apply map_ext_in. intros row Hrow. rewrite Forall_forall in Hfull.
    specialize (Hfull row Hrow).
    clear Hrow. induction names as [| c names IH]; simpl; [reflexivity |].
    rewrite (cells_single c _ row) by
      (try apply filter_eqb_NoDup; try assumption; apply Hin; now left).
    simpl. f_equal. apply IH. intros c' Hc'. apply Hin. now right.
Qed.

Lemma cells_map (c : string) (names : list string) (f : string -> value) :
  cells c names (map f names) = map f (filter (String.eqb c) names).
Proof.
  induction names as [| l names IH]; simpl; [reflexivity |].
  destruct (String.eqb c l); simpl; now rewrite IH.
Qed.

(** Reading a column under its new label is reading it under the old one,
    when no other label is renamed onto it. *)
Lemma cells_renamed (ren : string -> string) (c c' : string) (cols : list string)
  (row : list value) :
  (forall l, In l cols -> (ren l = c' <-> l = c)) ->
  cells c' (map ren cols) row = cells c cols row.
Proof.
  revert row. induction cols as [| l cols IH]; intros [| v row] H; simpl;
    try reflexivity.
  assert (String.eqb c' (ren l) = String.eqb c l) as ->.
  { destruct (String.eqb c l) eqn:E.
    - apply String.eqb_eq in E. subst l. apply String.eqb_eq. symmetry.
      apply H; [now left | reflexivity].
    - apply String.eqb_neq. intros He. symmetry in He.
      apply H in He; [| now left]. subst l. now rewrite String.eqb_refl in E. }
  rewrite IH; [reflexivity |]. intros l' Hl'. apply H. now right.
Qed.

Lemma rename_one_label (id_col new_id_col l : string) :
  rename_label [(id_col, new_id_col)] l = if String.eqb l id_col then new_id_col else l.
Proof. unfold rename_label. simpl. now destruct (String.eqb l id_col). Qed.

Lemma rename_one_target (id_col new_id_col : string) (cols : list string) :
  ~ In new_id_col cols \/ new_id_col = id_col ->
  forall l, In l cols ->
            (rename_label [(id_col, new_id_col)] l = new_id_col <-> l = id_col).
Proof.
  intros H l Hl. rewrite rename_one_label.
  destruct (String.eqb l id_col) eqn:E.
  - apply String.eqb_eq in E. tauto.
  - apply String.eqb_neq in E. split; [| tauto].
    intros ->. destruct H as [H | H]; [contradiction | congruence].
Qed.

Lemma prepare_fact_data_inv (df out : DataFrame) (names : list string)
  (id_col new_id_col : string) :
  EtlFact.prepare_fact_data df names id_col new_id_col = Ok out ->
  exists picked,
    select df names = Ok picked /\
    In id_col (columns picked) /\
    out = mkDF (map (rename_label [(id_col, new_id_col)]) (columns picked))
               (keep_first (cells id_col (columns picked)) [] (rows picked)).
Proof.
  unfold EtlFact.prepare_fact_data.
  destruct (select df names) as [picked |]; simpl; [| discriminate].
  unfold drop_duplicates. destruct (has_column id_col picked) eqn:E; simpl;
    [| discriminate].
  intros H. injection H as <-. exists picked.
  split; [reflexivity |]. split; [now apply has_column_In | reflexivity].
Qed.

End Projection.

(** C2. Fact preparation.  When [prepare_fact_data] returns a batch, its rows
    are rows of the projection [df[columns]], in their order; no two of them
    have the same cells in the id column; every id of the projection is the
    id of a returned row; and a returned row is the first row of the
    projection with its id.  For a batch with distinct labels and full rows,
    asked for distinct columns none of which is the new id label, the
    returned batch has the labels asked with the id label replaced, and the
    cells under the new id label are pairwise distinct. *)
Theorem fact_preparation_keeps_first_row_per_id
  (df out : Pandas.DataFrame) (names : list string) (id_col new_id_col : string) :
  EtlFact.prepare_fact_data df names id_col new_id_col = Py.Ok out ->
  exists picked,
    Pandas.select df names = Py.Ok picked /\
    Pandas.columns out =
      map (Pandas.rename_label [(id_col, new_id_col)]) (Pandas.columns picked) /\
    (let key := Pandas.cells id_col (Pandas.columns picked) in
     NoDup (map key (Pandas.rows out)) /\
     Pandas.subsequence (Pandas.rows out) (Pandas.rows picked) /\
     (forall r, In r (Pandas.rows picked) -> In (key r) (map key (Pandas.rows out))) /\
     (forall r, In r (Pandas.rows out) ->
        exists before after,
          Pandas.rows picked = before ++ r :: after /\
          ~ In (key r) (map key before))) /\
    (Pandas.well_formed df -> NoDup names ->
     ~ In new_id_col names \/ new_id_col = id_col ->
     Pandas.columns out =
       map (fun l => if String.eqb l id_col then new_id_col else l) names /\
     NoDup (map (Pandas.cell new_id_col (Pandas.columns out)) (Pandas.rows out))).
Proof.
  intros H. apply prepare_fact_data_inv in H as (picked & Hsel & Hid & ->).
  exists picked. split; [exact Hsel |]. split; [reflexivity |]. simpl.
  split.
  { split; [apply keep_first_NoDup |].
    split; [apply keep_first_subsequence |].
    split.
    - intros r Hr.
      destruct (keep_first_covers (Pandas.cells id_col (Pandas.columns picked)) [] _ r Hr)
        as [[] | Hk].
      exact Hk.
    - intros r Hr. now apply (keep_first_is_first _ []). }
  intros Hwf Hnd Hnew.
  pose proof (select_well_formed df picked names Hwf Hsel) as Hp.
  assert (Pandas.columns picked = names) as Hcols by (rewrite Hp; reflexivity).
  rewrite Hcols in *.
  split.
  { apply map_ext. intros l. apply rename_one_label. }
  set (rows_out := Pandas.keep_first (Pandas.cells id_col names) [] (Pandas.rows picked)).
  assert (forall r, In r rows_out ->
            Pandas.cells id_col names r =
            [Pandas.cell new_id_col
               (map (Pandas.rename_label [(id_col, new_id_col)]) names) r]) as Hkey.
  { intros r Hr. apply keep_first_In in Hr as [Hr _]. rewrite Hp in Hr. simpl in Hr.
    apply in_map_iff in Hr as [row0 [<- _]].
    unfold Pandas.cell.
    rewrite (cells_renamed _ id_col new_id_col names) by
      now apply rename_one_target.
    rewrite cells_map, (filter_eqb_NoDup id_col names Hnd Hid). reflexivity. }
  pose proof (keep_first_NoDup (Pandas.cells id_col names) [] (Pandas.rows picked)) as Hk.
  fold rows_out in Hk.
  rewrite (map_ext_in _ _ _ Hkey) in Hk.
  rewrite <- (map_map _ (fun v => [v])) in Hk.
  now apply NoDup_map_inv in Hk.
Qed.

Lemma fact_preparation_keeps_first_row_per_id_witness :
  let names := ["id"; "check_in_date"; "voucher_code"] in
  let out := Pandas.mkDF ["reservation_id"; "check_in_date"; "voucher_code"]
               [[Py.VInt 1; Py.VStr "2024-06-01"; Py.VStr "5"];
                [Py.VInt 2; Py.VStr "2024-06-01"; Py.VNone];
                [Py.VInt 3; Py.VStr "2024-06-01"; Py.VStr "9"]] in
  EtlFact.prepare_fact_data Sample.reservations names "id" "reservation_id" = Py.Ok out /\
  Pandas.well_formed Sample.reservations /\ NoDup names /\
  ~ In "reservation_id" names /\
  NoDup (map (Pandas.cell "reservation_id" (Pandas.columns out)) (Pandas.rows out)).
Proof.
  intros names out.
  assert (EtlFact.prepare_fact_data Sample.reservations names "id" "reservation_id" =
          Py.Ok out) as Hrun by reflexivity.
  assert (Pandas.well_formed Sample.reservations) as Hwf by solve_well_formed.
  assert (NoDup names) as Hnd by (subst names; solve_NoDup).
  assert (~ In "reservation_id" names) as Hnew by (simpl; intuition discriminate).
  split; [exact Hrun |]. split; [exact Hwf |]. split; [exact Hnd |].
  split; [exact Hnew |].
  destruct (fact_preparation_keeps_first_row_per_id _ _ _ _ _ Hrun)
    as (picked & _ & _ & _ & H).
  exact (proj2 (H Hwf Hnd (or_introl Hnew))).
Defined.

(* ===================================================================== *)
(** * Left merges *)
(* ===================================================================== *)

Section LeftMerge.
Import Py Pandas.

Lemma merge_key_inv (df : DataFrame) (c : string) (u : unit) :
  merge_key df c = Ok u -> filter (String.eqb c) (columns df) = [c].
Proof.
  unfold merge_key. pose proof (filter_eqb_all c (columns df)) as Hall.
  destruct (filter (String.eqb c) (columns df)) as [| l [| l' ls]]; intros H;
    try discriminate.
  inversion Hall; subst. reflexivity.
Qed.

Lemma with_empty_suffix (lcols rcols cols : list string) :
  map (with_suffix lcols rcols "") cols = cols.
Proof.
  induction cols as [| c cols IH]; simpl; [reflexivity |].
  rewrite IH. unfold with_suffix.
  destruct (overlapping lcols rcols c); [now rewrite string_app_empty_r | reflexivity].
Qed.

(** What a left merge returns when it returns: the labels of both sides,
    suffixed where they overlap, and every left row next to its matches. *)
Lemma merge_left_inv (left right m : DataFrame) (left_on right_on lsuffix rsuffix : string) :
  merge_left left right left_on right_on lsuffix rsuffix = Ok m ->
  filter (String.eqb right_on) (columns right) = [right_on] /\
  filter (String.eqb left_on) (columns left) = [left_on] /\
  m = mkDF (map (with_suffix (columns left) (columns right) lsuffix) (columns left)
            ++ map (with_suffix (columns left) (columns right) rsuffix) (columns right))
           (flat_map (fun lrow =>
                        join_row right right_on (cell left_on (columns left) lrow) lrow)
                     (rows left)).
Proof.
  unfold merge_left.
  destruct (merge_key right right_on) as [[] |] eqn:Er; simpl; [| discriminate].
  destruct (merge_key left left_on) as [[] |] eqn:El; simpl; [| discriminate].
  apply merge_key_inv in Er, El.
  destruct (existsb (overlapping (columns left) (columns right)) (columns left)
            && String.eqb lsuffix "" && String.eqb rsuffix ""); [discriminate |].
  destruct (introduces_duplicate [] [] (columns left) _
            || introduces_duplicate [] [] (columns right) _); [discriminate |].
  intros H. injection H as <-. repeat split; assumption.
Qed.

Lemma matching_rows_not_nil (right : DataFrame) (right_on : string) (k : value) :
  matching_rows right right_on k <> [].
Proof.
  unfold matching_rows.
  destruct (filter _ (rows right)); discriminate.
Qed.

Lemma flat_map_ext_in {A B : Type} (f g : A -> list B) (l : list A) :
  (forall a, In a l -> f a = g a) -> flat_map f l = flat_map g l.
Proof.
  induction l as [| a l IH]; simpl; intros H; [reflexivity |].
  rewrite (H a (or_introl eq_refl)), IH; [reflexivity |].
  intros a' Ha'. apply H. now right.
Qed.

Lemma map_flat_map {A B C : Type} (g : B -> C) (f : A -> list B) (l : list A) :
  map g (flat_map f l) = flat_map (fun a => map g (f a)) l.
Proof.
  induction l as [| a l IH]; simpl; [reflexivity |]. now rewrite map_app, IH.
Qed.

Lemma map_const_repeat {A B : Type} (b : B) (l : list A) :
  map (fun _ => b) l = repeat b (length l).
Proof. induction l as [| a l IH]; simpl; [reflexivity | now rewrite IH]. Qed.

(** Selecting columns of the left side from a merged batch: the right-hand
    labels are out of the way, and every merged row projects to what its left
    row projects to. *)
Lemma select_left_columns (lcols rlabels : list string) (lrows : list (list value))
  (exts : list value -> list (list value)) (names : list string) :
  Forall (fun row => length row = length lcols) lrows ->
  (forall c, In c names -> ~ In c rlabels) ->
  select (mkDF (lcols ++ rlabels)
               (flat_map (fun lrow => map (fun e => lrow ++ e) (exts lrow)) lrows)) names =
  match select (mkDF lcols lrows) names with
  | Ok p =>
      Ok (mkDF (columns p)
               (flat_map (fun lrow =>
                            repeat (flat_map (fun c => cells c lcols lrow) names)
                                   (length (exts lrow))) lrows))
  | Raise e => Raise e
  end.
Proof.
  intros Hfull Hout. unfold select.
  assert (forall c, In c names ->
            has_column c (mkDF (lcols ++ rlabels)
              (flat_map (fun lrow => map (fun e => lrow ++ e) (exts lrow)) lrows)) =
            has_column c (mkDF lcols lrows)) as Hhas.
  { intros c Hc. unfold has_column. simpl. rewrite existsb_app.
    destruct (existsb_eqb_not_In c rlabels) as [_ ->]; [| now apply Hout].
    apply orb_false_r. }
  assert (find (fun c => negb (has_column c (mkDF (lcols ++ rlabels)
              (flat_map (fun lrow => map (fun e => lrow ++ e) (exts lrow)) lrows)))) names =
          find (fun c => negb (has_column c (mkDF lcols lrows))) names) as ->.
  { clear Hout. induction names as [| c names IH]; simpl; [reflexivity |].
    rewrite (Hhas c (or_introl eq_refl)).
    destruct (negb (has_column c (mkDF lcols lrows))); [reflexivity |].
    apply IH. intros c' Hc'. apply Hhas. now right. }
  destruct (find _ names); [reflexivity |]. simpl. f_equal. f_equal.
  - apply flat_map_ext_in. intros c Hc. rewrite filter_app.
    destruct (filter_eqb_nil c rlabels) as [_ ->]; [apply app_nil_r | now apply Hout].
  - rewrite map_flat_map. apply flat_map_ext_in. intros lrow Hrow.
    rewrite map_map. rewrite <- map_const_repeat. apply map_ext. intros e.
    apply flat_map_ext_in. intros c Hc.
    rewrite Forall_forall in Hfull. rewrite cells_app by now apply Hfull.
    rewrite (cells_absent c rlabels) by now apply Hout. apply app_nil_r.
Qed.

End LeftMerge.

Section FactReservations.
Import Py Pandas.

(** Fact preparation on the left columns of a left merge gives what it gives
    on the left side alone. *)
Lemma prepare_fact_data_after_left_merge (left right m : DataFrame)
  (left_on right_on rsuffix : string) (names : list string) (id_col new_id_col : string) :
  Forall (fun row => length row = length (columns left)) (rows left) ->
  merge_left left right left_on right_on "" rsuffix = Ok m ->
  (forall c, In c names ->
     ~ In c (map (with_suffix (columns left) (columns right) rsuffix) (columns right))) ->
  EtlFact.prepare_fact_data m names id_col new_id_col =
  EtlFact.prepare_fact_data left names id_col new_id_col.
Proof.
  intros Hfull Hm Hout. apply merge_left_inv in Hm as (_ & _ & ->).
  rewrite with_empty_suffix. unfold join_row.
  destruct left as [lcols lrows]. simpl in *.
  unfold EtlFact.prepare_fact_data.
  rewrite (select_left_columns lcols _ lrows
             (fun lrow => matching_rows right right_on (cell left_on lcols lrow))
             names Hfull Hout).
  destruct (select (mkDF lcols lrows) names) as [p |] eqn:Hsel; simpl; [| reflexivity].
  apply select_inv in Hsel as [_ Hp]. simpl in Hp.
  unfold drop_duplicates, has_column. simpl.
  destruct (existsb (String.eqb id_col) (columns p)); simpl; [| reflexivity].
  do 2 f_equal. f_equal.
  rewrite keep_first_copies.
  - rewrite Hp. reflexivity.
  - intros lrow _ H. apply length_zero_iff_nil in H.
    now apply matching_rows_not_nil in H.
Qed.

Lemma transform_reservation_data_shape (rt : Runtime) (df df' : DataFrame) :
  EtlFact.transform_reservation_data rt df = Ok df' ->
  columns df' = columns df /\
  (well_formed df -> well_formed df') /\
  (length (rows df') = length (rows df)).
Proof.
  unfold EtlFact.transform_reservation_data.
  assert (forall c d d', (if has_column c d then
                            (s <-- getitem d c ;; s' <-- astype_float rt s ;;
                             Ok (setitem d c s'))%res
                          else Ok d) = Ok d' ->
                         columns d' = columns d /\
                         (well_formed d -> well_formed d') /\
                         length (rows d') = length (rows d)) as Hstep.
  { intros c d d'. destruct (has_column c d) eqn:Hc.
    - destruct (getitem d c) as [s |] eqn:Hg; simpl; [| discriminate].
      destruct (astype_float rt s) as [s' |] eqn:Hs; simpl; [| discriminate].
      intros H. injection H as <-.
      split; [now apply setitem_columns |].
      split; [now apply setitem_well_formed |].
      apply setitem_rows_length. unfold astype_float in Hs.
      rewrite (mapM_length _ _ _ Hs).
      apply getitem_inv in Hg as [_ ->]. apply length_map.
    - intros H. injection H as <-. tauto. }
  destruct (if has_column "total_room_price" df then _ else _) as [d1 |] eqn:E1;
    simpl; [| discriminate].
  destruct (if has_column "total_discount" d1 then _ else _) as [d2 |] eqn:E2;
    simpl; [| discriminate].
  intros H. injection H as <-.
  apply Hstep in E1 as (Hc1 & Hw1 & Hl1). apply Hstep in E2 as (Hc2 & Hw2 & Hl2).
  split; [congruence |]. split; [tauto | congruence].
Qed.

Lemma keep_first_full (key : list value -> list value) (n : nat)
  (l : list (list value)) :
  Forall (fun row => length row = n) l ->
  Forall (fun row => length row = n) (keep_first key [] l).
Proof.
  intros H. apply Forall_forall. intros r Hr. apply keep_first_In in Hr as [Hr _].
  rewrite Forall_forall in H. now apply H.
Qed.

(** On a batch with distinct labels and full rows, deduplicating before the
    projection gives what deduplicating after it gives. *)
Lemma deduplicate_then_project (df out : DataFrame) (names : list string)
  (id_col new_id_col : string) :
  well_formed df -> NoDup names ->
  EtlFact.prepare_fact_data df names id_col new_id_col = Ok out ->
  (d <-- drop_duplicates df id_col ;;
   p <-- select d names ;;
   Ok (rename p [(id_col, new_id_col)]))%res = Ok out.
Proof.
  intros Hwf Hnd H. apply prepare_fact_data_inv in H as (picked & Hsel & Hid & ->).
  pose proof (select_well_formed df picked names Hwf Hsel) as Hp.
  apply select_inv in Hsel as [Hin _].
  assert (In id_col names) as Hidn by (rewrite Hp in Hid; exact Hid).
  destruct Hwf as [Hcols Hfull].
  unfold drop_duplicates.
  destruct (has_column_In id_col df) as [_ ->]; [| now apply Hin]. simpl.
  set (d := mkDF (columns df) (keep_first (cells id_col (columns df)) [] (rows df))).
  assert (well_formed d) as Hwd.
  { split; [exact Hcols | simpl; now apply keep_first_full]. }
  rewrite (select_present d names Hin).
  pose proof (select_well_formed d _ names Hwd (select_present d names Hin)) as Hd.
  rewrite Hd. unfold rename, bind. cbn [columns rows]. f_equal. rewrite Hp.
  subst d. cbn [columns rows]. f_equal.
  symmetry. apply keep_first_map. intros r Hr.
  rewrite cells_map, (filter_eqb_NoDup id_col names Hnd Hidn). simpl.
  rewrite Forall_forall in Hfull.
  rewrite (cells_single id_col (columns df) r); [reflexivity | | now apply Hfull].
  apply filter_eqb_NoDup; [exact Hcols | now apply Hin].
Qed.

End FactReservations.

(* ===================================================================== *)
(** * The fact job, block by block *)
(* ===================================================================== *)

Section FactJob.
Import Py Pandas Job.

(** The fact job writes nothing, or it went through all its blocks and
    writes the two fact tables, in this order. *)
Lemma fact_main_writes (w : World) (table : string) (mode : if_exists) (df : DataFrame) :
  In (table, mode, df) (writes (snd (run (EtlFact.main w)))) ->
  exists reservations stays rooms users rooms' users' reservations' stays_m
         reservations_m valid_stays invalid_stays fact_reservations fact_stays,
    source w "Reservations" = Some reservations /\
    source w "Stays" = Some stays /\
    source w "Rooms" = Some rooms /\
    source w "Users" = Some users /\
    EtlFact.main_transform (runtime w) reservations rooms users =
      Ok (rooms', users', reservations') /\
    EtlFact.main_merge reservations' stays rooms' users' = Ok (stays_m, reservations_m) /\
    EtlFact.main_reconcile stays_m reservations_m = Ok (valid_stays, invalid_stays) /\
    EtlFact.main_prepare reservations_m valid_stays = Ok (fact_reservations, fact_stays) /\
    writes (snd (run (EtlFact.main w))) =
      [("fact_reservations", Append, fact_reservations); ("fact_stays", Append, fact_stays)].
Proof.
  unfold run, EtlFact.main, EtlFact.extract_data, mbind, lift, ret, emit.
  destruct (source w "Reservations") as [reservations |];
    destruct (source w "Stays") as [stays |];
    destruct (source w "Rooms") as [rooms |];
    destruct (source w "Users") as [users |];
    simpl; try tauto.
  destruct (EtlFact.main_transform (runtime w) reservations rooms users)
    as [[[rooms' users'] reservations'] |] eqn:Ht; simpl; [| tauto].
  destruct (EtlFact.main_merge reservations' stays rooms' users')
    as [[stays_m reservations_m] |] eqn:Hm; simpl; [| tauto].
  destruct (EtlFact.main_reconcile stays_m reservations_m)
    as [[valid_stays invalid_stays] |] eqn:Hr; simpl; [| tauto].
  unfold EtlFact.main_log_invalid, EtlFact.load_data, mbind, emit, ret.
  destruct (EtlFact.main_prepare reservations_m valid_stays)
    as [[fact_reservations fact_stays] |] eqn:Hp;
    destruct (negb (empty invalid_stays)); simpl; try tauto;
    destruct (warehouse_accepts w "fact_reservations");
    destruct (warehouse_accepts w "fact_stays"); simpl; intros _;
    exists reservations, stays, rooms, users, rooms', users', reservations', stays_m,
           reservations_m, valid_stays, invalid_stays, fact_reservations, fact_stays;
    repeat split; assumption || reflexivity.
Qed.

End FactJob.

Section FactReservationsClaim.
Import Py Pandas Job.

Lemma main_transform_inv (rt : Runtime) (reservations rooms users rooms' users'
  reservations' : DataFrame) :
  EtlFact.main_transform rt reservations rooms users = Ok (rooms', users', reservations') ->
  EtlFact.transform_room_type rooms = Ok rooms' /\
  EtlFact.transform_phone_number rt users = Ok users' /\
  EtlFact.transform_reservation_data rt reservations = Ok reservations'.
Proof.
  unfold EtlFact.main_transform.
  destruct (EtlFact.transform_room_type rooms); simpl; [| discriminate].
  destruct (EtlFact.transform_phone_number rt users); simpl; [| discriminate].
  destruct (EtlFact.transform_reservation_data rt reservations); simpl; [| discriminate].
  intros H. injection H as <- <- <-. repeat split.
Qed.

(** The steps of the merge block, one by one. *)
Lemma main_merge_inv (reservations stays rooms users stays_m reservations_m : DataFrame) :
  EtlFact.main_merge reservations stays rooms users = Ok (stays_m, reservations_m) ->
  exists rooms_cols stays1 users_cols stays2 stays_key,
    select rooms ["id"; "room_type"] = Ok rooms_cols /\
    merge_left stays rooms_cols "room_id" "id" "" "_room" = Ok stays1 /\
    select users ["id"; "phone_number"] = Ok users_cols /\
    merge_left stays1 users_cols "guest_id" "id" "" "_guest" = Ok stays2 /\
    stays_m = rename stays2 [("reference_reservation_id", "reservation_id")] /\
    select stays_m ["reservation_id"] = Ok stays_key /\
    merge_left reservations stays_key "id" "reservation_id" "" "_stays" = Ok reservations_m.
Proof.
  unfold EtlFact.main_merge.
  destruct (select rooms ["id"; "room_type"]) as [rooms_cols |] eqn:H1; simpl;
    [| discriminate].
  destruct (merge_left stays rooms_cols "room_id" "id" "" "_room") as [stays1 |] eqn:H2;
    simpl; [| discriminate].
  destruct (select users ["id"; "phone_number"]) as [users_cols |] eqn:H3; simpl;
    [| discriminate].
  destruct (merge_left stays1 users_cols "guest_id" "id" "" "_guest") as [stays2 |] eqn:H4;
    simpl; [| discriminate].
  destruct (select (rename stays2 _) ["reservation_id"]) as [stays_key |] eqn:Hk; simpl;
    [| discriminate].
  destruct (merge_left reservations stays_key "id" "reservation_id" "" "_stays")
    as [rm |] eqn:Hm; simpl; [| discriminate].
  intros H. injection H as <- <-.
  exists rooms_cols, stays1, users_cols, stays2, stays_key.
  repeat split; assumption.
Qed.

Lemma main_prepare_inv (reservations_m valid_stays fact_reservations fact_stays : DataFrame) :
  EtlFact.main_prepare reservations_m valid_stays = Ok (fact_reservations, fact_stays) ->
  EtlFact.prepare_fact_data reservations_m
    ["id"; "reservation_datetime"; "check_in_date"; "check_out_date"; "status";
     "hotel_id"; "booker_id"; "total_room_price"; "voucher_code"; "total_discount"]
    "id" "reservation_id" = Ok fact_reservations /\
  EtlFact.prepare_fact_data valid_stays
    ["id"; "date"; "reservation_id"; "room_id"; "guest_id"] "id" "stay_id" = Ok fact_stays.
Proof.
  unfold EtlFact.main_prepare.
  destruct (EtlFact.prepare_fact_data reservations_m _ "id" "reservation_id"); simpl;
    [| discriminate].
  destruct (EtlFact.prepare_fact_data valid_stays _ "id" "stay_id"); simpl;
    [| discriminate].
  intros H. injection H as <- <-. split; reflexivity.
Qed.

(** The labels a one-column selection brings to the right side of a merge. *)
Lemma single_selection_labels (df key : DataFrame) (c : string) :
  select df [c] = Ok key -> Forall (eq c) (columns key).
Proof.
  intros H. apply select_inv in H as [_ ->]. simpl. rewrite app_nil_r.
  apply filter_eqb_all.
Qed.

End FactReservationsClaim.

(** C9. The fact_reservations table does not depend on the merge with the
    stays.  Whenever the fact job writes a batch to fact_reservations, and the
    extracted Reservation batch has distinct labels and full rows, that batch
    is what the numeric transform, first-seen deduplication by id, projection
    on the fact columns and the renaming of id give on the extracted
    Reservation batch alone, rows and order included; it is also what
    [prepare_fact_data] gives on the transformed batch without the merge. *)
Theorem fact_reservations_ignore_the_stays_merge
  (w : Job.World) (fact_reservations : Pandas.DataFrame) :
  (forall df, Job.source w "Reservations" = Some df -> Pandas.well_formed df) ->
  In ("fact_reservations", Job.Append, fact_reservations)
     (Job.writes (snd (Job.run (EtlFact.main w)))) ->
  exists reservations,
    Job.source w "Reservations" = Some reservations /\
    Spec.fact_reservations_direct (Job.runtime w) reservations = Py.Ok fact_reservations /\
    (df <-- EtlFact.transform_reservation_data (Job.runtime w) reservations ;;
     EtlFact.prepare_fact_data df
       ["id"; "reservation_datetime"; "check_in_date"; "check_out_date"; "status";
        "hotel_id"; "booker_id"; "total_room_price"; "voucher_code"; "total_discount"]
       "id" "reservation_id")%res = Py.Ok fact_reservations.
Proof.
  intros Hwf Hin.
  destruct (fact_main_writes w _ _ _ Hin)
    as (reservations & stays & rooms & users & rooms' & users' & reservations' &
        stays_m & reservations_m & valid_stays & invalid_stays & fr & fs &
        Er & _ & _ & _ & Ht & Hm & _ & Hp & Hw).
  rewrite Hw in Hin. simpl in Hin.
  destruct Hin as [Hin | [Hin | []]]; [| discriminate]. injection Hin as ->.
  exists reservations. split; [exact Er |].
  apply main_transform_inv in Ht as (_ & _ & Ht).
  apply main_merge_inv in Hm
    as (rooms_cols & stays1 & users_cols & stays2 & stays_key & _ & _ & _ & _ & _ &
        Hk & Hm).
  apply main_prepare_inv in Hp as [Hp _].
  destruct (transform_reservation_data_shape _ _ _ Ht) as (_ & Hwf' & _).
  specialize (Hwf' (Hwf _ Er)).
  rewrite (prepare_fact_data_after_left_merge reservations' stays_key reservations_m
             "id" "reservation_id" "_stays") in Hp;
    [| exact (proj2 Hwf') | exact Hm |].
  - split.
    + unfold Spec.fact_reservations_direct. rewrite Ht. simpl.
      apply deduplicate_then_project; [exact Hwf' | solve_NoDup | exact Hp].
    + rewrite Ht. exact Hp.
  - intros c Hc Hr. apply in_map_iff in Hr as [l [Hl Hlk]].
    pose proof (single_selection_labels _ _ _ Hk) as Hall.
    rewrite Forall_forall in Hall. specialize (Hall l Hlk). subst l.
    unfold Pandas.with_suffix in Hl.
    destruct (Pandas.overlapping _ _ "reservation_id"); subst c; simpl in Hc;
      intuition discriminate.
Qed.

Lemma fact_reservations_ignore_the_stays_merge_witness :
  let price := Py.VFloat (binary_normalize 53 1024 250 0 false) in
  let discount := Py.VFloat (binary_normalize 53 1024 20 0 false) in
  let row (id : Z) (voucher : Py.value) :=
    [Py.VInt id; Py.VStr "2024-05-01 10:00"; Py.VStr "2024-06-01"; Py.VStr "2024-06-03";
     Py.VStr "confirmed"; Py.VInt 1; Py.VInt 7; price; voucher; discount] in
  let fact_reservations :=
    Pandas.mkDF
      ["reservation_id"; "reservation_datetime"; "check_in_date"; "check_out_date";
       "status"; "hotel_id"; "booker_id"; "total_room_price"; "voucher_code";
       "total_discount"]
      [row 1 (Py.VStr "5"); row 2 Py.VNone; row 3 (Py.VStr "9")] in
  Pandas.well_formed Sample.reservations /\
  In ("fact_reservations", Job.Append, fact_reservations)
     (Job.writes (snd (Job.run (EtlFact.main Sample.world)))) /\
  Spec.fact_reservations_direct Sample.rt Sample.reservations = Py.Ok fact_reservations.
Proof.
  intros price discount row fact_reservations.
  assert (Pandas.well_formed Sample.reservations) as Hwf by solve_well_formed.
  assert (In ("fact_reservations", Job.Append, fact_reservations)
             (Job.writes (snd (Job.run (EtlFact.main Sample.world))))) as Hin.
  { vm_compute. left. reflexivity. }
  split; [exact Hwf |]. split; [exact Hin |].
  destruct (fact_reservations_ignore_the_stays_merge Sample.world fact_reservations)
    as (reservations & Er & Hdirect & _).
  - intros df Hdf. injection Hdf as <-. exact Hwf.
  - exact Hin.
  - injection Er as <-. exact Hdirect.
Defined.

(* ===================================================================== *)
(** * The labels of the stays after the merge block *)
(* ===================================================================== *)

Section StaysLabels.
Import Py Pandas.

Lemma selection_labels (df p : DataFrame) (names : list string) :
  select df names = Ok p -> Forall (fun l => In l names) (columns p).
Proof.
  intros H. apply select_inv in H as [_ ->]. simpl.
  apply Forall_forall. intros l Hl. apply in_flat_map in Hl as [c [Hc Hl]].
  apply filter_In in Hl as [_ Hl]. apply String.eqb_eq in Hl. now subst.
Qed.

Lemma filter_eqb_app_unique_l (c : string) (l1 l2 : list string) :
  filter (String.eqb c) l1 = [c] -> ~ In c l2 -> filter (String.eqb c) (l1 ++ l2) = [c].
Proof.
  intros H1 H2. rewrite filter_app, H1.
  destruct (filter_eqb_nil c l2) as [_ ->]; [reflexivity | assumption].
Qed.

(** Labels that a renaming neither produces nor removes are counted the
    same before and after. *)
Lemma filter_eqb_map_fixed (ren : string -> string) (c : string) (l : list string) :
  (forall x, In x l -> (ren x = c <-> x = c)) ->
  filter (String.eqb c) (map ren l) = filter (String.eqb c) l.
Proof.
  induction l as [| x l IH]; simpl; intros H; [reflexivity |].
  assert (String.eqb c (ren x) = String.eqb c x) as E.
  { destruct (String.eqb c x) eqn:E.
    - apply String.eqb_eq in E. subst x. apply String.eqb_eq. symmetry.
      apply H; [now left | reflexivity].
    - apply String.eqb_neq. intros He. symmetry in He.
      apply (proj1 (H x (or_introl eq_refl))) in He.
      subst x. now rewrite String.eqb_refl in E. }
  rewrite E, IH by (intros y Hy; apply H; now right).
  destruct (String.eqb c x) eqn:Ec; [| reflexivity].
  apply String.eqb_eq in Ec. subst x. f_equal.
  apply (proj2 (H c (or_introl eq_refl))). reflexivity.
Qed.

Lemma rename_reference_fixed (c l : string) :
  c <> "reservation_id" -> c <> "reference_reservation_id" ->
  rename_label [("reference_reservation_id", "reservation_id")] l = c <-> l = c.
Proof.
  intros H1 H2. rewrite rename_one_label.
  destruct (String.eqb l "reference_reservation_id") eqn:E.
  - apply String.eqb_eq in E. subst l. split; congruence.
  - tauto.
Qed.

(** The labels the right side of a merge contributes, for a right side
    selected on two labels [a] and [b]. *)
Lemma right_labels_of_pair (lcols rcols : list string) (a b suffix : string) :
  Forall (fun l => In l [a; b]) rcols ->
  Forall (fun l => In l [a; (a ++ suffix)%string; b; (b ++ suffix)%string])
         (map (with_suffix lcols rcols suffix) rcols).
Proof.
  intros H. apply Forall_forall. intros l Hl.
  apply in_map_iff in Hl as [x [<- Hx]].
  rewrite Forall_forall in H. specialize (H x Hx).
  unfold with_suffix. destruct (overlapping lcols rcols x); simpl in H |- *;
    destruct H as [<- | [<- | []]]; auto.
Qed.

(** How often the right side contributes the label [a] itself: once when the
    left side does not have it, never when it has. *)
Lemma right_label_kept (lcols rcols : list string) (a b suffix : string) :
  Forall (fun l => In l [a; b]) rcols ->
  filter (String.eqb a) rcols = [a] ->
  (a ++ suffix)%string <> a -> b <> a -> (b ++ suffix)%string <> a ->
  filter (String.eqb a) (map (with_suffix lcols rcols suffix) rcols) =
  if existsb (String.eqb a) lcols then [] else [a].
Proof.
  intros Hall Ha H1 H2 H3.
  assert (In a rcols) as Hin.
  { assert (In a (filter (String.eqb a) rcols)) as Hf by (rewrite Ha; now left).
    now apply filter_In in Hf. }
  assert (overlapping lcols rcols a = existsb (String.eqb a) lcols) as Hov.
  { unfold overlapping. destruct (existsb_eqb_In a rcols) as [_ ->]; [| assumption].
    apply andb_true_r. }
  destruct (existsb (String.eqb a) lcols) eqn:E.
  - apply filter_eqb_nil. intros Hc. apply in_map_iff in Hc as [x [Hx Hxin]].
    rewrite Forall_forall in Hall. specialize (Hall x Hxin).
    unfold with_suffix in Hx. simpl in Hall. destruct Hall as [<- | [<- | []]].
    + rewrite Hov in Hx. now apply H1.
    + destruct (overlapping lcols rcols b); [now apply H3 | now apply H2].
  - rewrite <- Ha. apply filter_eqb_map_fixed. intros x Hx.
    rewrite Forall_forall in Hall. specialize (Hall x Hx).
    unfold with_suffix. simpl in Hall. destruct Hall as [<- | [<- | []]].
    + rewrite Hov. tauto.
    + destruct (overlapping lcols rcols b); split; intros Hb;
        try (now apply H3 in Hb); try (now apply H2 in Hb); congruence.
Qed.

End StaysLabels.

Section MergedStays.
Import Py Pandas.

Lemma flat_map_nested {A B C : Type} (f : B -> list C) (g : A -> list B) (l : list A) :
  flat_map f (flat_map g l) = flat_map (fun a => flat_map f (g a)) l.
Proof.
  induction l as [| a l IH]; simpl; [reflexivity |].
  now rewrite flat_map_app, IH.
Qed.

Lemma flat_map_not_nil {A B : Type} (f : A -> list B) (l : list A) :
  l <> [] -> (forall a, f a <> []) -> flat_map f l <> [].
Proof.
  destruct l as [| a l]; [congruence |]. intros _ Hf. simpl.
  specialize (Hf a). destruct (f a); [congruence | discriminate].
Qed.

(** The stays after the merge block: the labels of the extracted batch, then
    what the Rooms selection and the Users selection contribute, with
    reference_reservation_id renamed; every row is an extracted row followed
    by the cells joined to it, and every extracted row appears at least
    once. *)
Lemma merged_stays_shape (reservations stays rooms users stays_m reservations_m : DataFrame) :
  EtlFact.main_merge reservations stays rooms users = Ok (stays_m, reservations_m) ->
  exists (e1 e2 : list string) (expand : list value -> list (list value)),
    columns stays_m =
      map (rename_label [("reference_reservation_id", "reservation_id")])
          ((columns stays ++ e1) ++ e2) /\
    Forall (fun l => In l ["id"; "id_room"; "room_type"; "room_type_room"]) e1 /\
    Forall (fun l => In l ["id"; "id_guest"; "phone_number"; "phone_number_guest"]) e2 /\
    filter (String.eqb "id") e1 =
      (if existsb (String.eqb "id") (columns stays) then [] else ["id"]) /\
    filter (String.eqb "id") e2 =
      (if existsb (String.eqb "id") (columns stays ++ e1) then [] else ["id"]) /\
    filter (String.eqb "room_id") (columns stays) = ["room_id"] /\
    filter (String.eqb "guest_id") (columns stays ++ e1) = ["guest_id"] /\
    (In "room_type" e1 \/ In "room_type_room" e1) /\
    (In "phone_number" e2 \/ In "phone_number_guest" e2) /\
    (forall srow, expand srow <> []) /\
    rows stays_m = flat_map (fun srow => map (fun x => srow ++ x) (expand srow)) (rows stays).
Proof.
  intros H. apply main_merge_inv in H
    as (rooms_cols & stays1 & users_cols & stays2 & stays_key & Hr & Hm1 & Hu & Hm2 &
        -> & _ & _).
  assert (In "room_type" (columns rooms_cols)) as Hrt.
  { apply select_inv in Hr as [Hin ->]. simpl. rewrite app_nil_r. apply in_or_app.
    right. apply filter_In. split; [apply Hin; simpl; auto | reflexivity]. }
  assert (In "phone_number" (columns users_cols)) as Hpn.
  { apply select_inv in Hu as [Hin ->]. simpl. rewrite app_nil_r. apply in_or_app.
    right. apply filter_In. split; [apply Hin; simpl; auto | reflexivity]. }
  apply selection_labels in Hr, Hu.
  apply merge_left_inv in Hm1 as (Hrid & Hroom & ->).
  apply merge_left_inv in Hm2 as (Huid & Hguest & ->).
  cbn [columns rows] in *. rewrite with_empty_suffix in *.
  rewrite with_empty_suffix.
  set (e1 := map (with_suffix (columns stays) (columns rooms_cols) "_room")
                 (columns rooms_cols)) in *.
  set (e2 := map (with_suffix (columns stays ++ e1) (columns users_cols) "_guest")
                 (columns users_cols)) in *.
  exists e1, e2,
    (fun srow =>
       flat_map (fun x1 =>
                   map (fun x2 => x1 ++ x2)
                       (matching_rows users_cols "id"
                          (cell "guest_id" (columns stays ++ e1) (srow ++ x1))))
                (matching_rows rooms_cols "id" (cell "room_id" (columns stays) srow))).
  split; [reflexivity |].
  split; [exact (right_labels_of_pair _ _ "id" "room_type" "_room" Hr) |].
  split; [exact (right_labels_of_pair _ _ "id" "phone_number" "_guest" Hu) |].
  split.
  { apply (right_label_kept _ _ "id" "room_type" "_room"); try assumption;
      discriminate. }
  split.
  { apply (right_label_kept _ _ "id" "phone_number" "_guest"); try assumption;
      discriminate. }
  split; [exact Hroom |]. split; [exact Hguest |].
  split.
  { apply (in_map (with_suffix (columns stays) (columns rooms_cols) "_room")) in Hrt.
    fold e1 in Hrt. unfold with_suffix in Hrt.
    destruct (overlapping (columns stays) (columns rooms_cols) "room_type"); auto. }
  split.
  { apply (in_map (with_suffix (columns stays ++ e1) (columns users_cols) "_guest"))
      in Hpn.
    fold e2 in Hpn. unfold with_suffix in Hpn.
    destruct (overlapping (columns stays ++ e1) (columns users_cols) "phone_number");
      auto. }
  split.
  { intros srow. apply flat_map_not_nil; [apply matching_rows_not_nil |].
    intros x1 Hx. apply map_eq_nil in Hx. now apply matching_rows_not_nil in Hx. }
  unfold rename. cbn [rows]. rewrite flat_map_nested.
  apply flat_map_ext. intros srow. unfold join_row.
  rewrite flat_map_concat_map, map_map, <- flat_map_concat_map.
  rewrite map_flat_map. apply flat_map_ext. intros x1.
  rewrite !map_map. apply map_ext. intros x2. now rewrite app_assoc.
Qed.

End MergedStays.

Section FactStaysColumns.
Import Py Pandas Job.

Lemma main_reconcile_inv (stays_m reservations_m valid_stays invalid_stays : DataFrame) :
  EtlFact.main_reconcile stays_m reservations_m = Ok (valid_stays, invalid_stays) ->
  exists s ids,
    getitem stays_m "reservation_id" = Ok s /\
    getitem reservations_m "id" = Ok ids /\
    valid_stays = getitem_mask stays_m (isin s ids) /\
    invalid_stays = getitem_mask stays_m (invert (isin s ids)).
Proof.
  unfold EtlFact.main_reconcile.
  destruct (getitem stays_m "reservation_id") as [s |]; simpl; [| discriminate].
  destruct (getitem reservations_m "id") as [ids |]; simpl; [| discriminate].
  intros H. injection H as <- <-. exists s, ids. repeat split.
Qed.

Lemma not_among (c : string) (allowed e : list string) :
  Forall (fun l => In l allowed) e -> ~ In c allowed -> ~ In c e.
Proof.
  intros H Hc Hin. rewrite Forall_forall in H. apply Hc. now apply H.
Qed.

(** After the merge block each of the five labels of the fact table stands
    over exactly one column of the stays, provided the extracted batch has
    distinct labels and the labels are there at all. *)
Lemma merged_stays_fact_labels (reservations stays rooms users stays_m reservations_m
  : DataFrame) (c : string) :
  NoDup (columns stays) ->
  EtlFact.main_merge reservations stays rooms users = Ok (stays_m, reservations_m) ->
  In c ["id"; "date"; "room_id"; "guest_id"] ->
  In c (columns stays_m) ->
  filter (String.eqb c) (columns stays_m) = [c].
Proof.
  intros Hnd Hm Hc Hin.
  destruct (merged_stays_shape _ _ _ _ _ _ Hm)
    as (e1 & e2 & expand & Hcols & He1 & He2 & Hid1 & Hid2 & Hroom & Hguest & _ & _ &
        _ & _).
  rewrite Hcols in *.
  assert (forall l, rename_label [("reference_reservation_id", "reservation_id")] l = c
                    <-> l = c) as Hfix.
  { intros l. apply rename_reference_fixed;
      simpl in Hc; intuition (subst; discriminate). }
  rewrite filter_eqb_map_fixed by (intros x _; apply Hfix).
  apply in_map_iff in Hin as [l [Hl Hin]]. apply (proj1 (Hfix l)) in Hl. subst l.
  simpl in Hc. destruct Hc as [<- | [<- | [<- | [<- | []]]]].
  - rewrite !filter_app, Hid1, Hid2, existsb_app.
    destruct (existsb (String.eqb "id") (columns stays)) eqn:E.
    + apply existsb_eqb_In in E. rewrite (filter_eqb_NoDup _ _ Hnd E). reflexivity.
    + apply existsb_eqb_not_In, filter_eqb_nil in E. rewrite E.
      assert (existsb (String.eqb "id") e1 = true) as ->; [| reflexivity].
      apply existsb_eqb_In.
      assert (In "id" (filter (String.eqb "id") e1)) as Hf by (rewrite Hid1; now left).
      now apply filter_In in Hf.
  - assert (~ In "date" e1) as H1 by
      (apply (not_among _ _ _ He1); simpl; intuition discriminate).
    assert (~ In "date" e2) as H2 by
      (apply (not_among _ _ _ He2); simpl; intuition discriminate).
    apply filter_eqb_app_unique_l; [| exact H2].
    apply filter_eqb_app_unique_l; [| exact H1].
    apply filter_eqb_NoDup; [exact Hnd |].
    apply in_app_or in Hin as [Hin | Hin]; [| contradiction].
    apply in_app_or in Hin as [Hin | Hin]; [exact Hin | contradiction].
  - apply filter_eqb_app_unique_l;
      [| apply (not_among _ _ _ He2); simpl; intuition discriminate].
    apply filter_eqb_app_unique_l;
      [exact Hroom | apply (not_among _ _ _ He1); simpl; intuition discriminate].
  - apply filter_eqb_app_unique_l;
      [exact Hguest | apply (not_among _ _ _ He2); simpl; intuition discriminate].
Qed.

End FactStaysColumns.

Section WrittenStays.
Import Py Pandas.

(** When the Stay batch has an id column, the stays after the merge block
    carry the stay columns first (the reference renamed), then joined columns
    none of which has one of the five fact labels. *)
Lemma merged_stays_labels (reservations stays rooms users stays_m reservations_m
  : DataFrame) :
  In "id" (columns stays) ->
  EtlFact.main_merge reservations stays rooms users = Ok (stays_m, reservations_m) ->
  exists (rest : list string) (expand : list value -> list (list value)),
    columns stays_m =
      map (rename_label [("reference_reservation_id", "reservation_id")]) (columns stays)
      ++ rest /\
    (forall c, In c ["id"; "date"; "reservation_id"; "room_id"; "guest_id"] ->
               ~ In c rest) /\
    (forall srow, expand srow <> []) /\
    rows stays_m = flat_map (fun srow => map (fun x => srow ++ x) (expand srow)) (rows stays).
Proof.
  intros Hid Hm.
  destruct (merged_stays_shape _ _ _ _ _ _ Hm)
    as (e1 & e2 & expand & Hcm & He1 & He2 & Hid1 & Hid2 & _ & _ & _ & _ & Hne & Hrows).
  exists (map (rename_label [("reference_reservation_id", "reservation_id")]) (e1 ++ e2)),
    expand.
  split; [rewrite Hcm, <- app_assoc, map_app; reflexivity |].
  split; [| split; [exact Hne | exact Hrows]].
  assert (existsb (String.eqb "id") (columns stays) = true) as Hex1
    by now apply existsb_eqb_In.
  assert (existsb (String.eqb "id") (columns stays ++ e1) = true) as Hex2
    by (apply existsb_eqb_In, in_or_app; now left).
  rewrite Hex1 in Hid1. rewrite Hex2 in Hid2.
  apply filter_eqb_nil in Hid1, Hid2.
  rewrite Forall_forall in He1, He2.
  intros c Hc5 Hin. apply in_map_iff in Hin as [l [Hl Hin]].
  apply in_app_or in Hin as [Hin | Hin].
  - pose proof (He1 l Hin) as H4. simpl in H4.
    destruct H4 as [<- | [<- | [<- | [<- | []]]]];
      try (now apply Hid1); subst c; simpl in Hc5; intuition discriminate.
  - pose proof (He2 l Hin) as H4. simpl in H4.
    destruct H4 as [<- | [<- | [<- | [<- | []]]]];
      try (now apply Hid2); subst c; simpl in Hc5; intuition discriminate.
Qed.

(** A label that stands over one column of [cols ++ rest] and over none of
    [rest] selects, in a row that extends a full row of [cols], the cell of
    that row. *)
Lemma cells_of_left_part (c : string) (cols rest : list string) (row x : list value) :
  filter (String.eqb c) (cols ++ rest) = [c] -> ~ In c rest ->
  length row = length cols ->
  cells c (cols ++ rest) (row ++ x) = [cell c cols row].
Proof.
  intros Hone Hrest L. rewrite cells_app by exact L.
  rewrite (cells_absent c rest x Hrest), app_nil_r.
  apply cells_single; [| exact L].
  rewrite filter_app, (proj2 (filter_eqb_nil c rest) Hrest), app_nil_r in Hone.
  exact Hone.
Qed.

End WrittenStays.

(** C10. The fact_stays table has exactly the five fact columns.  Whenever
    the fact job writes a batch to fact_stays, and the extracted Stay batch
    has distinct labels, the labels of that batch are stay_id, date,
    reservation_id, room_id, guest_id.  The stays after the merge block of
    that run, [stays_m], do carry a room-type column and a phone-number
    column (under their plain or suffixed label), but every row written is
    made of the cells that stand under the five labels in a row of
    [stays_m]; and when the Stay batch has an id column and full rows, every
    row written holds five cells, the cells of one extracted stay under id,
    date, reservation_id (the renamed reference), room_id and guest_id, so
    that no cell joined from Rooms or Users is written. *)
Theorem fact_stays_has_the_five_fact_columns
  (w : Job.World) (fact_stays : Pandas.DataFrame) :
  (forall df, Job.source w "Stays" = Some df -> NoDup (Pandas.columns df)) ->
  In ("fact_stays", Job.Append, fact_stays) (Job.writes (snd (Job.run (EtlFact.main w)))) ->
  Pandas.columns fact_stays = ["stay_id"; "date"; "reservation_id"; "room_id"; "guest_id"] /\
  ~ In "room_type" (Pandas.columns fact_stays) /\
  ~ In "phone_number" (Pandas.columns fact_stays) /\
  exists reservations stays rooms users rooms' users' reservations' stays_m reservations_m
         : Pandas.DataFrame,
    (Job.source w "Reservations" = Some reservations /\
     Job.source w "Stays" = Some stays /\
     Job.source w "Rooms" = Some rooms /\
     Job.source w "Users" = Some users) /\
    EtlFact.main_transform (Job.runtime w) reservations rooms users =
      Py.Ok (rooms', users', reservations') /\
    EtlFact.main_merge reservations' stays rooms' users' = Py.Ok (stays_m, reservations_m) /\
    (In "room_type" (Pandas.columns stays_m) \/
     In "room_type_room" (Pandas.columns stays_m)) /\
    (In "phone_number" (Pandas.columns stays_m) \/
     In "phone_number_guest" (Pandas.columns stays_m)) /\
    (forall row, In row (Pandas.rows fact_stays) ->
       exists row_m,
         In row_m (Pandas.rows stays_m) /\
         row = flat_map (fun c => Pandas.cells c (Pandas.columns stays_m) row_m)
                        ["id"; "date"; "reservation_id"; "room_id"; "guest_id"]) /\
    (In "id" (Pandas.columns stays) ->
     Forall (fun row => length row = length (Pandas.columns stays)) (Pandas.rows stays) ->
     forall row, In row (Pandas.rows fact_stays) ->
       exists srow,
         In srow (Pandas.rows stays) /\
         row =
         map (fun c =>
                Pandas.cell c
                  (Pandas.columns
                     (Pandas.rename stays [("reference_reservation_id", "reservation_id")]))
                  srow)
             ["id"; "date"; "reservation_id"; "room_id"; "guest_id"]).
Proof.
  intros Hnd Hin.
  destruct (fact_main_writes w _ _ _ Hin)
    as (reservations & stays & rooms & users & rooms' & users' & reservations' &
        stays_m & reservations_m & valid_stays & invalid_stays & fr & fs &
        Er & Es & Eo & Eu & Ht & Hm & Hr & Hp & Hw).
  rewrite Hw in Hin. simpl in Hin.
  destruct Hin as [Hin | [Hin | []]]; [discriminate |]. injection Hin as ->.
  specialize (Hnd _ Es).
  apply main_reconcile_inv in Hr as (s & ids & Hs & _ & -> & _).
  apply getitem_inv in Hs as [Hrid _].
  apply main_prepare_inv in Hp as [_ Hp].
  apply prepare_fact_data_inv in Hp as (picked & Hsel & _ & ->).
  apply select_inv in Hsel as [Hnames Hpicked]. cbn [Pandas.columns Pandas.getitem_mask] in *.
  assert (forall c, In c ["id"; "date"; "reservation_id"; "room_id"; "guest_id"] ->
                    filter (String.eqb c) (Pandas.columns stays_m) = [c]) as Hone.
  { intros c Hc.
    destruct (String.eqb c "reservation_id") eqn:E.
    - apply String.eqb_eq in E. now subst c.
    - apply String.eqb_neq in E.
      apply (merged_stays_fact_labels _ _ _ _ _ _ c Hnd Hm); [| now apply Hnames].
      simpl in Hc |- *. intuition congruence. }
  assert (Pandas.columns picked = ["id"; "date"; "reservation_id"; "room_id"; "guest_id"])
    as Hcols.
  { rewrite Hpicked. cbn [Pandas.columns flat_map].
    rewrite !Hone by (simpl; auto 6). reflexivity. }
  cbn [Pandas.columns Pandas.rows]. rewrite Hcols.
  split; [reflexivity |].
  split; [simpl; intuition discriminate |].
  split; [simpl; intuition discriminate |].
  exists reservations, stays, rooms, users, rooms', users', reservations', stays_m,
    reservations_m.
  split; [repeat split; assumption |]. split; [exact Ht |]. split; [exact Hm |].
  destruct (merged_stays_shape _ _ _ _ _ _ Hm)
    as (e1 & e2 & expand & Hcm & He1 & He2 & _ & _ & _ & _ & Hrt & Hpn & _ & _).
  assert (forall l, In l (e1 ++ e2) ->
            In l ["room_type"; "room_type_room"; "phone_number"; "phone_number_guest"] ->
            In l (Pandas.columns stays_m)) as Hkept.
  { intros l Hl Hl4. rewrite Hcm. apply in_map_iff. exists l. split.
    - rewrite rename_one_label. simpl in Hl4.
      destruct Hl4 as [<- | [<- | [<- | [<- | []]]]]; reflexivity.
    - rewrite <- app_assoc. apply in_or_app. now right. }
  split.
  { destruct Hrt as [H | H]; [left | right]; apply Hkept;
      try (apply in_or_app; now left); simpl; auto. }
  split.
  { destruct Hpn as [H | H]; [left | right]; apply Hkept;
      try (apply in_or_app; now right); simpl; auto. }
  assert (forall row,
            In row (Pandas.keep_first
                      (Pandas.cells "id"
                         ["id"; "date"; "reservation_id"; "room_id"; "guest_id"]) []
                      (Pandas.rows picked)) ->
            exists row_m,
              In row_m (Pandas.rows stays_m) /\
              row = flat_map (fun c => Pandas.cells c (Pandas.columns stays_m) row_m)
                             ["id"; "date"; "reservation_id"; "room_id"; "guest_id"])
    as Hrow_m.
  { intros row Hrow. apply keep_first_In in Hrow as [Hrow _].
    rewrite Hpicked in Hrow. cbn [Pandas.rows] in Hrow.
    apply in_map_iff in Hrow as [row_m [<- Hrm]].
    exists row_m. split; [| reflexivity].
    apply in_map_iff in Hrm as [[r b] [<- Hrb]]. apply filter_In in Hrb as [Hrb _].
    now apply in_combine_l in Hrb. }
  split; [exact Hrow_m |].
  intros Hid Hfull row Hrow.
  destruct (Hrow_m row Hrow) as (row_m & Hrm & ->).
  destruct (merged_stays_labels _ _ _ _ _ _ Hid Hm)
    as (rest & expand' & Hcm' & Hrest & _ & Hrows).
  rewrite Hrows in Hrm. apply in_flat_map in Hrm as [srow [Hsrow Hrm]].
  apply in_map_iff in Hrm as [x [<- _]].
  exists srow. split; [exact Hsrow |].
  rewrite Forall_forall in Hfull. specialize (Hfull srow Hsrow).
  assert (forall c, In c ["id"; "date"; "reservation_id"; "room_id"; "guest_id"] ->
            Pandas.cells c (Pandas.columns stays_m) (srow ++ x) =
            [Pandas.cell c
               (Pandas.columns
                  (Pandas.rename stays [("reference_reservation_id", "reservation_id")]))
               srow]) as Hcell.
  { intros c Hc. pose proof (Hone c Hc) as Hc1. rewrite Hcm' in Hc1 |- *.
    apply cells_of_left_part; [exact Hc1 | now apply Hrest |].
    unfold Pandas.rename. cbn [Pandas.columns]. now rewrite length_map. }
  cbn [flat_map map]. rewrite !Hcell by (simpl; auto 6). reflexivity.
Qed.

Lemma fact_stays_has_the_five_fact_columns_witness :
  let fact_stays :=
    Pandas.mkDF ["stay_id"; "date"; "reservation_id"; "room_id"; "guest_id"]
      [[Py.VInt 10; Py.VStr "2024-06-01"; Py.VInt 1; Py.VInt 100; Py.VInt 1000];
       [Py.VInt 11; Py.VStr "2024-06-01"; Py.VInt 2; Py.VInt 101; Py.VInt 1001]] in
  NoDup (Pandas.columns Sample.stays) /\
  In ("fact_stays", Job.Append, fact_stays)
     (Job.writes (snd (Job.run (EtlFact.main Sample.world)))) /\
  ~ In "room_type" (Pandas.columns fact_stays) /\
  ~ In "phone_number" (Pandas.columns fact_stays) /\
  forall row, In row (Pandas.rows fact_stays) ->
    exists srow,
      In srow (Pandas.rows Sample.stays) /\
      row =
      map (fun c =>
             Pandas.cell c
               (Pandas.columns
                  (Pandas.rename Sample.stays
                     [("reference_reservation_id", "reservation_id")]))
               srow)
          ["id"; "date"; "reservation_id"; "room_id"; "guest_id"].
Proof.
  intros fact_stays.
  assert (NoDup (Pandas.columns Sample.stays)) as Hnd by (simpl; solve_NoDup).
  assert (In ("fact_stays", Job.Append, fact_stays)
             (Job.writes (snd (Job.run (EtlFact.main Sample.world))))) as Hin.
  { vm_compute. right. left. reflexivity. }
  split; [exact Hnd |]. split; [exact Hin |].
  destruct (fact_stays_has_the_five_fact_columns Sample.world fact_stays)
    as (_ & Hrt & Hpn & reservations & stays & rooms & users & rooms' & users' &
        reservations' & stays_m & reservations_m & (_ & Es & _ & _) & _ & _ & _ & _ & _ &
        Hrows).
  - intros df Hdf. injection Hdf as <-. exact Hnd.
  - exact Hin.
  - split; [exact Hrt |]. split; [exact Hpn |].
    injection Es as <-. apply Hrows.
    + simpl. left. reflexivity.
    + simpl. repeat (apply Forall_cons; [reflexivity |]). apply Forall_nil.
Defined.

(* ===================================================================== *)
(** * Reconciling stays with reservations *)
(* ===================================================================== *)

Section Reconcile.
Import Py Pandas.

Lemma mask_is_filter {A : Type} (f : A -> bool) (l : list A) :
  map fst (filter snd (combine l (map f l))) = filter f l.
Proof.
  induction l as [| a l IH]; simpl; [reflexivity |].
  destruct (f a); simpl; now rewrite IH.
Qed.


Lemma existsb_value_eqb_ext (v : value) (l l' : list value) :
  (In v l <-> In v l') -> existsb (value_eqb v) l = existsb (value_eqb v) l'.
Proof.
  intros H. destruct (existsb (value_eqb v) l') eqn:E.
  - apply existsb_value_eqb_In. apply H. now apply existsb_value_eqb_In.
  - destruct (existsb (value_eqb v) l) eqn:E'; [| reflexivity].
    apply existsb_value_eqb_In, H, existsb_value_eqb_In in E'. congruence.
Qed.

(** The numeric transform leaves the other columns as they are. *)
Lemma transform_reservation_data_other_column (rt : Runtime) (df df' : DataFrame)
  (d : string) :
  EtlFact.transform_reservation_data rt df = Ok df' ->
  d <> "total_room_price" -> d <> "total_discount" ->
  map (cell d (columns df')) (rows df') = map (cell d (columns df)) (rows df).
Proof.
  unfold EtlFact.transform_reservation_data. intros H H1 H2.
  assert (forall c x x', c <> d ->
            (if has_column c x then
               (s <-- getitem x c ;; s' <-- astype_float rt s ;; Ok (setitem x c s'))%res
             else Ok x) = Ok x' ->
            map (cell d (columns x')) (rows x') = map (cell d (columns x)) (rows x))
    as Hstep.
  { intros c x x' Hcd. destruct (has_column c x) eqn:Hc.
    - destruct (getitem x c) as [s |] eqn:Hg; simpl; [| discriminate].
      destruct (astype_float rt s) as [s' |] eqn:Hs; simpl; [| discriminate].
      intros Hx. injection Hx as <-.
      apply cell_setitem_other; try assumption.
      unfold astype_float in Hs. rewrite (mapM_length _ _ _ Hs).
      apply getitem_inv in Hg as [_ ->]. apply length_map.
    - intros Hx. injection Hx as <-. reflexivity. }
  destruct (if has_column "total_room_price" df then _ else _) as [d1 |] eqn:E1;
    simpl in H; [| discriminate].
  destruct (if has_column "total_discount" d1 then _ else _) as [d2 |] eqn:E2;
    simpl in H; [| discriminate].
  injection H as <-.
  rewrite (Hstep _ _ _ (not_eq_sym H2) E2). exact (Hstep _ _ _ (not_eq_sym H1) E1).
Qed.

(** The ids of the reservations after the left merge with the stays are the
    ids of the reservations before it, some of them repeated. *)
Lemma ids_after_left_merge (left right m : DataFrame) (right_on rsuffix : string)
  (v : value) :
  Forall (fun row => length row = length (columns left)) (rows left) ->
  merge_left left right "id" right_on "" rsuffix = Ok m ->
  In v (map (cell "id" (columns m)) (rows m)) <->
  In v (map (cell "id" (columns left)) (rows left)).
Proof.
  intros Hfull Hm. apply merge_left_inv in Hm as (_ & Hid & ->).
  cbn [columns rows]. rewrite with_empty_suffix.
  rewrite Forall_forall in Hfull.
  assert (forall lrow e, In lrow (rows left) ->
            cell "id" (columns left ++
                       map (with_suffix (columns left) (columns right) rsuffix)
                           (columns right)) (lrow ++ e) =
            cell "id" (columns left) lrow) as Hcell.
  { intros lrow e Hl. unfold cell. rewrite cells_app by now apply Hfull.
    rewrite (cells_single "id" (columns left) lrow Hid) by now apply Hfull.
    reflexivity. }
  rewrite !in_map_iff. split.
  - intros [row [<- Hrow]]. apply in_flat_map in Hrow as [lrow [Hl Hrow]].
    unfold join_row in Hrow. apply in_map_iff in Hrow as [e [<- _]].
    exists lrow. split; [| exact Hl]. symmetry. now apply Hcell.
  - intros [lrow [<- Hl]].
    destruct (matching_rows right right_on (cell "id" (columns left) lrow))
      as [| e es] eqn:E; [now apply matching_rows_not_nil in E |].
    exists (lrow ++ e). split; [now apply Hcell |].
    apply in_flat_map. exists lrow. split; [exact Hl |].
    unfold join_row. rewrite E. now left.
Qed.


End Reconcile.

Section StayKey.
Import Py Pandas.


End StayKey.

Section KeysOfIsin.
Import Py Pandas.

Lemma existsb_same_members {A : Type} (p : A -> bool) (l l' : list A) :
  (forall a, In a l <-> In a l') -> existsb p l = existsb p l'.
Proof.
  intros H. destruct (existsb p l') eqn:E.
  - apply existsb_exists in E as [a [Ha Hp]]. apply existsb_exists.
    exists a. split; [now apply H | exact Hp].
  - destruct (existsb p l) eqn:E'; [| reflexivity].
    apply existsb_exists in E' as [a [Ha Hp]].
    assert (existsb p l' = true) as E''
      by (apply existsb_exists; exists a; split; [now apply H | exact Hp]).
    congruence.
Qed.

(** Among integers, the key of an integer is the integer itself. *)
Lemma same_key_integers (z : Z) (v : value) :
  is_int v = true -> (same_key (VInt z) v = true <-> v = VInt z).
Proof.
  destruct v as [| b | y | f | s | t]; try discriminate. intros _.
  unfold same_key, number_of. rewrite Z.eqb_eq. split; [now intros -> | congruence].
Qed.

Lemma float_key_eqb_refl (f : spec_float) : float_key_eqb f f = true.
Proof.
  destruct f as [s | s | | s m e]; try reflexivity.
  - destruct s; reflexivity.
  - unfold float_key_eqb, SFeqb, SFcompare.
    rewrite Z.compare_refl. fold (Pos.compare m m). rewrite Pos.compare_refl.
    destruct s; reflexivity.
Qed.

(** An integer read as a float is found at the integer. *)
Lemma same_key_float_of_int (z : Z) : same_key (VFloat (float_of_int z)) (VInt z) = true.
Proof. unfold same_key, number_of, as_float. apply float_key_eqb_refl. Qed.

Lemma existsb_same_key_integers (z : Z) (l : list value) :
  Forall (fun v => is_int v = true) l ->
  (existsb (same_key (VInt z)) l = true <-> In (VInt z) l).
Proof.
  intros Hl. rewrite Forall_forall in Hl. rewrite existsb_exists. split.
  - intros [v [Hv Hk]]. apply (same_key_integers z v (Hl v Hv)) in Hk. now subst.
  - intros Hin. exists (VInt z). split; [exact Hin |].
    now apply (same_key_integers z (VInt z)).
Qed.

End KeysOfIsin.



(* ===================================================================== *)
(** * The marketing mart *)
(* ===================================================================== *)

Section MarketingMart.
Import Py Pandas.

(** A left merge goes through when each key label occurs once on its side,
    some suffix is given for the labels that overlap, and the suffixes make no
    two labels of a side collide. *)
Lemma merge_left_ok (left right : DataFrame) (left_on right_on lsuffix rsuffix : string) :
  filter (String.eqb right_on) (columns right) = [right_on] ->
  filter (String.eqb left_on) (columns left) = [left_on] ->
  existsb (overlapping (columns left) (columns right)) (columns left)
    && String.eqb lsuffix "" && String.eqb rsuffix "" = false ->
  introduces_duplicate [] [] (columns left)
      (map (with_suffix (columns left) (columns right) lsuffix) (columns left))
    || introduces_duplicate [] [] (columns right)
         (map (with_suffix (columns left) (columns right) rsuffix) (columns right))
    = false ->
  merge_left left right left_on right_on lsuffix rsuffix =
  Ok (mkDF (map (with_suffix (columns left) (columns right) lsuffix) (columns left)
            ++ map (with_suffix (columns left) (columns right) rsuffix) (columns right))
           (flat_map (fun lrow =>
                        join_row right right_on (cell left_on (columns left) lrow) lrow)
                     (rows left))).
Proof.
  intros Hr Hl Hs Hd. unfold merge_left, merge_key. rewrite Hr, Hl. simpl.
  now rewrite Hs, Hd.
Qed.

Lemma setitem_astype_str (rt : Runtime) (df : DataFrame) (c : string) :
  filter (String.eqb c) (columns df) = [c] ->
  setitem df c (astype_str rt (map (cell c (columns df)) (rows df))) =
  mkDF (columns df)
       (map (fun row => set_cell c (columns df) row
                          (VStr (to_str rt (cell c (columns df) row))))
            (rows df)).
Proof.
  intros Hc. rewrite setitem_present by now apply unique_has_column.
  unfold astype_str. now rewrite map_map, map_combine_map.
Qed.

Lemma matching_rows_In (right : DataFrame) (right_on : string) (k : value)
  (rrow : list value) :
  In rrow (rows right) ->
  value_eqb k (cell right_on (columns right) rrow) = true ->
  In rrow (matching_rows right right_on k).
Proof.
  intros Hin Hk. unfold matching_rows.
  assert (In rrow (filter (fun r => value_eqb k (cell right_on (columns right) r))
                          (rows right))) as Hf by (apply filter_In; now split).
  destruct (filter _ (rows right)); [contradiction | exact Hf].
Qed.

Lemma matching_rows_inv (right : DataFrame) (right_on : string) (k : value)
  (rrow : list value) :
  In rrow (matching_rows right right_on k) ->
  (In rrow (rows right) /\ value_eqb k (cell right_on (columns right) rrow) = true) \/
  (rrow = map (fun _ => NaN) (columns right) /\
   forall r, In r (rows right) ->
             value_eqb k (cell right_on (columns right) r) = false).
Proof.
  unfold matching_rows.
  destruct (filter _ (rows right)) as [| m ms] eqn:E; intros Hin.
  - right. destruct Hin as [<- | []]. split; [reflexivity |].
    intros r Hr.
    destruct (value_eqb k (cell right_on (columns right) r)) eqn:Ek; [| reflexivity].
    assert (In r (filter (fun r => value_eqb k (cell right_on (columns right) r))
                         (rows right))) as Hf by (apply filter_In; now split).
    rewrite E in Hf. contradiction.
  - left. rewrite <- E in Hin. now apply filter_In in Hin.
Qed.

(** The marketing mart of batches in the shape of the data model, in closed
    form: every reservation row with its voucher code cast to str, next to
    the campaign rows with that id cast to str, projected on the eight mart
    columns. *)
Lemma marketing_mart_closed_form (rt : Runtime) (rr cr : list (list value)) :
  EtlDataMart.marketing_mart_of rt (mkDF Spec.reservation_columns rr)
    (mkDF Spec.campaign_columns cr) =
  Ok (mkDF ["reservation_id"; "reservation_datetime"; "check_in_date"; "check_out_date";
            "total_room_price"; "total_discount"; "campaign_name"; "campaign_description"]
       (map (fun row =>
               flat_map
                 (fun c =>
                    cells c ["id_x"; "reservation_datetime"; "check_in_date";
                             "check_out_date"; "status"; "hotel_id"; "booker_id";
                             "total_room_price"; "voucher_code"; "total_discount";
                             "id_y"; "name"; "description"] row)
                 ["id_x"; "reservation_datetime"; "check_in_date"; "check_out_date";
                  "total_room_price"; "total_discount"; "name"; "description"])
            (flat_map
               (fun lrow =>
                  join_row
                    (mkDF Spec.campaign_columns
                       (map (fun row =>
                               set_cell "id" Spec.campaign_columns row
                                 (VStr (to_str rt (cell "id" Spec.campaign_columns row))))
                            cr))
                    "id" (cell "voucher_code" Spec.reservation_columns lrow) lrow)
               (map (fun row =>
                       set_cell "voucher_code" Spec.reservation_columns row
                         (VStr (to_str rt
                                  (cell "voucher_code" Spec.reservation_columns row))))
                    rr)))).
Proof.
  unfold EtlDataMart.marketing_mart_of.
  rewrite (getitem_unique (mkDF Spec.reservation_columns rr) "voucher_code" eq_refl).
  rewrite (getitem_unique (mkDF Spec.campaign_columns cr) "id" eq_refl).
  cbn [bind]. cbv zeta.
  rewrite !setitem_astype_str by reflexivity.
  cbn [columns rows].
  rewrite merge_left_ok by reflexivity.
  cbn [bind columns rows].
  set (labels := map (with_suffix _ _ "_x") _ ++ map (with_suffix _ _ "_y") _).
  vm_compute in labels.
  rewrite select_present.
  2:{ intros c Hc. subst labels. cbn [columns]. simpl in Hc.
      repeat (destruct Hc as [<- | Hc]; [simpl; tauto |]). destruct Hc. }
  reflexivity.
Qed.

End MarketingMart.

(** C3. The marketing mart, for a Reservation batch and a Campaign batch with
    the columns of the data model and full rows.  The mart is built without
    error and has the eight mart columns.  After the cast to str the voucher
    code "5" and the campaign id 5 are the same key.  Whenever the cast
    voucher code of a reservation equals the cast id of a campaign, the mart
    holds the row of that reservation carrying the name and the description
    of that campaign (so these two cells are non-null when the campaign's
    are).  A reservation whose cast voucher code is the cast id of no campaign
    is in the mart with NaN for both campaign cells.  The mart holds no other
    rows than these, and it is what the job writes to marketing_mart. *)
Theorem marketing_mart_left_join
  (rt : Py.Runtime) (reservations campaigns : Pandas.DataFrame) :
  Pandas.columns reservations = Spec.reservation_columns ->
  Pandas.columns campaigns = Spec.campaign_columns ->
  Forall (fun row => length row = length (Pandas.columns reservations))
         (Pandas.rows reservations) ->
  Forall (fun row => length row = length (Pandas.columns campaigns))
         (Pandas.rows campaigns) ->
  let voucher r := Py.to_str rt (Pandas.cell "voucher_code" (Pandas.columns reservations) r) in
  let campaign_id c := Py.to_str rt (Pandas.cell "id" (Pandas.columns campaigns) c) in
  let name c := Pandas.cell "name" (Pandas.columns campaigns) c in
  let description c := Pandas.cell "description" (Pandas.columns campaigns) c in
  let mart_row r (n d : Py.value) :=
    [Pandas.cell "id" (Pandas.columns reservations) r;
     Pandas.cell "reservation_datetime" (Pandas.columns reservations) r;
     Pandas.cell "check_in_date" (Pandas.columns reservations) r;
     Pandas.cell "check_out_date" (Pandas.columns reservations) r;
     Pandas.cell "total_room_price" (Pandas.columns reservations) r;
     Pandas.cell "total_discount" (Pandas.columns reservations) r; n; d] in
  exists out,
    EtlDataMart.marketing_mart_of rt reservations campaigns = Py.Ok out /\
    Pandas.columns out =
      ["reservation_id"; "reservation_datetime"; "check_in_date"; "check_out_date";
       "total_room_price"; "total_discount"; "campaign_name"; "campaign_description"] /\
    Py.to_str rt (Py.VStr "5") = Py.to_str rt (Py.VInt 5) /\
    (forall r n d,
       Pandas.cell "reservation_id" (Pandas.columns out) (mart_row r n d) =
         Pandas.cell "id" (Pandas.columns reservations) r /\
       Pandas.cell "campaign_name" (Pandas.columns out) (mart_row r n d) = n /\
       Pandas.cell "campaign_description" (Pandas.columns out) (mart_row r n d) = d) /\
    (forall r c,
       In r (Pandas.rows reservations) -> In c (Pandas.rows campaigns) ->
       voucher r = campaign_id c ->
       In (mart_row r (name c) (description c)) (Pandas.rows out)) /\
    (forall r,
       In r (Pandas.rows reservations) ->
       (forall c, In c (Pandas.rows campaigns) -> voucher r <> campaign_id c) ->
       In (mart_row r Py.NaN Py.NaN) (Pandas.rows out)) /\
    (forall row,
       In row (Pandas.rows out) ->
       exists r,
         In r (Pandas.rows reservations) /\
         ((exists c, In c (Pandas.rows campaigns) /\ voucher r = campaign_id c /\
                     row = mart_row r (name c) (description c)) \/
          ((forall c, In c (Pandas.rows campaigns) -> voucher r <> campaign_id c) /\
           row = mart_row r Py.NaN Py.NaN))) /\
    (forall w,
       Job.runtime w = rt ->
       Job.source w "Reservations" = Some reservations ->
       Job.source w "Campaign" = Some campaigns ->
       Job.writes (snd (Job.run (EtlDataMart.create_marketing_mart w))) =
         [("marketing_mart", Job.Replace, out)]).
Proof.
  destruct reservations as [rc rr], campaigns as [cc cr].
  intros Hrc Hcc. cbn [Pandas.columns] in Hrc, Hcc. subst rc cc.
  intros Hrr Hcr voucher campaign_id name description mart_row.
  cbn [Pandas.columns Pandas.rows] in *.
  rewrite Forall_forall in Hrr, Hcr.
  eexists. split; [apply marketing_mart_closed_form |]. cbn [Pandas.columns Pandas.rows].
  split; [reflexivity |]. split; [reflexivity |]. split; [intros; repeat split |].
  split.
  { intros r c Hr Hc Hv. apply in_map_iff.
    exists (Pandas.set_cell "voucher_code" Spec.reservation_columns r
              (Py.VStr (voucher r)) ++
            Pandas.set_cell "id" Spec.campaign_columns c (Py.VStr (campaign_id c))).
    pose proof (Hrr r Hr) as Lr. pose proof (Hcr c Hc) as Lc.
    split.
    - subst mart_row name description voucher campaign_id.
      explode_row r Lr. explode_row c Lc. reflexivity.
    - apply in_flat_map. eexists. split; [apply in_map; exact Hr |].
      unfold Pandas.join_row.
      apply (in_map (fun rrow => _ ++ rrow)).
      apply matching_rows_In; cbn [Pandas.rows Pandas.columns].
      + apply (in_map
                 (fun row =>
                    Pandas.set_cell "id" Spec.campaign_columns row
                      (Py.VStr (Py.to_str rt (Pandas.cell "id" Spec.campaign_columns row))))
                 cr c Hc).
      + subst voucher campaign_id. explode_row r Lr. explode_row c Lc.
        simpl in Hv |- *. rewrite Hv. apply String.eqb_refl. }
  split.
  { intros r Hr Hno. apply in_map_iff.
    exists (Pandas.set_cell "voucher_code" Spec.reservation_columns r
              (Py.VStr (voucher r)) ++ [Py.NaN; Py.NaN; Py.NaN]).
    pose proof (Hrr r Hr) as Lr.
    split.
    - subst mart_row voucher. explode_row r Lr. reflexivity.
    - apply in_flat_map. eexists. split; [apply in_map; exact Hr |].
      unfold Pandas.join_row, Pandas.matching_rows.
      match goal with
      | |- context [filter ?p ?l] => assert (filter p l = []) as ->
      end; [| now left].
      cbn [Pandas.rows Pandas.columns].
      match goal with
      | |- filter ?p ?l = [] =>
          destruct (filter p l) as [| m ms] eqn:E; [reflexivity | exfalso];
          assert (In m (filter p l)) as Hm by (rewrite E; now left)
      end.
      apply filter_In in Hm as [Hm Hk]. apply in_map_iff in Hm as [c [<- Hc]].
      apply (Hno c Hc). pose proof (Hcr c Hc) as Lc.
      subst voucher campaign_id. explode_row r Lr. explode_row c Lc.
      simpl in Hk |- *. now apply String.eqb_eq in Hk. }
  split.
  { intros row Hrow. apply in_map_iff in Hrow as [m [<- Hm]].
    apply in_flat_map in Hm as [lrow [Hl Hm]].
    apply in_map_iff in Hl as [r [<- Hr]]. exists r. split; [exact Hr |].
    pose proof (Hrr r Hr) as Lr.
    unfold Pandas.join_row in Hm. apply in_map_iff in Hm as [rrow [<- Hm]].
    apply matching_rows_inv in Hm as [[Hin Hk] | [-> Hk]];
      cbn [Pandas.rows Pandas.columns] in *.
    - left. apply in_map_iff in Hin as [c [<- Hc]]. exists c.
      pose proof (Hcr c Hc) as Lc. split; [exact Hc |].
      subst mart_row name description voucher campaign_id.
      explode_row r Lr. explode_row c Lc. simpl in Hk |- *.
      apply String.eqb_eq in Hk. split; [exact Hk | reflexivity].
    - right. split.
      + intros c Hc Hv. pose proof (Hcr c Hc) as Lc.
        specialize (Hk _ (in_map _ _ _ Hc)).
        subst voucher campaign_id. explode_row r Lr. explode_row c Lc.
        simpl in Hk, Hv. rewrite Hv, String.eqb_refl in Hk. discriminate.
      + subst mart_row. explode_row r Lr. reflexivity. }
  intros w <- Er Ec.
  unfold Job.run, EtlDataMart.create_marketing_mart, EtlDataMart.extract_data,
    EtlDataMart.load_data, Job.mbind, Job.lift, Job.ret, Job.emit.
  rewrite Er, Ec, marketing_mart_closed_form.
  destruct (Job.warehouse_accepts w "marketing_mart"); reflexivity.
Qed.

Lemma marketing_mart_left_join_witness :
  Pandas.columns Sample.reservations = Spec.reservation_columns /\
  Pandas.columns Sample.campaigns = Spec.campaign_columns /\
  Pandas.cell "voucher_code" (Pandas.columns Sample.reservations)
    (Sample.reservation 1 (Py.VStr "5")) = Py.VStr "5" /\
  Pandas.cell "id" (Pandas.columns Sample.campaigns)
    [Py.VInt 5; Py.VStr "Lebaran"; Py.VStr "Holiday promo"] = Py.VInt 5 /\
  exists out,
    EtlDataMart.marketing_mart_of Sample.rt Sample.reservations Sample.campaigns = Py.Ok out /\
    In [Py.VInt 1; Py.VStr "2024-05-01 10:00"; Py.VStr "2024-06-01"; Py.VStr "2024-06-03";
        Py.VInt 250; Py.VInt 20; Py.VStr "Lebaran"; Py.VStr "Holiday promo"]
       (Pandas.rows out) /\
    In [Py.VInt 2; Py.VStr "2024-05-01 10:00"; Py.VStr "2024-06-01"; Py.VStr "2024-06-03";
        Py.VInt 250; Py.VInt 20; Py.NaN; Py.NaN]
       (Pandas.rows out).
Proof.
  split; [reflexivity |]. split; [reflexivity |]. split; [reflexivity |].
  split; [reflexivity |].
  assert (Forall (fun row => length row = length (Pandas.columns Sample.reservations))
                 (Pandas.rows Sample.reservations)) as Hrr.
  { simpl. repeat (apply Forall_cons; [reflexivity |]). apply Forall_nil. }
  assert (Forall (fun row => length row = length (Pandas.columns Sample.campaigns))
                 (Pandas.rows Sample.campaigns)) as Hcr.
  { simpl. repeat (apply Forall_cons; [reflexivity |]). apply Forall_nil. }
  destruct (marketing_mart_left_join Sample.rt Sample.reservations Sample.campaigns
              eq_refl eq_refl Hrr Hcr)
    as (out & Hout & _ & _ & _ & Hmatch & Hnone & _).
  exists out. split; [exact Hout |]. split.
  - apply (Hmatch (Sample.reservation 1 (Py.VStr "5"))
                  [Py.VInt 5; Py.VStr "Lebaran"; Py.VStr "Holiday promo"]).
    + simpl. left. reflexivity.
    + simpl. left. reflexivity.
    + reflexivity.
  - apply (Hnone (Sample.reservation 2 Py.VNone)).
    + simpl. right. left. reflexivity.
    + intros c Hc. simpl in Hc. destruct Hc as [<- | [<- | []]]; discriminate.
Defined.

(* ===================================================================== *)
(** * Further properties: the field transforms *)
(* ===================================================================== *)

Section MoreOnTransforms.
Import Py Pandas.

Lemma set_cell_absent (c : string) (cols : list string) (row : list value) (v : value) :
  ~ In c cols -> set_cell c cols row v = row.
Proof.
  revert row. induction cols as [| l cols IH]; intros [| x row] H; simpl in *;
    try reflexivity.
  destruct (String.eqb c l) eqn:E.
  - apply String.eqb_eq in E. subst. exfalso. apply H. now left.
  - rewrite IH; [reflexivity |]. intros Hin. apply H. now right.
Qed.

(** Writing into a row the cell it already has changes nothing. *)
Lemma set_cell_same (c : string) (cols : list string) (row : list value) :
  filter (String.eqb c) cols = [c] -> length row = length cols ->
  set_cell c cols row (cell c cols row) = row.
Proof.
  revert row. induction cols as [| l cols IH]; intros [| x row] Hc Hlen; simpl in *;
    try reflexivity; try discriminate.
  injection Hlen as Hlen. unfold cell. simpl.
  destruct (String.eqb c l) eqn:E.
  - simpl. f_equal. injection Hc as _ Hc. apply filter_eqb_nil in Hc.
    now apply set_cell_absent.
  - f_equal. now apply IH.
Qed.

Lemma setitem_same (df : DataFrame) (c : string) (s : Series) :
  well_formed df -> getitem df c = Ok s -> setitem df c s = df.
Proof.
  intros [_ Hfull] Hg. apply getitem_inv in Hg as [Hc ->].
  rewrite setitem_present by now apply unique_has_column.
  destruct df as [cols rs]. cbn [columns rows] in *. f_equal.
  rewrite map_combine_map. cbn [fst snd]. rewrite <- (map_id rs) at 2.
  apply map_ext_in. intros row Hrow. rewrite Forall_forall in Hfull.
  apply set_cell_same; [exact Hc | now apply Hfull].
Qed.

Lemma to_float_is_float (rt : Runtime) (v v' : value) :
  to_float rt v = Ok v' -> exists f, v' = VFloat f.
Proof.
  destruct v as [| b | z | f | x | t]; simpl; intros H; try discriminate;
    try (injection H as <-; eexists; reflexivity).
  destruct (parse_float rt x); [| discriminate].
  injection H as <-. eexists; reflexivity.
Qed.

Lemma to_float_fixpoint (rt : Runtime) (v v' : value) :
  to_float rt v = Ok v' -> to_float rt v' = Ok v'.
Proof.
  intros H. apply to_float_is_float in H as [f ->]. reflexivity.
Qed.

Lemma mapM_Forall {A B : Type} (f : A -> res B) (P : B -> Prop) (l : list A)
  (l' : list B) :
  (forall a b, f a = Ok b -> P b) -> mapM f l = Ok l' -> Forall P l'.
Proof.
  intros Hf. revert l'. induction l as [| a l IH]; simpl; intros l' H.
  - injection H as <-. constructor.
  - destruct (f a) as [b |] eqn:Ea; simpl in H; [| discriminate].
    destruct (mapM f l) as [bs |]; simpl in H; [| discriminate].
    injection H as <-. constructor; [now apply (Hf a) | now apply IH].
Qed.

(** One failing cell is enough for the whole column to fail. *)
Lemma mapM_raises {A B : Type} (f : A -> res B) (l : list A) (a : A) (e : exn) :
  In a l -> f a = Raise e -> exists e', mapM f l = Raise e'.
Proof.
  induction l as [| x l IH]; simpl; intros Hin Ha; [contradiction |].
  destruct Hin as [-> | Hin].
  - rewrite Ha. simpl. eexists; reflexivity.
  - destruct (f x); simpl; [| eexists; reflexivity].
    destruct (IH Hin Ha) as [e' ->]. simpl. eexists; reflexivity.
Qed.

(** When all failures are the same exception, that is the one raised. *)
Lemma mapM_raises_the (f : value -> res value) (l : list value) (a : value) (e : exn) :
  (forall x e', f x = Raise e' -> e' = e) ->
  In a l -> f a = Raise e -> mapM f l = Raise e.
Proof.
  intros Hf Hin Ha. destruct (mapM_raises f l a e Hin Ha) as [e' He'].
  rewrite He'. f_equal. clear a Hin Ha.
  revert He'. induction l as [| x l IH]; simpl; intros H; [discriminate |].
  destruct (f x) eqn:Ex; simpl in H.
  - destruct (mapM f l); simpl in H; [discriminate |].
    injection H as <-. now apply IH.
  - injection H as <-. now apply (Hf x).
Qed.

(** One step of the numeric transform: cast a column if it is there. *)
Lemma cast_step (rt : Runtime) (c : string) (df df' : DataFrame) :
  well_formed df ->
  (if has_column c df then
     (s <-- getitem df c ;; s' <-- astype_float rt s ;; Ok (setitem df c s'))%res
   else Ok df) = Ok df' ->
  columns df' = columns df /\ well_formed df' /\
  length (rows df') = length (rows df) /\
  (forall d, d <> c ->
     map (cell d (columns df')) (rows df') = map (cell d (columns df)) (rows df)) /\
  (has_column c df = true ->
   mapM (to_float rt) (map (cell c (columns df)) (rows df)) =
     Ok (map (cell c (columns df')) (rows df')) /\
   getitem df' c = Ok (map (cell c (columns df')) (rows df'))).
Proof.
  intros Hwf. destruct (has_column c df) eqn:Hc.
  - destruct (getitem df c) as [s |] eqn:Hg; simpl; [| discriminate].
    destruct (astype_float rt s) as [s' |] eqn:Hs; simpl; [| discriminate].
    intros H. injection H as <-. unfold astype_float in Hs.
    pose proof (mapM_length _ _ _ Hs) as Hlen.
    destruct (getitem_inv _ _ _ Hg) as [Hu Hsv]. rewrite Hsv in Hlen.
    rewrite length_map in Hlen.
    pose proof (getitem_setitem df c s' Hwf Hu Hlen) as Hget.
    pose proof Hget as Hget'. apply getitem_inv in Hget' as [_ Hs'].
    split; [now apply setitem_columns |].
    split; [now apply setitem_well_formed |].
    split; [now apply setitem_rows_length |].
    split; [intros d Hd; apply cell_setitem_other; auto |].
    intros _. rewrite <- Hs', <- Hsv. split; [exact Hs | exact Hget].
  - intros H. injection H as <-.
    split; [reflexivity |]. split; [assumption |]. split; [reflexivity |].
    split; [reflexivity |]. intros H. congruence.
Qed.

End MoreOnTransforms.

Section NumericTransform.
Import Py Pandas.

Lemma cast_step_fixed (rt : Runtime) (c : string) (df : DataFrame) :
  well_formed df ->
  (has_column c df = true ->
   mapM (to_float rt) (map (cell c (columns df)) (rows df)) =
     Ok (map (cell c (columns df)) (rows df))) ->
  (if has_column c df then
     (s <-- getitem df c ;; s' <-- astype_float rt s ;; Ok (setitem df c s'))%res
   else Ok df) = Ok df.
Proof.
  intros Hwf H. destruct (has_column c df) eqn:Hc; [| reflexivity].
  assert (getitem df c = Ok (map (cell c (columns df)) (rows df))) as Hg.
  { apply getitem_unique, filter_eqb_NoDup; [exact (proj1 Hwf) |].
    now apply has_column_In. }
  rewrite Hg. simpl. unfold astype_float. rewrite (H eq_refl). simpl.
  now rewrite (setitem_same df c _ Hwf Hg).
Qed.

Lemma has_column_same_columns (c : string) (df df' : DataFrame) :
  columns df' = columns df -> has_column c df' = has_column c df.
Proof. unfold has_column. now intros ->. Qed.

End NumericTransform.

(** X1. The numeric transform of the fact job, on a batch with distinct
    labels and full rows: it keeps the labels, the number of rows and every
    column other than total_room_price and total_discount; each of these two
    columns, when present, becomes the column of its cells cast to float, so
    all its cells are floats afterwards; and transforming the result again
    changes nothing. *)
Theorem numeric_transform_casts_the_price_columns
  (rt : Py.Runtime) (df df' : Pandas.DataFrame) :
  Pandas.well_formed df ->
  EtlFact.transform_reservation_data rt df = Py.Ok df' ->
  Pandas.columns df' = Pandas.columns df /\
  length (Pandas.rows df') = length (Pandas.rows df) /\
  Pandas.well_formed df' /\
  (forall d, d <> "total_room_price" -> d <> "total_discount" ->
     map (Pandas.cell d (Pandas.columns df')) (Pandas.rows df') =
     map (Pandas.cell d (Pandas.columns df)) (Pandas.rows df)) /\
  (forall c, In c ["total_room_price"; "total_discount"] ->
     Pandas.has_column c df = true ->
     Py.mapM (Py.to_float rt) (map (Pandas.cell c (Pandas.columns df)) (Pandas.rows df)) =
       Py.Ok (map (Pandas.cell c (Pandas.columns df')) (Pandas.rows df')) /\
     Forall (fun v => exists f, v = Py.VFloat f)
            (map (Pandas.cell c (Pandas.columns df')) (Pandas.rows df'))) /\
  EtlFact.transform_reservation_data rt df' = Py.Ok df'.
Proof.
  intros Hwf H. unfold EtlFact.transform_reservation_data in H.
  destruct (if Pandas.has_column "total_room_price" df then _ else _) as [d1 |] eqn:E1;
    simpl in H; [| discriminate].
  destruct (if Pandas.has_column "total_discount" d1 then _ else _) as [d2 |] eqn:E2;
    simpl in H; [| discriminate].
  injection H as <-.
  destruct (cast_step rt _ _ _ Hwf E1) as (Hc1 & Hw1 & Hl1 & Ho1 & Hp1).
  destruct (cast_step rt _ _ _ Hw1 E2) as (Hc2 & Hw2 & Hl2 & Ho2 & Hp2).
  assert (Pandas.has_column "total_room_price" df = true ->
          Py.mapM (Py.to_float rt)
            (map (Pandas.cell "total_room_price" (Pandas.columns df)) (Pandas.rows df)) =
          Py.Ok (map (Pandas.cell "total_room_price" (Pandas.columns d2)) (Pandas.rows d2)))
    as Hprice.
  { intros Hc. rewrite (Ho2 "total_room_price") by discriminate.
    exact (proj1 (Hp1 Hc)). }
  assert (Pandas.has_column "total_discount" df = true ->
          Py.mapM (Py.to_float rt)
            (map (Pandas.cell "total_discount" (Pandas.columns df)) (Pandas.rows df)) =
          Py.Ok (map (Pandas.cell "total_discount" (Pandas.columns d2)) (Pandas.rows d2)))
    as Hdiscount.
  { intros Hc. rewrite <- (Ho1 "total_discount") by discriminate.
    apply Hp2. now rewrite (has_column_same_columns _ _ _ Hc1). }
  split; [congruence |]. split; [congruence |]. split; [exact Hw2 |].
  split.
  { intros d Hd1 Hd2. rewrite (Ho2 d) by congruence. apply Ho1. congruence. }
  split.
  { intros c Hc Hhas. simpl in Hc. destruct Hc as [<- | [<- | []]].
    - split; [now apply Hprice |].
      exact (mapM_Forall _ _ _ _ (to_float_is_float rt) (Hprice Hhas)).
    - split; [now apply Hdiscount |].
      exact (mapM_Forall _ _ _ _ (to_float_is_float rt) (Hdiscount Hhas)). }
  unfold EtlFact.transform_reservation_data.
  rewrite (cast_step_fixed rt "total_room_price" d2 Hw2).
  - simpl. rewrite (cast_step_fixed rt "total_discount" d2 Hw2); [reflexivity |].
    intros Hc.
    apply (mapM_fixpoint _
             (map (Pandas.cell "total_discount" (Pandas.columns df)) (Pandas.rows df)) _
             (to_float_fixpoint rt)).
    apply Hdiscount.
    rewrite <- (has_column_same_columns "total_discount" df d2); [exact Hc | congruence].
  - intros Hc.
    apply (mapM_fixpoint _
             (map (Pandas.cell "total_room_price" (Pandas.columns df)) (Pandas.rows df)) _
             (to_float_fixpoint rt)).
    apply Hprice.
    rewrite <- (has_column_same_columns "total_room_price" df d2);
      [exact Hc | congruence].
Qed.

Lemma numeric_transform_casts_the_price_columns_witness :
  let price := Py.VFloat (binary_normalize 53 1024 250 0 false) in
  Pandas.well_formed Sample.reservations /\
  exists df',
    EtlFact.transform_reservation_data Sample.rt Sample.reservations = Py.Ok df' /\
    map (Pandas.cell "total_room_price" (Pandas.columns df')) (Pandas.rows df') =
      [price; price; price; price] /\
    EtlFact.transform_reservation_data Sample.rt df' = Py.Ok df'.
Proof.
  intros price.
  assert (Pandas.well_formed Sample.reservations) as Hwf by solve_well_formed.
  split; [exact Hwf |].
  destruct (EtlFact.transform_reservation_data Sample.rt Sample.reservations)
    as [df' |] eqn:E; [| discriminate].
  exists df'. split; [reflexivity |].
  destruct (numeric_transform_casts_the_price_columns Sample.rt _ _ Hwf E)
    as (_ & _ & _ & _ & _ & Hfix).
  injection E as <-. split; [reflexivity | exact Hfix].
Defined.

(** X2. The numeric transform fails loudly.  On a batch with distinct labels
    and full rows, when total_room_price or total_discount holds a cell that
    float() refuses, the transform raises and returns no batch; float()
    refuses a string that is not a float literal with ValueError and a
    timestamp with TypeError, and turns None into NaN instead. *)
Theorem numeric_transform_fails_loudly
  (rt : Py.Runtime) (df : Pandas.DataFrame) (c : string) (s : Pandas.Series)
  (v : Py.value) (e : Py.exn) :
  Pandas.well_formed df ->
  In c ["total_room_price"; "total_discount"] ->
  Pandas.getitem df c = Py.Ok s -> In v s -> Py.to_float rt v = Py.Raise e ->
  (exists e', EtlFact.transform_reservation_data rt df = Py.Raise e') /\
  (forall x, Py.parse_float rt x = None ->
     Py.to_float rt (Py.VStr x) =
       Py.Raise (Py.ValueError "could not convert string to float")) /\
  (forall t, Py.to_float rt (Py.VTimestamp t) =
             Py.Raise (Py.TypeError "float() argument must be a string or a number")) /\
  Py.to_float rt Py.VNone = Py.Ok Py.NaN.
Proof.
  intros Hwf Hc Hg Hv He.
  split; [| split; [intros x Hx; simpl; now rewrite Hx |
                    split; [intros t; reflexivity | reflexivity]]].
  destruct (getitem_inv _ _ _ Hg) as [Hu Hs].
  pose proof (unique_has_column _ _ Hu) as Hhas.
  unfold EtlFact.transform_reservation_data.
  simpl in Hc. destruct Hc as [<- | [<- | []]].
  - rewrite Hhas, Hg. simpl. unfold Pandas.astype_float.
    destruct (mapM_raises _ _ _ _ Hv He) as [e' ->]. simpl. eexists; reflexivity.
  - destruct (if Pandas.has_column "total_room_price" df then _ else _) as [d1 |] eqn:E1;
      simpl; [| eexists; reflexivity].
    destruct (cast_step rt _ _ _ Hwf E1) as (Hc1 & Hw1 & _ & Ho1 & _).
    rewrite (has_column_same_columns _ _ _ Hc1), Hhas.
    rewrite (getitem_unique d1 "total_discount") by (rewrite Hc1; exact Hu).
    rewrite (Ho1 "total_discount") by discriminate. rewrite <- Hs. simpl.
    unfold Pandas.astype_float.
    destruct (mapM_raises _ _ _ _ Hv He) as [e' ->]. simpl. eexists; reflexivity.
Qed.

Lemma numeric_transform_fails_loudly_witness :
  Pandas.well_formed Sample.reservations_with_bad_price /\
  Pandas.getitem Sample.reservations_with_bad_price "total_room_price" =
    Py.Ok [Py.VInt 250; Py.VStr "n/a"] /\
  Py.to_float Sample.rt (Py.VStr "n/a") =
    Py.Raise (Py.ValueError "could not convert string to float") /\
  exists e',
    EtlFact.transform_reservation_data Sample.rt Sample.reservations_with_bad_price =
    Py.Raise e'.
Proof.
  assert (Pandas.well_formed Sample.reservations_with_bad_price) as Hwf
    by solve_well_formed.
  split; [exact Hwf |]. split; [reflexivity |]. split; [reflexivity |].
  refine (proj1 (numeric_transform_fails_loudly Sample.rt
                   Sample.reservations_with_bad_price "total_room_price"
                   [Py.VInt 250; Py.VStr "n/a"] (Py.VStr "n/a")
                   (Py.ValueError "could not convert string to float")
                   Hwf _ eq_refl _ eq_refl)).
  - simpl. left. reflexivity.
  - simpl. right. left. reflexivity.
Defined.

(** X3. The phone rule on what is not a string.  A value that Python counts
    as false (None, 0, 0.0, False) is returned as it is; any other value that
    is not a string, NaN among them, makes the rule raise AttributeError,
    because only strings have startswith.  So a phone_number column with one
    such cell makes the transform of the fact job and the one of the
    dimension job raise AttributeError. *)
Theorem phone_rule_needs_strings (rt : Py.Runtime) :
  (forall x, (forall s, x <> Py.VStr s) ->
     EtlFact.phone_lambda rt x =
       if Py.truthy x then Py.Raise (Py.AttributeError "startswith") else Py.Ok x) /\
  EtlFact.phone_lambda rt Py.NaN = Py.Raise (Py.AttributeError "startswith") /\
  (forall df s x,
     Pandas.getitem df "phone_number" = Py.Ok s -> In x s ->
     (forall y, x <> Py.VStr y) -> Py.truthy x = true ->
     EtlFact.transform_phone_number rt df = Py.Raise (Py.AttributeError "startswith") /\
     EtlDims.transform_dimension_data rt df "dim_guests" =
       Py.Raise (Py.AttributeError "startswith")).
Proof.
  assert (forall x, (forall s, x <> Py.VStr s) ->
            EtlFact.phone_lambda rt x =
            if Py.truthy x then Py.Raise (Py.AttributeError "startswith") else Py.Ok x)
    as Hrule.
  { intros x Hx. destruct x as [| b | z | f | s | t]; try reflexivity.
    - destruct b; reflexivity.
    - unfold EtlFact.phone_lambda. simpl. destruct (z =? 0); reflexivity.
    - destruct f; reflexivity.
    - now contradiction (Hx s). }
  split; [exact Hrule |]. split; [reflexivity |].
  intros df s x Hg Hin Hx Ht.
  assert (Py.mapM (EtlFact.phone_lambda rt) s = Py.Raise (Py.AttributeError "startswith"))
    as Hm.
  { apply (mapM_raises_the _ _ x); [| exact Hin | now rewrite (Hrule x Hx), Ht].
    intros y e' Hy. destruct y as [| b | z | f | y | t]; try discriminate.
    - destruct b; [now injection Hy | discriminate].
    - unfold EtlFact.phone_lambda in Hy. simpl in Hy.
      destruct (z =? 0); [discriminate | now injection Hy].
    - destruct f; try discriminate; now injection Hy.
    - rewrite phone_lambda_str in Hy. discriminate.
    - now injection Hy. }
  destruct (getitem_inv _ _ _ Hg) as [Hu _].
  unfold EtlFact.transform_phone_number, EtlDims.transform_dimension_data.
  rewrite (unique_has_column _ _ Hu). simpl. rewrite Hg. simpl.
  unfold Pandas.apply. change (EtlDims.phone_lambda rt) with (EtlFact.phone_lambda rt).
  rewrite Hm. split; reflexivity.
Qed.

Lemma phone_rule_needs_strings_witness :
  Pandas.getitem Sample.users_with_numeric_phone "phone_number" = Py.Ok [Py.VInt 812345] /\
  Py.truthy (Py.VInt 812345) = true /\
  EtlFact.transform_phone_number Sample.rt Sample.users_with_numeric_phone =
    Py.Raise (Py.AttributeError "startswith").
Proof.
  split; [reflexivity |]. split; [reflexivity |].
  destruct (phone_rule_needs_strings Sample.rt) as (_ & _ & H).
  refine (proj1 (H Sample.users_with_numeric_phone [Py.VInt 812345] (Py.VInt 812345)
                   eq_refl _ _ eq_refl)).
  - simpl. left. reflexivity.
  - intros y. discriminate.
Defined.

(* ===================================================================== *)
(** * Further properties: dimension and fact preparation *)
(* ===================================================================== *)

Section MoreOnPreparation.
Import Py Pandas.

Lemma prepare_data_has_scd (clock : Z) (df : DataFrame) (dimension_type c : string) :
  In c ["effective_date"; "end_date"; "current_flag"] ->
  has_column c (EtlDims.prepare_data clock df dimension_type) = true.
Proof.
  intros Hc. rewrite prepare_data_closed_form. cbv zeta.
  unfold has_column at 1. cbn [columns]. rewrite existsb_app.
  pose proof (has_scd_column_rename df dimension_type c Hc) as Hr.
  unfold has_column at 1 in Hr. unfold rename in Hr. cbn [columns] in Hr. rewrite Hr.
  destruct (has_column c df) eqn:E; [reflexivity |]. cbn [orb].
  apply existsb_eqb_In.
  simpl in Hc. destruct Hc as [<- | [<- | [<- | []]]]; cbn [filter fst negb];
    rewrite ?E; cbn [negb map fst].
  - now left.
  - destruct (has_column "effective_date" df); cbn [negb map fst]; simpl; auto.
  - destruct (has_column "effective_date" df), (has_column "end_date" df);
      cbn [negb map fst]; simpl; auto.
Qed.

(** A label that a mapping of [columns_map] has produced is not renamed
    again. *)
Lemma dimension_renaming_idempotent (dimension_type l : string) :
  let ren := rename_label (EtlDims.get_or_empty dimension_type EtlDims.columns_map) in
  ren (ren l) = ren l.
Proof.
  cbv zeta.
  assert (l <> "id" -> l <> "reference_reservation_id" ->
          rename_label (EtlDims.get_or_empty dimension_type EtlDims.columns_map) l = l)
    as Hother.
  { intros H1 H2. apply String.eqb_neq in H1, H2.
    unfold EtlDims.columns_map, EtlDims.get_or_empty, rename_label.
    destruct (String.eqb dimension_type "dim_reservations");
      [| destruct (String.eqb dimension_type "dim_stays");
         [| destruct (String.eqb dimension_type "dim_rooms");
            [| destruct (String.eqb dimension_type "dim_guests")]]];
      cbn [assoc]; rewrite ?H1, ?H2; reflexivity. }
  destruct (String.eqb_spec l "id") as [-> | H1].
  - unfold EtlDims.columns_map, EtlDims.get_or_empty.
    destruct (String.eqb dimension_type "dim_reservations");
      [| destruct (String.eqb dimension_type "dim_stays");
         [| destruct (String.eqb dimension_type "dim_rooms");
            [| destruct (String.eqb dimension_type "dim_guests")]]];
      reflexivity.
  - destruct (String.eqb_spec l "reference_reservation_id") as [-> | H2].
    + unfold EtlDims.columns_map, EtlDims.get_or_empty.
      destruct (String.eqb dimension_type "dim_reservations");
        [| destruct (String.eqb dimension_type "dim_stays");
           [| destruct (String.eqb dimension_type "dim_rooms");
              [| destruct (String.eqb dimension_type "dim_guests")]]];
        reflexivity.
    + now rewrite !(Hother H1 H2).
Qed.

End MoreOnPreparation.

(** X4. Dimension preparation is idempotent.  Preparing a prepared batch
    again for the same dimension, at whatever time, returns it unchanged: the
    renamed labels are not renamed a second time and the bookkeeping columns,
    now present, are kept with the values of the first preparation (the first
    effective_date stays). *)
Theorem dimension_preparation_is_idempotent
  (clock clock' : Z) (df : Pandas.DataFrame) (dimension_type : string) :
  EtlDims.prepare_data clock' (EtlDims.prepare_data clock df dimension_type) dimension_type
  = EtlDims.prepare_data clock df dimension_type.
Proof.
  set (out := EtlDims.prepare_data clock df dimension_type).
  rewrite (prepare_data_closed_form clock' out dimension_type). cbv zeta.
  cbn [filter fst].
  rewrite !(prepare_data_has_scd clock df dimension_type) by (simpl; auto).
  cbn [negb map]. rewrite app_nil_r, map_app_nil_id.
  assert (map (Pandas.rename_label
                 (EtlDims.get_or_empty dimension_type EtlDims.columns_map))
              (Pandas.columns out) = Pandas.columns out) as ->;
    [| now destruct out].
  subst out. rewrite prepare_data_closed_form. cbv zeta. cbn [Pandas.columns].
  rewrite map_app, map_map. f_equal.
  - apply map_ext. intros l. apply dimension_renaming_idempotent.
  - rewrite <- (map_id (map fst _)) at 2. apply map_ext_in. intros c Hc.
    apply scd_label_not_renamed; [| reflexivity].
    apply in_map_iff in Hc as [[c' v] [<- Hc]]. apply filter_In in Hc as [Hc _].
    simpl in Hc |- *.
    destruct Hc as [Hc | [Hc | [Hc | []]]]; injection Hc as <- _; auto.
Qed.

Section MoreOnFactPreparation.
Import Py Pandas.

Lemma keep_first_length (key : list value -> list value) (seen : list (list value))
  (l : list (list value)) :
  (length (keep_first key seen l) <= length l)%nat.
Proof.
  revert seen. induction l as [| x l IH]; simpl; intros seen; [lia |].
  destruct (existsb (key_eqb (key x)) seen); simpl.
  - specialize (IH seen). lia.
  - specialize (IH (key x :: seen)). lia.
Qed.

(** Rows with pairwise distinct keys, none of them seen before, are all
    kept. *)
Lemma keep_first_distinct (key : list value -> list value) (seen : list (list value))
  (l : list (list value)) :
  NoDup (map key l) -> (forall r, In r l -> ~ In (key r) seen) ->
  keep_first key seen l = l.
Proof.
  revert seen. induction l as [| x l IH]; simpl; intros seen Hnd Hs; [reflexivity |].
  inversion Hnd as [| ? ? Hx Hrest]; subst.
  destruct (existsb (key_eqb (key x)) seen) eqn:E.
  - apply seen_iff in E. exfalso. now apply (Hs x (or_introl eq_refl)).
  - f_equal. apply IH; [exact Hrest |].
    intros r Hr [Hk | Hk].
    + apply Hx. rewrite Hk. now apply in_map.
    + now apply (Hs r (or_intror Hr)).
Qed.

Lemma find_first_missing (df : DataFrame) (before after : list string) (c : string) :
  (forall b, In b before -> In b (columns df)) -> ~ In c (columns df) ->
  find (fun c => negb (has_column c df)) (before ++ c :: after) = Some c.
Proof.
  intros Hb Hc. induction before as [| b before IH]; simpl.
  - destruct (has_column_not_In c df) as [_ ->]; [reflexivity | exact Hc].
  - destruct (has_column_In b df) as [_ ->]; [| apply Hb; now left].
    simpl. apply IH. intros b' Hb'. apply Hb. now right.
Qed.

End MoreOnFactPreparation.

(** X5. Fact preparation at its edges.  When a column asked for is missing,
    [prepare_fact_data] raises KeyError for the first missing one in the order
    asked; when all are there but the id column is not among those asked, it
    raises KeyError for the id column.  When it returns, it has at most as
    many rows as the input, and exactly the rows of the projection, in their
    order, when the ids of the projection are pairwise distinct. *)
Theorem fact_preparation_edge_cases
  (df : Pandas.DataFrame) (names : list string) (id_col new_id_col : string) :
  (forall before c after,
     names = before ++ c :: after ->
     (forall b, In b before -> In b (Pandas.columns df)) ->
     ~ In c (Pandas.columns df) ->
     EtlFact.prepare_fact_data df names id_col new_id_col = Py.Raise (Py.KeyError c)) /\
  ((forall c, In c names -> In c (Pandas.columns df)) -> ~ In id_col names ->
   EtlFact.prepare_fact_data df names id_col new_id_col = Py.Raise (Py.KeyError id_col)) /\
  (forall out,
     EtlFact.prepare_fact_data df names id_col new_id_col = Py.Ok out ->
     (length (Pandas.rows out) <= length (Pandas.rows df))%nat /\
     forall picked,
       Pandas.select df names = Py.Ok picked ->
       NoDup (map (Pandas.cells id_col (Pandas.columns picked)) (Pandas.rows picked)) ->
       Pandas.rows out = Pandas.rows picked).
Proof.
  split.
  { intros before c after -> Hb Hc. unfold EtlFact.prepare_fact_data, Pandas.select.
    now rewrite (find_first_missing df before after c Hb Hc). }
  split.
  { intros Hall Hid. unfold EtlFact.prepare_fact_data.
    rewrite (select_present df names Hall). simpl.
    unfold Pandas.drop_duplicates.
    destruct (has_column_not_In id_col
                (Pandas.mkDF
                   (flat_map (fun c => filter (String.eqb c) (Pandas.columns df)) names)
                   (map (fun row =>
                           flat_map (fun c => Pandas.cells c (Pandas.columns df) row) names)
                        (Pandas.rows df)))) as [_ ->]; [reflexivity |].
    cbn [Pandas.columns]. intros Hin. apply in_flat_map in Hin as [c [Hc Hin]].
    apply filter_In in Hin as [_ Hin]. apply String.eqb_eq in Hin. now subst c. }
  intros out H. apply prepare_fact_data_inv in H as (picked & Hsel & _ & ->).
  cbn [Pandas.rows]. split.
  - pose proof (keep_first_length (Pandas.cells id_col (Pandas.columns picked)) []
                  (Pandas.rows picked)) as Hlen.
    apply select_inv in Hsel as [_ Hp].
    assert (length (Pandas.rows picked) = length (Pandas.rows df)) as <-; [| exact Hlen].
    rewrite Hp. cbn [Pandas.rows]. apply length_map.
  - intros picked' Hsel' Hnd. rewrite Hsel in Hsel'. injection Hsel' as <-.
    apply keep_first_distinct; [exact Hnd | intros r _ []].
Qed.

Lemma fact_preparation_edge_cases_witness :
  EtlFact.prepare_fact_data Sample.stays ["id"; "date"; "reservation_id"; "room_id"]
    "id" "stay_id" = Py.Raise (Py.KeyError "reservation_id") /\
  EtlFact.prepare_fact_data Sample.stays ["date"; "room_id"] "id" "stay_id" =
    Py.Raise (Py.KeyError "id") /\
  exists out,
    EtlFact.prepare_fact_data Sample.rooms ["id"; "name"] "id" "room_id" = Py.Ok out /\
    Pandas.rows out = [[Py.VInt 100; Py.VStr "A1"]; [Py.VInt 101; Py.VStr "B2"]].
Proof.
  destruct (fact_preparation_edge_cases Sample.stays
              ["id"; "date"; "reservation_id"; "room_id"] "id" "stay_id") as (Hmiss & _).
  destruct (fact_preparation_edge_cases Sample.stays ["date"; "room_id"] "id" "stay_id")
    as (_ & Hid & _).
  destruct (fact_preparation_edge_cases Sample.rooms ["id"; "name"] "id" "room_id")
    as (_ & _ & Hrows).
  split.
  { apply (Hmiss ["id"; "date"] "reservation_id" ["room_id"] eq_refl).
    - intros b Hb. simpl in Hb |- *. intuition.
    - simpl. intuition discriminate. }
  split.
  { apply Hid.
    - intros c Hc. simpl in Hc |- *. intuition.
    - simpl. intuition discriminate. }
  destruct (EtlFact.prepare_fact_data Sample.rooms ["id"; "name"] "id" "room_id")
    as [out |] eqn:E; [| discriminate].
  exists out. split; [reflexivity |].
  destruct (Hrows out eq_refl) as [_ Hkeep].
  rewrite (Hkeep (Pandas.mkDF ["id"; "name"]
                    [[Py.VInt 100; Py.VStr "A1"]; [Py.VInt 101; Py.VStr "B2"]]));
    [reflexivity | reflexivity |].
  simpl. repeat (apply NoDup_cons; [simpl; intuition discriminate |]). apply NoDup_nil.
Defined.

(* ===================================================================== *)
(** * Further properties: what a run of a job can look like *)
(* ===================================================================== *)

(** X6. The runs of the fact job.  A run that ends with an exception has
    written nothing.  A run writes nothing, or it returns normally after
    having written fact_reservations and then fact_stays, both in append
    mode: the second write is made whether or not the warehouse accepted the
    first, and a refused write does not raise.  A batch of invalid stays is
    printed only when it has rows, and after its heading. *)
Theorem fact_job_runs (w : Job.World) :
  let result := fst (Job.run (EtlFact.main w)) in
  let trace := snd (Job.run (EtlFact.main w)) in
  (forall e, result = Py.Raise e -> Job.writes trace = []) /\
  (Job.writes trace = [] \/
   result = Py.Ok tt /\
   exists fact_reservations fact_stays,
     Job.writes trace =
       [("fact_reservations", Job.Append, fact_reservations);
        ("fact_stays", Job.Append, fact_stays)]) /\
  (forall df, In (Job.Printed (Job.Frame df)) trace ->
     Pandas.empty df = false /\
     exists rest, trace = Job.Printed Job.InvalidStaysFound
                          :: Job.Printed (Job.Frame df) :: rest).
Proof.
  unfold Job.run, EtlFact.main, EtlFact.extract_data, Job.mbind, Job.lift, Job.ret,
    Job.emit.
  destruct (Job.source w "Reservations") as [reservations |];
    destruct (Job.source w "Stays") as [stays |];
    destruct (Job.source w "Rooms") as [rooms |];
    destruct (Job.source w "Users") as [users |];
    cbn [fst snd app];
    try (split; [intros e He; reflexivity |];
         split; [left; reflexivity |];
         intros df Hin; simpl in Hin; exfalso;
         repeat (destruct Hin as [Hin | Hin]; [discriminate |]); exact Hin).
  destruct (EtlFact.main_transform (Job.runtime w) reservations rooms users)
    as [[[rooms' users'] reservations'] |]; cbn [fst snd];
    [| split; [reflexivity | split; [now left | intros df []]]].
  destruct (EtlFact.main_merge reservations' stays rooms' users')
    as [[stays_m reservations_m] |]; cbn [fst snd];
    [| split; [reflexivity | split; [now left | intros df []]]].
  destruct (EtlFact.main_reconcile stays_m reservations_m)
    as [[valid_stays invalid_stays] |]; cbn [fst snd];
    [| split; [reflexivity | split; [now left | intros df []]]].
  unfold EtlFact.main_log_invalid, EtlFact.load_data, Job.mbind, Job.emit, Job.ret.
  destruct (Pandas.empty invalid_stays) eqn:Hempty; cbn [negb app];
    destruct (EtlFact.main_prepare reservations_m valid_stays)
      as [[fact_reservations fact_stays] |]; cbn [fst snd app];
    try destruct (Job.warehouse_accepts w "fact_reservations");
    try destruct (Job.warehouse_accepts w "fact_stays");
    cbn [fst snd app Job.writes];
    (split; [intros ? He; try discriminate He; reflexivity |]);
    (split; [first [ left; reflexivity
                   | right; split; [reflexivity |];
                     exists fact_reservations, fact_stays; reflexivity ] |]);
    intros df Hin; simpl in Hin;
    repeat (destruct Hin as [Hin | Hin];
            [first [ discriminate Hin
                   | injection Hin as <-; split; [exact Hempty |];
                     eexists; reflexivity ] |]);
    destruct Hin.
Qed.

Lemma fact_job_runs_witness :
  fst (Job.run (EtlFact.main Sample.world_rooms_without_type)) =
    Py.Raise (Py.KeyError "room_type") /\
  Job.writes (snd (Job.run (EtlFact.main Sample.world_rooms_without_type))) = [] /\
  exists df rest,
    Pandas.empty df = false /\
    snd (Job.run (EtlFact.main Sample.world)) =
      Job.Printed Job.InvalidStaysFound :: Job.Printed (Job.Frame df) :: rest.
Proof.
  destruct (fact_job_runs Sample.world_rooms_without_type) as (Hraise & _ & _).
  destruct (fact_job_runs Sample.world) as (_ & _ & Hprint).
  split; [reflexivity |]. split; [exact (Hraise _ eq_refl) |].
  eexists. 
  assert (In (Job.Printed (Job.Frame
            (Pandas.mkDF
               ["id"; "date"; "reservation_id"; "room_id"; "guest_id"; "id_room";
                "room_type"; "id_guest"; "phone_number"]
               [[Py.VInt 12; Py.VStr "2024-06-02"; Py.VInt 99; Py.VInt 100; Py.VInt 1000;
                 Py.VInt 100; Py.VStr "deluxe"; Py.VInt 1000; Py.VStr "+620812345"]])))
             (snd (Job.run (EtlFact.main Sample.world)))) as Hin.
  { vm_compute. right. left. reflexivity. }
  destruct (Hprint _ Hin) as (Hempty & rest & Htrace).
  exists rest. split; [exact Hempty | exact Htrace].
Defined.

Section DimsJob.
Import Py Pandas.

Lemma transform_dimension_data_shape (rt : Runtime) (df df' : DataFrame)
  (dimension_type : string) :
  EtlDims.transform_dimension_data rt df dimension_type = Ok df' ->
  columns df' = columns df /\ length (rows df') = length (rows df).
Proof.
  unfold EtlDims.transform_dimension_data.
  destruct (String.eqb dimension_type "dim_rooms").
  - destruct (getitem df "room_type") as [s |] eqn:Hg; simpl; [| discriminate].
    intros H. injection H as <-. apply getitem_inv in Hg as [Hu ->].
    split; [apply setitem_columns; now apply unique_has_column |].
    apply setitem_rows_length. now rewrite room_type_series_length, length_map.
  - destruct (String.eqb dimension_type "dim_guests").
    + destruct (getitem df "phone_number") as [s |] eqn:Hg; simpl; [| discriminate].
      destruct (apply (EtlDims.phone_lambda rt) s) as [s' |] eqn:Hs; simpl;
        [| discriminate].
      intros H. injection H as <-. apply getitem_inv in Hg as [Hu ->].
      split; [apply setitem_columns; now apply unique_has_column |].
      apply setitem_rows_length. unfold apply in Hs.
      now rewrite (mapM_length _ _ _ Hs), length_map.
    + intros H. injection H as <-. split; reflexivity.
Qed.

Lemma prepare_data_rows_length (clock : Z) (df : DataFrame) (dimension_type : string) :
  length (rows (EtlDims.prepare_data clock df dimension_type)) = length (rows df).
Proof. rewrite prepare_data_closed_form. cbv zeta. cbn [rows]. apply length_map. Qed.

End DimsJob.

(** X7. The runs of the dimension job.  A run that ends with an exception
    has written nothing.  A run writes nothing, or it returns normally after
    having written dim_reservations, dim_stays, dim_rooms and dim_guests, in
    this order and in replace mode, whatever the warehouse answers to each
    write; and each table then gets exactly as many rows as were extracted
    for it: the dimension job drops no row and removes no duplicate. *)
Theorem dimension_job_runs (w : Job.World) :
  let result := fst (Job.run (EtlDims.main w)) in
  let trace := snd (Job.run (EtlDims.main w)) in
  (forall e, result = Py.Raise e -> Job.writes trace = []) /\
  (Job.writes trace = [] \/
   result = Py.Ok tt /\
   exists reservations stays rooms guests d_reservations d_stays d_rooms d_guests,
     Job.source w "Reservations" = Some reservations /\
     Job.source w "Stays" = Some stays /\
     Job.source w "Rooms" = Some rooms /\
     Job.source w "Users" = Some guests /\
     Job.writes trace =
       [("dim_reservations", Job.Replace, d_reservations);
        ("dim_stays", Job.Replace, d_stays);
        ("dim_rooms", Job.Replace, d_rooms);
        ("dim_guests", Job.Replace, d_guests)] /\
     length (Pandas.rows d_reservations) = length (Pandas.rows reservations) /\
     length (Pandas.rows d_stays) = length (Pandas.rows stays) /\
     length (Pandas.rows d_rooms) = length (Pandas.rows rooms) /\
     length (Pandas.rows d_guests) = length (Pandas.rows guests)).
Proof.
  unfold Job.run, EtlDims.main, EtlDims.extract_data, Job.mbind, Job.lift, Job.ret,
    Job.emit.
  destruct (Job.source w "Reservations") as [reservations |];
    destruct (Job.source w "Stays") as [stays |];
    destruct (Job.source w "Rooms") as [rooms |];
    destruct (Job.source w "Users") as [guests |];
    cbn [fst snd app];
    try (split; [intros ? He; reflexivity | left; reflexivity]).
  destruct (EtlDims.transform_dimension_data (Job.runtime w) rooms "dim_rooms")
    as [rooms' |] eqn:Hr; cbn [fst snd];
    [| split; [reflexivity | now left]].
  destruct (EtlDims.transform_dimension_data (Job.runtime w) guests "dim_guests")
    as [guests' |] eqn:Hg; cbn [fst snd];
    [| split; [reflexivity | now left]].
  apply transform_dimension_data_shape in Hr as [_ Hr].
  apply transform_dimension_data_shape in Hg as [_ Hg].
  unfold EtlDims.load_dimension_data, Job.mbind, Job.emit.
  destruct (Job.warehouse_accepts w "dim_reservations"),
           (Job.warehouse_accepts w "dim_stays"),
           (Job.warehouse_accepts w "dim_rooms"),
           (Job.warehouse_accepts w "dim_guests");
    cbn [fst snd app Job.writes];
    (split; [intros ? He; discriminate He |]);
    right; (split; [reflexivity |]);
    exists reservations, stays, rooms, guests;
    do 4 eexists;
    (split; [reflexivity |]); (split; [reflexivity |]); (split; [reflexivity |]);
    (split; [reflexivity |]); (split; [reflexivity |]);
    rewrite !prepare_data_rows_length; repeat split; assumption.
Qed.

Lemma dimension_job_runs_witness :
  fst (Job.run (EtlDims.main Sample.world_rooms_without_type)) =
    Py.Raise (Py.KeyError "room_type") /\
  Job.writes (snd (Job.run (EtlDims.main Sample.world_rooms_without_type))) = [].
Proof.
  destruct (dimension_job_runs Sample.world_rooms_without_type) as (Hraise & _).
  split; [reflexivity | exact (Hraise _ eq_refl)].
Defined.

(* ===================================================================== *)
(** * Further properties: the finance and the hotel-branch mart *)
(* ===================================================================== *)

Section OtherMarts.
Import Py Pandas.



(** The hotel-branch mart of batches in the shape of the data model, in
    closed form. *)
Lemma hotel_branch_mart_closed_form (sr rr : list (list value)) :
  EtlDataMart.hotel_branch_mart_of (mkDF Spec.stay_columns sr) (mkDF Spec.room_columns rr) =
  Ok (mkDF ["stay_id"; "stay_date"; "reservation_id"; "room_id"; "room_name"; "room_type";
            "floor"; "hotel_id"]
       (map (fun row =>
               flat_map
                 (fun c => cells c ["id_x"; "date"; "reference_reservation_id"; "room_id";
                                    "guest_id"; "id_y"; "name"; "room_type"; "floor";
                                    "hotel_id"] row)
                 ["id_x"; "date"; "reference_reservation_id"; "room_id"; "name";
                  "room_type"; "floor"; "hotel_id"])
            (flat_map
               (fun lrow =>
                  join_row (mkDF Spec.room_columns rr) "id"
                    (cell "room_id" Spec.stay_columns lrow) lrow)
               sr))).
Proof.
  unfold EtlDataMart.hotel_branch_mart_of.
  rewrite merge_left_ok by reflexivity.
  cbn [bind columns rows].
  set (labels := map (with_suffix _ _ "_x") _ ++ map (with_suffix _ _ "_y") _).
  vm_compute in labels.
  rewrite select_present.
  2:{ intros c Hc. subst labels. cbn [columns]. simpl in Hc.
      repeat (destruct Hc as [<- | Hc]; [simpl; tauto |]). destruct Hc. }
  reflexivity.
Qed.

End OtherMarts.



Section HotelBranchMart.
Import Py Pandas.

(** With pairwise distinct keys on the right side, a left row whose key is
    the key of a right row is joined to that row and to no other. *)
Lemma matching_rows_unique (right : DataFrame) (right_on : string) (rrow : list value) :
  NoDup (map (cell right_on (columns right)) (rows right)) ->
  In rrow (rows right) ->
  matching_rows right right_on (cell right_on (columns right) rrow) = [rrow].
Proof.
  intros Hnd Hin. unfold matching_rows.
  set (f := cell right_on (columns right)) in *.
  assert (filter (fun x => value_eqb (f rrow) (f x)) (rows right) = [rrow]) as ->;
    [| reflexivity].
  induction (rows right) as [| a l IH]; [destruct Hin |].
  cbn [map] in Hnd. inversion Hnd as [| ? ? Hnotin Hnd']; subst.
  cbn [filter]. destruct Hin as [-> | Hin].
  - rewrite value_eqb_refl. f_equal.
    destruct (filter (fun x => value_eqb (f rrow) (f x)) l) as [| m ms] eqn:E;
      [reflexivity | exfalso].
    assert (In m (filter (fun x => value_eqb (f rrow) (f x)) l)) as Hm
      by (rewrite E; now left).
    apply filter_In in Hm as [Hm Hk]. apply (proj1 (value_eqb_eq _ _)) in Hk.
    apply Hnotin. rewrite Hk. now apply in_map.
  - destruct (value_eqb (f rrow) (f a)) eqn:Hk.
    + exfalso. apply (proj1 (value_eqb_eq _ _)) in Hk.
      apply Hnotin. rewrite <- Hk. now apply in_map.
    + now apply IH.
Qed.

End HotelBranchMart.

(** X9. The hotel-branch mart, for a Stay batch and a Room batch with the
    columns of the data model and full rows, whose key columns (room_id of
    the stays, id of the rooms) hold integers.  The mart is built without
    error and has the eight mart columns.  Every row of the mart begins with
    the id, date, reservation reference and room id of a stay, followed by
    four room cells, and every stay begins a row; a stay whose room_id is the
    id of no room is kept, with four missing room cells.  When the room ids
    are pairwise distinct and every stay has its room, the mart has one row
    per stay, in the order of the stays, with the name, the room type as
    stored, the floor and the hotel of that room.  The mart is what the job
    writes to hotel_branch_mart. *)
Theorem hotel_branch_mart_left_join (stays rooms : Pandas.DataFrame) :
  Pandas.columns stays = Spec.stay_columns ->
  Pandas.columns rooms = Spec.room_columns ->
  Forall (fun row => length row = length (Pandas.columns stays)) (Pandas.rows stays) ->
  Forall (fun row => length row = length (Pandas.columns rooms)) (Pandas.rows rooms) ->
  Pandas.column_of Pandas.is_int "room_id" stays = true ->
  Pandas.column_of Pandas.is_int "id" rooms = true ->
  let of_stay c s := Pandas.cell c (Pandas.columns stays) s in
  let of_room c r := Pandas.cell c (Pandas.columns rooms) r in
  let stay_cells s :=
    [of_stay "id" s; of_stay "date" s; of_stay "reference_reservation_id" s;
     of_stay "room_id" s] in
  let room_cells r :=
    [of_room "name" r; of_room "room_type" r; of_room "floor" r; of_room "hotel_id" r] in
  exists out,
    EtlDataMart.hotel_branch_mart_of stays rooms = Py.Ok out /\
    Pandas.columns out =
      ["stay_id"; "stay_date"; "reservation_id"; "room_id"; "room_name"; "room_type";
       "floor"; "hotel_id"] /\
    (forall row,
       In row (Pandas.rows out) ->
       exists s rc, In s (Pandas.rows stays) /\ length rc = 4%nat /\
                    row = stay_cells s ++ rc) /\
    (forall s,
       In s (Pandas.rows stays) ->
       exists rc, length rc = 4%nat /\ In (stay_cells s ++ rc) (Pandas.rows out)) /\
    (forall s,
       In s (Pandas.rows stays) ->
       (forall r, In r (Pandas.rows rooms) -> of_stay "room_id" s <> of_room "id" r) ->
       exists rc, length rc = 4%nat /\ Forall (fun v => Py.is_null v = true) rc /\
                  In (stay_cells s ++ rc) (Pandas.rows out)) /\
    (NoDup (map (of_room "id") (Pandas.rows rooms)) ->
     (forall s, In s (Pandas.rows stays) ->
                exists r, In r (Pandas.rows rooms) /\ of_stay "room_id" s = of_room "id" r) ->
     Forall2 (fun s row =>
                exists r, In r (Pandas.rows rooms) /\
                          of_stay "room_id" s = of_room "id" r /\
                          row = stay_cells s ++ room_cells r)
             (Pandas.rows stays) (Pandas.rows out)) /\
    (forall w,
       Job.source w "Stays" = Some stays ->
       Job.source w "Rooms" = Some rooms ->
       Job.writes (snd (Job.run (EtlDataMart.create_hotel_branch_mart w))) =
         [("hotel_branch_mart", Job.Replace, out)]).
Proof.
  destruct stays as [sc sr], rooms as [rc rr].
  intros Hsc Hrc. cbn [Pandas.columns] in Hsc, Hrc. subst sc rc.
  intros Hsr Hrr _ _ of_stay of_room stay_cells room_cells.
  cbn [Pandas.columns Pandas.rows] in *.
  rewrite Forall_forall in Hsr, Hrr.
  eexists. split; [apply hotel_branch_mart_closed_form |]. cbn [Pandas.columns Pandas.rows].
  split; [reflexivity |].
  set (pick := fun row : list Py.value => flat_map _ _).
  assert (forall s r, length s = 5%nat -> length r = 5%nat ->
                      pick (s ++ r) = stay_cells s ++ room_cells r) as Hpick.
  { intros s r Ls Lr. subst pick stay_cells room_cells of_stay of_room.
    explode_row s Ls. explode_row r Lr. reflexivity. }
  assert (forall s m, In s sr ->
            In m (Pandas.matching_rows (Pandas.mkDF Spec.room_columns rr) "id"
                    (Pandas.cell "room_id" Spec.stay_columns s)) ->
            length m = 5%nat) as Hlen.
  { intros s m Hs Hm. apply matching_rows_inv in Hm as [[Hin _] | [-> _]].
    - exact (Hrr m Hin).
    - reflexivity. }
  split.
  { intros row Hrow. apply in_map_iff in Hrow as [m [<- Hm]].
    apply in_flat_map in Hm as [s [Hs Hm]]. unfold Pandas.join_row in Hm.
    apply in_map_iff in Hm as [r [<- Hm]].
    exists s, (room_cells r). split; [exact Hs |]. split; [reflexivity |].
    apply Hpick; [exact (Hsr s Hs) | exact (Hlen s r Hs Hm)]. }
  split.
  { intros s Hs.
    destruct (Pandas.matching_rows (Pandas.mkDF Spec.room_columns rr) "id"
                (Pandas.cell "room_id" Spec.stay_columns s)) as [| m ms] eqn:E;
      [exfalso; exact (matching_rows_not_nil _ _ _ E) |].
    assert (In m (Pandas.matching_rows (Pandas.mkDF Spec.room_columns rr) "id"
                    (Pandas.cell "room_id" Spec.stay_columns s))) as Hm
      by (rewrite E; now left).
    exists (room_cells m). split; [reflexivity |].
    rewrite <- (Hpick s m (Hsr s Hs) (Hlen s m Hs Hm)).
    apply in_map. apply in_flat_map. exists s. split; [exact Hs |].
    unfold Pandas.join_row. now apply (in_map (fun rrow => s ++ rrow)). }
  split.
  { intros s Hs Hno. exists [Py.NaN; Py.NaN; Py.NaN; Py.NaN].
    split; [reflexivity |].
    split; [repeat (apply Forall_cons; [reflexivity |]); apply Forall_nil |].
    change [Py.NaN; Py.NaN; Py.NaN; Py.NaN]
      with (room_cells (map (fun _ => Py.NaN) Spec.room_columns)).
    rewrite <- (Hpick s (map (fun _ => Py.NaN) Spec.room_columns) (Hsr s Hs) eq_refl).
    apply in_map. apply in_flat_map. exists s. split; [exact Hs |].
    unfold Pandas.join_row. apply (in_map (fun rrow => s ++ rrow)).
    unfold Pandas.matching_rows. cbn [Pandas.rows Pandas.columns].
    match goal with
    | |- context [filter ?f ?l] =>
        destruct (filter f l) as [| m ms] eqn:E; [now left | exfalso];
        assert (In m (filter f l)) as Hm by (rewrite E; now left)
    end.
    apply filter_In in Hm as [Hm Hk]. apply (proj1 (value_eqb_eq _ _)) in Hk.
    exact (Hno m Hm Hk). }
  split.
  { intros Hnd Hall.
    assert (forall l, (forall s, In s l -> In s sr) ->
              Forall2 (fun s row =>
                         exists r, In r rr /\ of_stay "room_id" s = of_room "id" r /\
                                   row = stay_cells s ++ room_cells r)
                l (map pick
                     (flat_map
                        (fun lrow =>
                           Pandas.join_row (Pandas.mkDF Spec.room_columns rr) "id"
                             (Pandas.cell "room_id" Spec.stay_columns lrow) lrow) l)))
      as Hgen; [| apply Hgen; auto].
    induction l as [| s l IH]; intros Hsub; [constructor |].
    cbn [flat_map]. rewrite map_app.
    destruct (Hall s (Hsub s (or_introl eq_refl))) as (r & Hr & Hk).
    unfold Pandas.join_row at 1.
    replace (Pandas.cell "room_id" Spec.stay_columns s)
      with (Pandas.cell "id" (Pandas.columns (Pandas.mkDF Spec.room_columns rr)) r)
      by (symmetry; exact Hk).
    rewrite matching_rows_unique; [| exact Hnd | exact Hr].
    cbn [map app]. constructor.
    - exists r. split; [exact Hr |]. split; [exact Hk |].
      apply Hpick; [exact (Hsr s (Hsub s (or_introl eq_refl))) | exact (Hrr r Hr)].
    - apply IH. intros s' Hs'. apply Hsub. now right. }
  intros w Es Er.
  unfold Job.run, EtlDataMart.create_hotel_branch_mart, EtlDataMart.extract_data,
    EtlDataMart.load_data, Job.mbind, Job.lift, Job.ret, Job.emit.
  rewrite Es, Er, hotel_branch_mart_closed_form.
  destruct (Job.warehouse_accepts w "hotel_branch_mart"); reflexivity.
Qed.

Lemma hotel_branch_mart_left_join_witness :
  (exists out,
     EtlDataMart.hotel_branch_mart_of Sample.stays Sample.rooms = Py.Ok out /\
     length (Pandas.rows out) = 4%nat /\
     In [Py.VInt 11; Py.VStr "2024-06-01"; Py.VInt 2; Py.VInt 101; Py.VStr "B2";
         Py.VStr "SUITE"; Py.VInt 2; Py.VInt 1] (Pandas.rows out)) /\
  (exists out rc,
     EtlDataMart.hotel_branch_mart_of Sample.stays Sample.rooms_without_100 = Py.Ok out /\
     Forall (fun v => Py.is_null v = true) rc /\
     In ([Py.VInt 10; Py.VStr "2024-06-01"; Py.VInt 1; Py.VInt 100] ++ rc)
        (Pandas.rows out)).
Proof.
  assert (Forall (fun row => length row = length (Pandas.columns Sample.stays))
                 (Pandas.rows Sample.stays)) as Hsr.
  { simpl. repeat (apply Forall_cons; [reflexivity |]). apply Forall_nil. }
  assert (Forall (fun row => length row = length (Pandas.columns Sample.rooms))
                 (Pandas.rows Sample.rooms)) as Hrr.
  { simpl. repeat (apply Forall_cons; [reflexivity |]). apply Forall_nil. }
  assert (Forall (fun row => length row = length (Pandas.columns Sample.rooms_without_100))
                 (Pandas.rows Sample.rooms_without_100)) as Hrr'.
  { simpl. repeat (apply Forall_cons; [reflexivity |]). apply Forall_nil. }
  split.
  - destruct (hotel_branch_mart_left_join Sample.stays Sample.rooms
                eq_refl eq_refl Hsr Hrr eq_refl eq_refl)
      as (out & Hout & _ & _ & _ & _ & Hall & _).
    exists out. split; [exact Hout |].
    assert (Forall2
              (fun s row =>
                 exists r, In r (Pandas.rows Sample.rooms) /\
                   Pandas.cell "room_id" (Pandas.columns Sample.stays) s =
                   Pandas.cell "id" (Pandas.columns Sample.rooms) r /\
                   row =
                   [Pandas.cell "id" (Pandas.columns Sample.stays) s;
                    Pandas.cell "date" (Pandas.columns Sample.stays) s;
                    Pandas.cell "reference_reservation_id" (Pandas.columns Sample.stays) s;
                    Pandas.cell "room_id" (Pandas.columns Sample.stays) s] ++
                   [Pandas.cell "name" (Pandas.columns Sample.rooms) r;
                    Pandas.cell "room_type" (Pandas.columns Sample.rooms) r;
                    Pandas.cell "floor" (Pandas.columns Sample.rooms) r;
                    Pandas.cell "hotel_id" (Pandas.columns Sample.rooms) r])
              (Pandas.rows Sample.stays) (Pandas.rows out)) as HF.
    { apply Hall.
      - simpl. repeat (apply NoDup_cons; [simpl; intuition discriminate |]). apply NoDup_nil.
      - intros s Hs. simpl in Hs.
        destruct Hs as [<- | [<- | [<- | [<- | []]]]];
          [ exists [Py.VInt 100; Py.VStr "A1"; Py.VStr "De-Luxe 2"; Py.VInt 1; Py.VInt 1]
          | exists [Py.VInt 101; Py.VStr "B2"; Py.VStr "SUITE"; Py.VInt 2; Py.VInt 1]
          | exists [Py.VInt 100; Py.VStr "A1"; Py.VStr "De-Luxe 2"; Py.VInt 1; Py.VInt 1]
          | exists [Py.VInt 100; Py.VStr "A1"; Py.VStr "De-Luxe 2"; Py.VInt 1; Py.VInt 1] ];
          (split; [simpl; tauto | reflexivity]). }
    split.
    + rewrite <- (Forall2_length HF). reflexivity.
    + simpl in HF.
      inversion HF as [| s1 row1 l1 out1 _ HF1 Es1 Eout1]; subst.
      inversion HF1 as [| s2 row2 l2 out2 (r & Hr & Hk & Hrow) _ Es2 Eout2]; subst.
      right. left. simpl in Hr.
      destruct Hr as [<- | [<- | []]]; [discriminate Hk | reflexivity].
  - destruct (hotel_branch_mart_left_join Sample.stays Sample.rooms_without_100
                eq_refl eq_refl Hsr Hrr' eq_refl eq_refl)
      as (out & Hout & _ & _ & _ & Hnone & _).
    destruct (Hnone [Py.VInt 10; Py.VStr "2024-06-01"; Py.VInt 1; Py.VInt 100; Py.VInt 1000])
      as (rc & _ & Hnull & Hin).
    + simpl. left. reflexivity.
    + intros r Hr. simpl in Hr. destruct Hr as [<- | []]. discriminate.
    + exists out, rc. split; [exact Hout |]. split; [exact Hnull | exact Hin].
Defined.

(* ===================================================================== *)
(** * Further properties: the data-mart job *)
(* ===================================================================== *)

Section DataMartJob.
Import Py Pandas Job.

Lemma writes_app (tr tr' : list event) : writes (tr ++ tr') = writes tr ++ writes tr'.
Proof.
  induction tr as [| [m | table mode df] tr IH]; cbn [app writes]; [reflexivity | exact IH |].
  now rewrite IH.
Qed.

Lemma create_marketing_mart_run (w : World) (tr : list event) :
  (fst (EtlDataMart.create_marketing_mart w tr),
   writes (snd (EtlDataMart.create_marketing_mart w tr))) =
  match source w "Reservations", source w "Campaign" with
  | Some a, Some b =>
      match EtlDataMart.marketing_mart_of (runtime w) a b with
      | Ok df => (Ok tt, writes tr ++ [("marketing_mart", Replace, df)])
      | Raise e => (Raise e, writes tr)
      end
  | _, _ => (Ok tt, writes tr)
  end.
Proof.
  unfold EtlDataMart.create_marketing_mart, EtlDataMart.extract_data,
    EtlDataMart.load_data, mbind, lift, ret, emit.
  destruct (source w "Reservations") as [a |], (source w "Campaign") as [b |];
    cbn [fst snd]; rewrite ?writes_app, ?app_nil_r; try reflexivity.
  destruct (EtlDataMart.marketing_mart_of (runtime w) a b) as [df | e]; [| reflexivity].
  destruct (warehouse_accepts w "marketing_mart"); cbn [fst snd];
    rewrite !writes_app; cbn [writes]; now rewrite app_nil_r.
Qed.

Lemma create_finance_mart_run (w : World) (tr : list event) :
  (fst (EtlDataMart.create_finance_mart w tr),
   writes (snd (EtlDataMart.create_finance_mart w tr))) =
  match source w "Reservations", source w "Payments" with
  | Some a, Some b =>
      match EtlDataMart.finance_mart_of a b with
      | Ok df => (Ok tt, writes tr ++ [("finance_mart", Replace, df)])
      | Raise e => (Raise e, writes tr)
      end
  | _, _ => (Ok tt, writes tr)
  end.
Proof.
  unfold EtlDataMart.create_finance_mart, EtlDataMart.extract_data,
    EtlDataMart.load_data, mbind, lift, ret, emit.
  destruct (source w "Reservations") as [a |], (source w "Payments") as [b |];
    cbn [fst snd]; rewrite ?writes_app, ?app_nil_r; try reflexivity.
  destruct (EtlDataMart.finance_mart_of a b) as [df | e]; [| reflexivity].
  destruct (warehouse_accepts w "finance_mart"); cbn [fst snd];
    rewrite !writes_app; cbn [writes]; now rewrite app_nil_r.
Qed.

Lemma create_hotel_branch_mart_run (w : World) (tr : list event) :
  (fst (EtlDataMart.create_hotel_branch_mart w tr),
   writes (snd (EtlDataMart.create_hotel_branch_mart w tr))) =
  match source w "Stays", source w "Rooms" with
  | Some a, Some b =>
      match EtlDataMart.hotel_branch_mart_of a b with
      | Ok df => (Ok tt, writes tr ++ [("hotel_branch_mart", Replace, df)])
      | Raise e => (Raise e, writes tr)
      end
  | _, _ => (Ok tt, writes tr)
  end.
Proof.
  unfold EtlDataMart.create_hotel_branch_mart, EtlDataMart.extract_data,
    EtlDataMart.load_data, mbind, lift, ret, emit.
  destruct (source w "Stays") as [a |], (source w "Rooms") as [b |];
    cbn [fst snd]; rewrite ?writes_app, ?app_nil_r; try reflexivity.
  destruct (EtlDataMart.hotel_branch_mart_of a b) as [df | e]; [| reflexivity].
  destruct (warehouse_accepts w "hotel_branch_mart"); cbn [fst snd];
    rewrite !writes_app; cbn [writes]; now rewrite app_nil_r.
Qed.

(** The run of the three marts in terms of what was read and computed. *)
Lemma data_mart_main_run (w : World) :
  let marketing :=
    match source w "Reservations", source w "Campaign" with
    | Some a, Some b => Some (EtlDataMart.marketing_mart_of (runtime w) a b)
    | _, _ => None
    end in
  let finance :=
    match source w "Reservations", source w "Payments" with
    | Some a, Some b => Some (EtlDataMart.finance_mart_of a b)
    | _, _ => None
    end in
  let hotel_branch :=
    match source w "Stays", source w "Rooms" with
    | Some a, Some b => Some (EtlDataMart.hotel_branch_mart_of a b)
    | _, _ => None
    end in
  let written (table : string) (mart : option (res DataFrame)) :=
    match mart with
    | Some (Ok df) => [(table, Replace, df)]
    | _ => []
    end in
  (fst (run (EtlDataMart.main w)), writes (snd (run (EtlDataMart.main w)))) =
  match marketing with
  | Some (Raise e) => (Raise e, [])
  | _ =>
      match finance with
      | Some (Raise e) => (Raise e, written "marketing_mart" marketing)
      | _ =>
          match hotel_branch with
          | Some (Raise e) =>
              (Raise e, written "marketing_mart" marketing ++ written "finance_mart" finance)
          | _ =>
              (Ok tt, written "marketing_mart" marketing ++ written "finance_mart" finance
                      ++ written "hotel_branch_mart" hotel_branch)
          end
      end
  end.
Proof.
  intros marketing finance hotel_branch written.
  unfold run, EtlDataMart.main, mbind.
  pose proof (create_marketing_mart_run w []) as H1.
  destruct (EtlDataMart.create_marketing_mart w []) as [r1 t1]. cbn [fst snd writes app] in H1.
  pose proof (create_finance_mart_run w t1) as H2.
  destruct (EtlDataMart.create_finance_mart w t1) as [r2 t2]. cbn [fst snd] in H2.
  pose proof (create_hotel_branch_mart_run w t2) as H3.
  destruct (EtlDataMart.create_hotel_branch_mart w t2) as [r3 t3]. cbn [fst snd] in H3.
  subst marketing finance hotel_branch written. cbv beta.
  destruct (source w "Reservations") as [rs |], (source w "Campaign") as [cs |],
    (source w "Payments") as [ps |], (source w "Stays") as [ss |],
    (source w "Rooms") as [ro |];
    try destruct (EtlDataMart.marketing_mart_of (runtime w) rs cs);
    try destruct (EtlDataMart.finance_mart_of rs ps);
    try destruct (EtlDataMart.hotel_branch_mart_of ss ro);
    injection H1 as -> Hw1; injection H2 as -> Hw2; injection H3 as -> Hw3;
    cbn [fst snd app];
    rewrite ?Hw3, ?Hw2, ?Hw1; reflexivity.
Qed.

End DataMartJob.

(** X10. The runs of the data-mart job.  The tables written are, in this
    order and with none of them twice, some of marketing_mart, finance_mart
    and hotel_branch_mart; every write replaces its table and holds the mart
    computed from the two source tables read for it.  A run that returns
    normally has written every mart whose two source tables could be read,
    whatever the warehouse answered and whether or not another mart was
    skipped for an unreadable table.  A run that ends with an exception has
    not written hotel_branch_mart, and an exception raised while the
    marketing mart is computed ends the run before anything is written. *)
Theorem data_mart_job_runs (w : Job.World) :
  let result := fst (Job.run (EtlDataMart.main w)) in
  let written := Job.writes (snd (Job.run (EtlDataMart.main w))) in
  Pandas.subsequence (map (fun x => fst (fst x)) written)
    ["marketing_mart"; "finance_mart"; "hotel_branch_mart"] /\
  (forall table mode df,
     In (table, mode, df) written ->
     mode = Job.Replace /\
     (table = "marketing_mart" /\
      (exists a b, Job.source w "Reservations" = Some a /\
                   Job.source w "Campaign" = Some b /\
                   EtlDataMart.marketing_mart_of (Job.runtime w) a b = Py.Ok df) \/
      table = "finance_mart" /\
      (exists a b, Job.source w "Reservations" = Some a /\
                   Job.source w "Payments" = Some b /\
                   EtlDataMart.finance_mart_of a b = Py.Ok df) \/
      table = "hotel_branch_mart" /\
      (exists a b, Job.source w "Stays" = Some a /\
                   Job.source w "Rooms" = Some b /\
                   EtlDataMart.hotel_branch_mart_of a b = Py.Ok df))) /\
  (result = Py.Ok tt ->
   (Job.source w "Reservations" <> None -> Job.source w "Campaign" <> None ->
    In "marketing_mart" (map (fun x => fst (fst x)) written)) /\
   (Job.source w "Reservations" <> None -> Job.source w "Payments" <> None ->
    In "finance_mart" (map (fun x => fst (fst x)) written)) /\
   (Job.source w "Stays" <> None -> Job.source w "Rooms" <> None ->
    In "hotel_branch_mart" (map (fun x => fst (fst x)) written))) /\
  (forall e, result = Py.Raise e ->
     ~ In "hotel_branch_mart" (map (fun x => fst (fst x)) written)) /\
  (forall a b e,
     Job.source w "Reservations" = Some a -> Job.source w "Campaign" = Some b ->
     EtlDataMart.marketing_mart_of (Job.runtime w) a b = Py.Raise e ->
     result = Py.Raise e /\ written = []).
Proof.
  intros result written. subst result written.
  pose proof (data_mart_main_run w) as H. cbv zeta in H.
  destruct (Job.run (EtlDataMart.main w)) as [r t]. cbn [fst snd] in *.
  destruct (Job.source w "Reservations") as [rs |], (Job.source w "Campaign") as [cs |],
    (Job.source w "Payments") as [ps |], (Job.source w "Stays") as [ss |],
    (Job.source w "Rooms") as [ro |];
    try destruct (EtlDataMart.marketing_mart_of (Job.runtime w) rs cs) as [m1 | e1] eqn:E1;
    try destruct (EtlDataMart.finance_mart_of rs ps) as [m2 | e2] eqn:E2;
    try destruct (EtlDataMart.hotel_branch_mart_of ss ro) as [m3 | e3] eqn:E3;
    injection H as -> ->; cbn [app map fst snd];
    (split;
     [repeat first [ apply Pandas.subsequence_keep | apply Pandas.subsequence_drop
                   | apply Pandas.subsequence_nil ] |]);
    (split;
     [intros table mode df Hin; cbn [In] in Hin;
      repeat (destruct Hin as [Hin | Hin];
              [injection Hin as <- <- <-; split; [reflexivity |];
               first [ left; split; [reflexivity |]; exists rs, cs; now repeat split
                     | right; left; split; [reflexivity |]; exists rs, ps; now repeat split
                     | right; right; split; [reflexivity |]; exists ss, ro;
                       now repeat split ] |]);
      destruct Hin |]);
    (split;
     [intros Hres; try discriminate Hres;
      repeat split; intros Ha Hb; try (exfalso; now apply Ha); try (exfalso; now apply Hb);
      cbn [In]; tauto |]);
    (split;
     [intros e He; try discriminate He; cbn [In]; intros Hin;
      repeat (destruct Hin as [Hin | Hin]; [discriminate Hin |]); exact Hin |]);
    intros a b e Ha Hb Hm; try discriminate Ha; try discriminate Hb;
    injection Ha as <-; injection Hb as <-;
    first [ congruence | split; [congruence | reflexivity] ].
Qed.

Lemma data_mart_job_runs_witness :
  fst (Job.run (EtlDataMart.main Sample.mart_world_without_campaign)) = Py.Ok tt /\
  map (fun x => fst (fst x))
      (Job.writes (snd (Job.run (EtlDataMart.main Sample.mart_world_without_campaign)))) =
    ["finance_mart"; "hotel_branch_mart"] /\
  ~ In "marketing_mart"
       (map (fun x => fst (fst x))
            (Job.writes (snd (Job.run (EtlDataMart.main Sample.mart_world_without_campaign))))).
Proof.
  split; [vm_compute; reflexivity |]. split; [vm_compute; reflexivity |].
  destruct (data_mart_job_runs Sample.mart_world_without_campaign)
    as (_ & Hwrite & _).
  intros Hin. apply in_map_iff in Hin as [[[table mode] df] [Ht Hin]].
  cbn [fst] in Ht. subst table.
  destruct (Hwrite _ _ _ Hin) as [_ [[_ (a & b & _ & Hb & _)] | [[Ht _] | [Ht _]]]];
    discriminate.
Defined.

(* ===================================================================== *)
(** * Further properties: the two fact tables of one run *)
(* ===================================================================== *)

Section FactTablesIntegrity.
Import Py Pandas Job.

(** When every row has one cell under the key label, the rows that
    deduplication keeps have pairwise distinct key cells. *)
Lemma keep_first_distinct_cells (c : string) (cols : list string)
  (l : list (list value)) (f : list value -> value) :
  (forall r, In r l -> cells c cols r = [f r]) ->
  NoDup (map f (keep_first (cells c cols) [] l)).
Proof.
  intros Hkey.
  pose proof (keep_first_NoDup (cells c cols) [] l) as Hnd.
  assert (map (cells c cols) (keep_first (cells c cols) [] l) =
          map (fun v => [v]) (map f (keep_first (cells c cols) [] l))) as E.
  { rewrite map_map. apply map_ext_in. intros q Hq.
    apply keep_first_In in Hq as [Hq _]. now apply Hkey. }
  rewrite E in Hnd. exact (NoDup_map_inv _ _ Hnd).
Qed.

(** ... and every key cell of the input is the key cell of a kept row. *)
Lemma keep_first_covers_cells (c : string) (cols : list string)
  (l : list (list value)) (f : list value -> value) (r : list value) :
  (forall r, In r l -> cells c cols r = [f r]) ->
  In r l ->
  In (f r) (map f (keep_first (cells c cols) [] l)).
Proof.
  intros Hkey Hr.
  destruct (keep_first_covers (cells c cols) [] l r Hr) as [[] | Hin].
  apply in_map_iff in Hin as [q [Hq Hin]].
  pose proof Hin as Hin'. apply keep_first_In in Hin' as [Hql _].
  rewrite (Hkey q Hql), (Hkey r Hr) in Hq. injection Hq as Hq.
  rewrite <- Hq. now apply in_map.
Qed.

(** The labels and rows of the stays after the merge block, when the Stay
    batch has the columns of the data model: the five stay columns (the
    reference renamed), then joined columns that carry none of the five fact
    labels. *)
Lemma merged_stays_of_data_model (reservations stays rooms users stays_m reservations_m
  : DataFrame) :
  columns stays = Spec.stay_columns ->
  EtlFact.main_merge reservations stays rooms users = Ok (stays_m, reservations_m) ->
  exists (rest : list string) (expand : list value -> list (list value)),
    columns stays_m = ["id"; "date"; "reservation_id"; "room_id"; "guest_id"] ++ rest /\
    (forall c, In c ["id"; "date"; "reservation_id"; "room_id"; "guest_id"] ->
               ~ In c rest) /\
    (forall srow, expand srow <> []) /\
    rows stays_m = flat_map (fun srow => map (fun x => srow ++ x) (expand srow)) (rows stays).
Proof.
  intros Hc Hm.
  destruct (merged_stays_shape _ _ _ _ _ _ Hm)
    as (e1 & e2 & expand & Hcm & He1 & He2 & Hid1 & Hid2 & _ & _ & _ & _ & Hne & Hrows).
  rewrite Hc in Hcm, Hid1, Hid2.
  exists (map (rename_label [("reference_reservation_id", "reservation_id")]) (e1 ++ e2)),
    expand.
  split; [rewrite Hcm, <- app_assoc, map_app; reflexivity |].
  split; [| split; [exact Hne | exact Hrows]].
  change (existsb (String.eqb "id") Spec.stay_columns) with true in Hid1.
  assert (existsb (String.eqb "id") (Spec.stay_columns ++ e1) = true) as Hex
    by reflexivity.
  rewrite Hex in Hid2.
  apply filter_eqb_nil in Hid1, Hid2.
  rewrite Forall_forall in He1, He2.
  intros c Hc5 Hin. apply in_map_iff in Hin as [l [Hl Hin]].
  apply in_app_or in Hin as [Hin | Hin].
  - pose proof (He1 l Hin) as H4. simpl in H4.
    destruct H4 as [<- | [<- | [<- | [<- | []]]]];
      try (now apply Hid1); subst c; simpl in Hc5; intuition discriminate.
  - pose proof (He2 l Hin) as H4. simpl in H4.
    destruct H4 as [<- | [<- | [<- | [<- | []]]]];
      try (now apply Hid2); subst c; simpl in Hc5; intuition discriminate.
Qed.

End FactTablesIntegrity.

(** X11. The two fact tables of one run fit together.  When the Reservation
    batch has distinct labels and full rows and the Stay batch has the
    columns of the data model and full rows, and the job writes
    fact_reservations and fact_stays: the reservation ids of fact_reservations
    are the extracted reservation ids, each once; the stay ids of fact_stays
    are pairwise distinct; the reservation_id of every row of fact_stays is
    found, as [isin] finds it, among the reservation ids of
    fact_reservations (with integer ids and an integer reference it is one of
    them; a reference read as 1.0 is found at the id 1); and no stay with a
    known reservation is lost: the id of every extracted stay whose
    reference_reservation_id is found among the extracted reservation ids is
    a stay_id of fact_stays. *)
Theorem fact_tables_fit_together (w : Job.World)
  (reservations stays fact_reservations fact_stays : Pandas.DataFrame) :
  Job.source w "Reservations" = Some reservations ->
  Job.source w "Stays" = Some stays ->
  Pandas.well_formed reservations ->
  Pandas.columns stays = Spec.stay_columns ->
  Forall (fun row => length row = length (Pandas.columns stays)) (Pandas.rows stays) ->
  In ("fact_reservations", Job.Append, fact_reservations)
     (Job.writes (snd (Job.run (EtlFact.main w)))) ->
  In ("fact_stays", Job.Append, fact_stays)
     (Job.writes (snd (Job.run (EtlFact.main w)))) ->
  let extracted_ids :=
    map (Pandas.cell "id" (Pandas.columns reservations)) (Pandas.rows reservations) in
  let reservation_ids :=
    map (Pandas.cell "reservation_id" (Pandas.columns fact_reservations))
        (Pandas.rows fact_reservations) in
  let stay_ids :=
    map (Pandas.cell "stay_id" (Pandas.columns fact_stays)) (Pandas.rows fact_stays) in
  let found (v : Py.value) (ids : list Py.value) :=
    exists id, In id ids /\ Py.same_key v id = true in
  (forall v, In v reservation_ids <-> In v extracted_ids) /\
  NoDup reservation_ids /\
  NoDup stay_ids /\
  (forall row, In row (Pandas.rows fact_stays) ->
     found (Pandas.cell "reservation_id" (Pandas.columns fact_stays) row) reservation_ids) /\
  (Forall (fun id => Pandas.is_int id = true) extracted_ids ->
   forall row z, In row (Pandas.rows fact_stays) ->
     Pandas.cell "reservation_id" (Pandas.columns fact_stays) row = Py.VInt z ->
     In (Py.VInt z) reservation_ids) /\
  (forall srow, In srow (Pandas.rows stays) ->
     found (Pandas.cell "reference_reservation_id" (Pandas.columns stays) srow)
           extracted_ids ->
     In (Pandas.cell "id" (Pandas.columns stays) srow) stay_ids) /\
  (forall srow z, In srow (Pandas.rows stays) ->
     (Pandas.cell "reference_reservation_id" (Pandas.columns stays) srow = Py.VInt z \/
      Pandas.cell "reference_reservation_id" (Pandas.columns stays) srow =
        Py.VFloat (Py.float_of_int z)) ->
     In (Py.VInt z) extracted_ids ->
     In (Pandas.cell "id" (Pandas.columns stays) srow) stay_ids).
Proof.
  intros Er Es Hwf Hsc Hsf Hinr Hins extracted_ids reservation_ids stay_ids found.
  destruct (fact_main_writes w _ _ _ Hinr)
    as (reservations0 & stays0 & rooms & users & rooms' & users' & reservations' &
        stays_m & reservations_m & valid_stays & invalid_stays & fr & fs &
        Er0 & Es0 & _ & _ & Ht & Hm & Hr & Hp & Hw).
  rewrite Er in Er0. injection Er0 as <-. rewrite Es in Es0. injection Es0 as <-.
  rewrite Hw in Hinr, Hins. simpl in Hinr, Hins.
  destruct Hinr as [Hinr | [Hinr | []]]; [| discriminate]. injection Hinr as ->.
  destruct Hins as [Hins | [Hins | []]]; [discriminate |]. injection Hins as ->.
  (* the reservations *)
  apply main_transform_inv in Ht as (_ & _ & Ht).
  destruct (transform_reservation_data_shape _ _ _ Ht) as (_ & Hwf' & _).
  specialize (Hwf' Hwf).
  pose proof (transform_reservation_data_other_column (Job.runtime w) _ _ "id" Ht
                ltac:(discriminate) ltac:(discriminate)) as Hids.
  fold extracted_ids in Hids.
  destruct (main_merge_inv _ _ _ _ _ _ Hm)
    as (rooms_cols & stays1 & users_cols & stays2 & stays_key & _ & _ & _ & _ & _ &
        Hk & Hmr).
  apply main_prepare_inv in Hp as [Hpr Hps].
  rewrite (prepare_fact_data_after_left_merge reservations' stays_key reservations_m
             "id" "reservation_id" "_stays") in Hpr;
    [| exact (proj2 Hwf') | exact Hmr |].
  2:{ intros c Hc Hin. apply in_map_iff in Hin as [l [Hl Hlk]].
      pose proof (single_selection_labels _ _ _ Hk) as Hall.
      rewrite Forall_forall in Hall. specialize (Hall l Hlk). subst l.
      unfold Pandas.with_suffix in Hl.
      destruct (Pandas.overlapping _ _ "reservation_id"); subst c; simpl in Hc;
        intuition discriminate. }
  apply prepare_fact_data_inv in Hpr as (picked & Hsel & _ & Hfr).
  apply (select_well_formed _ _ _ Hwf') in Hsel. subst picked.
  cbn [Pandas.columns Pandas.rows] in Hfr.
  set (project := fun row : list Py.value =>
                    map (fun c => Pandas.cell c (Pandas.columns reservations') row) _)
    in Hfr.
  assert (forall r, In r (map project (Pandas.rows reservations')) ->
            Pandas.cells "id"
              ["id"; "reservation_datetime"; "check_in_date"; "check_out_date"; "status";
               "hotel_id"; "booker_id"; "total_room_price"; "voucher_code";
               "total_discount"] r =
            [Pandas.cell "reservation_id" (Pandas.columns fact_reservations) r]) as Hkey.
  { intros r Hr'. apply in_map_iff in Hr' as [r0 [<- _]]. rewrite Hfr. reflexivity. }
  assert (forall r0,
            Pandas.cell "reservation_id" (Pandas.columns fact_reservations) (project r0) =
            Pandas.cell "id" (Pandas.columns reservations') r0) as Hproj.
  { intros r0. rewrite Hfr. reflexivity. }
  assert (forall v, In v reservation_ids <-> In v extracted_ids) as Hsame.
  { intros v. rewrite <- Hids. subst reservation_ids. split.
    - intros Hv. apply in_map_iff in Hv as [q [<- Hq]].
      rewrite Hfr in Hq. cbn [Pandas.rows] in Hq.
      apply keep_first_In in Hq as [Hq _]. apply in_map_iff in Hq as [r0 [<- Hr0]].
      rewrite Hproj. now apply in_map.
    - intros Hv. apply in_map_iff in Hv as [r0 [<- Hr0]].
      rewrite <- Hproj.
      replace (Pandas.rows fact_reservations)
        with (Pandas.keep_first
                (Pandas.cells "id"
                   ["id"; "reservation_datetime"; "check_in_date"; "check_out_date";
                    "status"; "hotel_id"; "booker_id"; "total_room_price"; "voucher_code";
                    "total_discount"]) [] (map project (Pandas.rows reservations')))
        by (rewrite Hfr; reflexivity).
      apply keep_first_covers_cells; [exact Hkey | now apply in_map]. }
  split; [exact Hsame |].
  split.
  { subst reservation_ids.
    replace (Pandas.rows fact_reservations)
      with (Pandas.keep_first
              (Pandas.cells "id"
                 ["id"; "reservation_datetime"; "check_in_date"; "check_out_date";
                  "status"; "hotel_id"; "booker_id"; "total_room_price"; "voucher_code";
                  "total_discount"]) [] (map project (Pandas.rows reservations')))
      by (rewrite Hfr; reflexivity).
    apply keep_first_distinct_cells. exact Hkey. }
  (* the stays *)
  destruct (merged_stays_of_data_model _ _ _ _ _ _ Hsc Hm)
    as (rest & expand & Hcm & Hrest & Hne & Hrows).
  apply main_reconcile_inv in Hr as (s & ids_m & Hs & Hi & -> & _).
  apply getitem_inv in Hs as [_ ->]. apply getitem_inv in Hi as [_ ->].
  assert (forall v,
            In v (map (Pandas.cell "id" (Pandas.columns reservations_m))
                      (Pandas.rows reservations_m)) <-> In v extracted_ids) as Hidm.
  { intros v. rewrite <- Hids.
    exact (ids_after_left_merge reservations' stays_key reservations_m
             "reservation_id" "_stays" v (proj2 Hwf') Hmr). }
  assert (Pandas.rows
            (Pandas.getitem_mask stays_m
               (Pandas.isin
                  (map (Pandas.cell "reservation_id" (Pandas.columns stays_m))
                       (Pandas.rows stays_m))
                  (map (Pandas.cell "id" (Pandas.columns reservations_m))
                       (Pandas.rows reservations_m)))) =
          filter (fun row =>
                    existsb (Py.same_key
                               (Pandas.cell "reservation_id" (Pandas.columns stays_m) row))
                      (map (Pandas.cell "id" (Pandas.columns reservations_m))
                           (Pandas.rows reservations_m)))
                 (Pandas.rows stays_m)) as Hvalid.
  { unfold Pandas.getitem_mask, Pandas.isin. cbn [Pandas.rows].
    rewrite map_map. apply mask_is_filter. }
  apply prepare_fact_data_inv in Hps as (picked & Hsel & _ & Hfs).
  apply select_inv in Hsel as [_ Hpicked].
  cbn [Pandas.columns Pandas.getitem_mask] in Hpicked.
  fold (Pandas.getitem_mask stays_m
          (Pandas.isin
             (map (Pandas.cell "reservation_id" (Pandas.columns stays_m))
                  (Pandas.rows stays_m))
             (map (Pandas.cell "id" (Pandas.columns reservations_m))
                  (Pandas.rows reservations_m)))) in Hpicked.
  rewrite Hvalid in Hpicked.
  rewrite Forall_forall in Hsf. rewrite Hsc in Hsf.
  (* a merged row gives back the stay it extends *)
  assert (forall srow x, length srow = 5%nat ->
            flat_map (fun c => Pandas.cells c (Pandas.columns stays_m) (srow ++ x))
                     ["id"; "date"; "reservation_id"; "room_id"; "guest_id"] = srow /\
            Pandas.cell "reservation_id" (Pandas.columns stays_m) (srow ++ x) =
            Pandas.cell "reference_reservation_id" Spec.stay_columns srow) as Hback.
  { intros srow x L. rewrite Hcm. unfold Pandas.cell. cbn [flat_map].
    rewrite !cells_app by exact L.
    rewrite !(cells_absent _ rest) by (apply Hrest; simpl; auto 6).
    explode_row srow L. split; reflexivity. }
  assert (Pandas.columns picked = ["id"; "date"; "reservation_id"; "room_id"; "guest_id"])
    as Hpc.
  { rewrite Hpicked, Hcm. cbn [Pandas.columns flat_map]. rewrite !filter_app.
    rewrite !(proj2 (filter_eqb_nil _ rest)) by (apply Hrest; simpl; auto 6).
    reflexivity. }
  assert (forall row, In row (Pandas.rows picked) ->
            In row (Pandas.rows stays) /\
            existsb (Py.same_key
                       (Pandas.cell "reference_reservation_id" Spec.stay_columns row))
                    extracted_ids = true) as Hpr.
  { intros row Hrow. rewrite Hpicked in Hrow. cbn [Pandas.rows] in Hrow.
    apply in_map_iff in Hrow as [row_m [<- Hrm]].
    apply filter_In in Hrm as [Hrm Hv].
    rewrite Hrows in Hrm. apply in_flat_map in Hrm as [srow [Hsrow Hrm]].
    apply in_map_iff in Hrm as [x [<- _]].
    destruct (Hback srow x (Hsf srow Hsrow)) as [Hb1 Hb2].
    rewrite Hb1. split; [exact Hsrow |].
    rewrite Hb2 in Hv. rewrite <- (existsb_same_members _ _ _ Hidm). exact Hv. }
  assert (Pandas.columns fact_stays =
          ["stay_id"; "date"; "reservation_id"; "room_id"; "guest_id"]) as Hfc.
  { rewrite Hfs. cbn [Pandas.columns]. rewrite Hpc. reflexivity. }
  assert (Pandas.rows fact_stays =
          Pandas.keep_first
            (Pandas.cells "id" ["id"; "date"; "reservation_id"; "room_id"; "guest_id"]) []
            (Pandas.rows picked)) as Hfrows.
  { rewrite Hfs. cbn [Pandas.rows]. now rewrite Hpc. }
  assert (forall r, In r (Pandas.rows picked) ->
            Pandas.cells "id" ["id"; "date"; "reservation_id"; "room_id"; "guest_id"] r =
            [Pandas.cell "stay_id" (Pandas.columns fact_stays) r]) as Hskey.
  { intros r Hr'. destruct (Hpr r Hr') as [Hrs _]. pose proof (Hsf r Hrs) as L.
    rewrite Hfc. explode_row r L. reflexivity. }
  split.
  { subst stay_ids. rewrite Hfrows. apply keep_first_distinct_cells. exact Hskey. }
  assert (forall row, In row (Pandas.rows fact_stays) ->
            existsb (Py.same_key
                       (Pandas.cell "reservation_id" (Pandas.columns fact_stays) row))
                    reservation_ids = true) as Hfound.
  { intros row Hrow. rewrite Hfrows in Hrow. apply keep_first_In in Hrow as [Hrow _].
    destruct (Hpr row Hrow) as [Hrs Hv].
    rewrite (existsb_same_members _ reservation_ids extracted_ids Hsame).
    pose proof (Hsf row Hrs) as L. rewrite Hfc.
    replace (Pandas.cell "reservation_id"
               ["stay_id"; "date"; "reservation_id"; "room_id"; "guest_id"] row)
      with (Pandas.cell "reference_reservation_id" Spec.stay_columns row);
      [exact Hv |].
    explode_row row L. reflexivity. }
  split.
  { intros row Hrow. unfold found. apply (proj1 (existsb_exists _ _)).
    now apply Hfound. }
  split.
  { intros Hint row z Hrow Hz. pose proof (Hfound row Hrow) as Hf.
    rewrite Hz in Hf.
    assert (Forall (fun id => Pandas.is_int id = true) reservation_ids) as Hint'.
    { rewrite Forall_forall in Hint |- *. intros id Hid. apply Hint. now apply Hsame. }
    exact (proj1 (existsb_same_key_integers z reservation_ids Hint') Hf). }
  assert (forall srow, In srow (Pandas.rows stays) ->
            found (Pandas.cell "reference_reservation_id" (Pandas.columns stays) srow)
                  extracted_ids ->
            In (Pandas.cell "id" (Pandas.columns stays) srow) stay_ids) as Hkept;
    [| split; [exact Hkept |];
       intros srow z Hsrow Hz Hid; apply (Hkept srow Hsrow);
       exists (Py.VInt z); split; [exact Hid |];
       destruct Hz as [-> | ->];
       [unfold Py.same_key, Py.number_of; apply Z.eqb_refl
       | apply same_key_float_of_int]].
  intros srow Hsrow Hv. rewrite Hsc in Hv |- *.
  unfold found in Hv. apply (proj2 (existsb_exists _ _)) in Hv.
  assert (In srow (Pandas.rows picked)) as Hp'.
  { rewrite Hpicked. cbn [Pandas.rows].
    destruct (expand srow) as [| x xs] eqn:Ex.
    - exfalso. exact (Hne srow Ex).
    - destruct (Hback srow x (Hsf srow Hsrow)) as [Hb1 Hb2].
      rewrite <- Hb1 at 1.
      apply (in_map (fun row =>
                       flat_map (fun c => Pandas.cells c (Pandas.columns stays_m) row)
                                ["id"; "date"; "reservation_id"; "room_id"; "guest_id"])).
      apply filter_In. split.
      + rewrite Hrows. apply in_flat_map. exists srow. split; [exact Hsrow |].
        rewrite Ex. now left.
      + rewrite Hb2. rewrite (existsb_same_members _ _ _ Hidm). exact Hv. }
  subst stay_ids. rewrite Hfrows.
  replace (Pandas.cell "id" Spec.stay_columns srow)
    with (Pandas.cell "stay_id" (Pandas.columns fact_stays) srow).
  - apply keep_first_covers_cells; [exact Hskey | exact Hp'].
  - pose proof (Hsf srow Hsrow) as L. rewrite Hfc. explode_row srow L. reflexivity.
Qed.

Lemma fact_tables_fit_together_witness :
  exists fact_reservations fact_stays,
    Job.writes (snd (Job.run (EtlFact.main Sample.world))) =
      [("fact_reservations", Job.Append, fact_reservations);
       ("fact_stays", Job.Append, fact_stays)] /\
    NoDup (map (Pandas.cell "stay_id" (Pandas.columns fact_stays))
               (Pandas.rows fact_stays)) /\
    forall row z, In row (Pandas.rows fact_stays) ->
      Pandas.cell "reservation_id" (Pandas.columns fact_stays) row = Py.VInt z ->
      In (Py.VInt z)
         (map (Pandas.cell "reservation_id" (Pandas.columns fact_reservations))
              (Pandas.rows fact_reservations)).
Proof.
  eexists. eexists. split; [vm_compute; reflexivity |].
  assert (Pandas.well_formed Sample.reservations) as Hwf by solve_well_formed.
  assert (Forall (fun row => length row = length (Pandas.columns Sample.stays))
                 (Pandas.rows Sample.stays)) as Hsf.
  { simpl. repeat (apply Forall_cons; [reflexivity |]). apply Forall_nil. }
  match goal with
  | |- NoDup (map _ (Pandas.rows ?fs)) /\
       (forall row z, _ -> _ -> In _ (map _ (Pandas.rows ?fr))) =>
      destruct (fact_tables_fit_together Sample.world Sample.reservations Sample.stays fr fs
                  eq_refl eq_refl Hwf eq_refl Hsf)
        as (_ & _ & Hstay & _ & Href & _)
  end.
  - vm_compute. left. reflexivity.
  - vm_compute. right. left. reflexivity.
  - split; [exact Hstay |]. apply Href.
    simpl. repeat (apply Forall_cons; [reflexivity |]). apply Forall_nil.
Defined.
